(** * hoshina-jobs: the GADM and OSM ingestion pipelines

    A shallow embedding of the two ingestion jobs
    ([jobs/gadm-ingestion/src] and [jobs/osm-ingestion/src]).  Each job is a
    sequence of effectful steps (read the environment, talk to PostgreSQL,
    fetch an archive over HTTP, run external programs, remove files); the
    steps are embedded as computations in a state-and-exception monad over
    an explicit [world], and every effect the claims talk about is recorded
    in the world's [journal]. *)

From Stdlib Require Import ZArith Ascii String.
From stdpp Require Import gmap strings list fin_maps pretty.

Local Open Scope Z_scope.

(** ** The Python string builtins used by the jobs

    Strings are byte strings; the character classes are the ASCII ones
    (environment values outside ASCII are not modelled). *)
Module Py.

(** [str.isspace] on one character: TAB, LF, VT, FF, CR, FS, GS, RS, US
and the blank. *)
Definition isspace (c : ascii) : bool :=
match c with
| "009" | "010" | "011" | "012" | "013"
| "028" | "029" | "030" | "031" | " " => true
| _ => false
end%char.

Definition isdigit (c : ascii) : bool :=
let n := N_of_ascii c in (48 <=? n)%N && (n <=? 57)%N.

Definition lower_char (c : ascii) : ascii :=
let n := N_of_ascii c in
if (65 <=? n)%N && (n <=? 90)%N then ascii_of_N (n + 32) else c.

Definition upper_char (c : ascii) : ascii :=
let n := N_of_ascii c in
if (97 <=? n)%N && (n <=? 122)%N then ascii_of_N (n - 32) else c.

Fixpoint map_chars (f : ascii → ascii) (s : string) : string :=
match s with
| EmptyString => EmptyString
| String c r => String (f c) (map_chars f r)
end.

(** [s.lower()] and [s.upper()]. *)
Definition lower : string → string := map_chars lower_char.
Definition upper : string → string := map_chars upper_char.

(** [s.lstrip(chars)], [s.rstrip(chars)] with the stripped class given as
a predicate. *)
Fixpoint lstrip_by (p : ascii → bool) (s : string) : string :=
match s with
| EmptyString => EmptyString
| String c r => if p c then lstrip_by p r else s
end.

Fixpoint rstrip_by (p : ascii → bool) (s : string) : string :=
match s with
| EmptyString => EmptyString
| String c r =>
  match rstrip_by p r with
  | EmptyString => if p c then EmptyString else String c EmptyString
  | r' => String c r'
  end
end.

(** [s.strip()]. *)
Definition strip (s : string) : string := rstrip_by isspace (lstrip_by isspace s).

(** [s.rstrip("/")]. *)
Definition rstrip_slash (s : string) : string :=
rstrip_by (λ c, bool_decide (c = "/"%char)) s.

(** [s.startswith(p)]. *)
Fixpoint startswith (p s : string) : bool :=
match p, s with
| EmptyString, _ => true
| String a p', String b s' => bool_decide (a = b) && startswith p' s'
| String _ _, EmptyString => false
end.

(** [p in s] for strings. *)
Fixpoint contains (p s : string) : bool :=
startswith p s ||
match s with
| EmptyString => false
| String _ s' => contains p s'
end.

(** [s.endswith(p)]: [s] is [p], or what follows its first character
ends with [p]. *)
Fixpoint endswith (p s : string) : bool :=
bool_decide (s = p) ||
match s with
| EmptyString => false
| String _ r => endswith p r
end.

Fixpoint drop_chars (n : nat) (s : string) : string :=
match n, s with
| O, _ => s
| S n', String _ r => drop_chars n' r
| S _, EmptyString => EmptyString
end.

(** [s.split(sep)] for a one-character separator: the pieces between the
separators, always at least one piece. *)
Fixpoint split_on (sep : ascii) (s : string) : list string :=
match s with
| EmptyString => [EmptyString]
| String c r =>
  if bool_decide (c = sep) then EmptyString :: split_on sep r
  else match split_on sep r with
       | [] => [String c EmptyString]
       | w :: ws => String c w :: ws
       end
end.

(** [sep.join(l)]. *)
Fixpoint join (sep : string) (l : list string) : string :=
match l with
| [] => EmptyString
| [x] => x
| x :: r => x +:+ sep +:+ join sep r
end.

(** [s.replace(old, new)] for a non-empty [old]: leftmost occurrences,
not overlapping.  The fuel is the length of [s]. *)
Fixpoint replace_go (fuel : nat) (old new s : string) : string :=
match fuel with
| O => s
| S fuel' =>
  match s with
  | EmptyString => EmptyString
  | String c r =>
      if startswith old s
      then new +:+ replace_go fuel' old new (drop_chars (String.length old) s)
      else String c (replace_go fuel' old new r)
  end
end.

Definition replace (old new s : string) : string :=
replace_go (String.length s) old new s.

(** [int(s)] in base 10: blanks around, an optional sign, then digits,
where single underscores may separate digits.  [None] stands for
[ValueError]. *)
Fixpoint digits_go (acc : Z) (prev_digit : bool) (s : string) : option Z :=
match s with
| EmptyString => if prev_digit then Some acc else None
| String c r =>
  if isdigit c
  then digits_go (10 * acc + (Z.of_N (N_of_ascii c) - 48)) true r
  else if bool_decide (c = "_"%char) && prev_digit
       then match r with
            | String d _ => if isdigit d then digits_go acc false r else None
            | EmptyString => None
            end
       else None
end.

Definition int (s : string) : option Z :=
match strip s with
| String "-" r => Z.opp <$> digits_go 0 false r
| String "+" r => digits_go 0 false r
| t => digits_go 0 false t
end.

(** [str(n)] for an integer. *)
Definition str_of_int (n : Z) : string := pretty n.

(** [float(n)] for an [int]: the double nearest to [n], ties going to the
  even mantissa.  The doubles met here are whole numbers, so the value is
  a [Z]; [None] is the [OverflowError] of an [int] that is too large for a
  double. *)
Definition float_of_int (n : Z) : option Z :=
let a := Z.abs n in
if a <? 2 ^ 53 then Some n
else
let e := Z.log2 a - 52 in
let q := a / 2 ^ e in
let r := a mod 2 ^ e in
let half := 2 ^ (e - 1) in
let m := if r <? half then q
         else if half <? r then q + 1
         else if Z.even q then q else q + 1 in
if 2 ^ 1024 <=? m * 2 ^ e then None else Some (Z.sgn n * (m * 2 ^ e)).

(** [f"{x:.2f}"] for the double [x = a / 2^k]: its decimal expansion with
  two digits after the point, correctly rounded, ties going to the even
  digit. *)
Definition format_2f (a k : Z) : string :=
let scaled := Z.abs a * 100 in
let q := scaled / 2 ^ k in
let r := scaled mod 2 ^ k in
let hundredths := if 2 * r <? 2 ^ k then q
                else if 2 ^ k <? 2 * r then q + 1
                else if Z.even q then q else q + 1 in
let cents := hundredths mod 100 in
(if a <? 0 then "-" else "") +:+ str_of_int (hundredths / 100) +:+ "." +:+
(if cents <? 10 then "0" else "") +:+ str_of_int cents.

(** [PurePath.name] and [PurePath.stem] of a path written with [/]. *)
Definition basename (p : string) : string :=
List.last (split_on "/" p) EmptyString.

Definition stem (p : string) : string :=
let name := basename p in
match rev (split_on "." name) with
| [] | [_] => name
| suffix :: init =>
  let front := join "." (rev init) in
  if bool_decide (front = EmptyString) || bool_decide (suffix = EmptyString)
  then name else front
end.

(** [PurePath.parent]. *)
Definition parent (p : string) : string :=
match rev (split_on "/" p) with
| [] | [_] => "."
| _ :: init => join "/" (rev init)
end.

(** [d / name] on paths. *)
Definition joinpath (d name : string) : string := d +:+ "/" +:+ name.

End Py.

(** ** Exceptions, events and the world *)

(** The exception classes the jobs define or let through.  [RequestException]
    stands for the [requests] hierarchy ([timeout] marks [requests.Timeout]),
    [PsycopgError] for [psycopg.Error] ([operational] marks
    [psycopg.OperationalError]). *)
Inductive exn : Type :=
  | ConfigurationError (msg : string)
  | DatabaseError (msg : string)
  | DownloadError (msg : string)
  | FilterError (msg : string)
  | UploadError (msg : string)
  | ValueError (msg : string)
  | FileNotFoundError (msg : string)
  | RequestException (timeout : bool) (msg : string)
  | PsycopgError (operational : bool) (msg : string)
  | CalledProcessError (returncode : Z)
  | BadZipFile (msg : string)
  | SqliteError (msg : string).

(** [str(e)]. *)
Definition exn_str (e : exn) : string :=
  match e with
  | ConfigurationError m | DatabaseError m | DownloadError m | FilterError m
  | UploadError m | ValueError m | FileNotFoundError m | RequestException _ m
  | PsycopgError _ m | BadZipFile m | SqliteError m => m
  | CalledProcessError rc =>
      "Command returned non-zero exit status " +:+ Py.str_of_int rc +:+ "."
  end.

Inductive result (A : Type) : Type :=
  | Ok (a : A)
  | Raise (e : exn).
Arguments Ok {A} a.
Arguments Raise {A} e.

(** The statements the jobs send to PostgreSQL. *)
Inductive query : Type :=
  | QEncoding (datname : string)
      (* SELECT pg_encoding_to_char(encoding) FROM pg_database WHERE datname = %s *)
  | QSetUtf8 (datname : string)
      (* update pg_database set encoding = pg_char_to_encoding('UTF8') where datname = %s *)
  | QCreateExtension (name : string)
      (* CREATE EXTENSION IF NOT EXISTS name *)
  | QPostgisVersion
      (* SELECT PostGIS_version() *)
  | QTablesExist (names : list string)
      (* SELECT EXISTS (SELECT FROM information_schema.tables WHERE table_name IN (...)) *)
  | QCount (table : string)
      (* SELECT COUNT( * ) FROM table *)
  | QCommit.

(** What a run does to the outside, in the order it happens.  Lines on
    stdout and stderr are journalled for the drivers and for cleanup; the
    progress and status lines of the fetch, filter and load steps (sizes,
    rates, elapsed time) are not. *)
Inductive event : Type :=
  | EConnect (conninfo : string)
  | ESql (q : query)
  | EHttpGet (url : string)
  | ESpawn (argv : list string)
  | EMkdir (path : string)
  | EOpenW (path : string)
  | EUnlink (path : string)
  | ERename (src dst : string)
  | EStdout (line : string)
  | EStderr (line : string).

(** The PostgreSQL server: [pg_down] is the reason a connection is refused,
    [pg_catalog] the rows (datname, encoding) of [pg_database], [pg_tables]
    the table names of [information_schema.tables], [pg_rejects] the
    statements the server answers with an error. *)
Record database : Type := Database {
  pg_down : option string;
  pg_catalog : list (string * string);
  pg_extensions : list string;
  pg_tables : list string;
  pg_rejects : query → option string;
}.

(** A streamed HTTP response: [resp_error] is set when the status is one
    [raise_for_status] raises on, [resp_broken] when the body breaks off
    after [resp_chunks]. *)
Record response : Type := Response {
  resp_error : option string;
  resp_content_length : option string;
  resp_chunks : list string;
  resp_broken : option string;
}.

Inductive http_reply : Type :=
  | NetFailure (timeout : bool) (msg : string)
  | Replied (r : response).

(** What running an external program does: whether the executable is
    missing, its exit status, the files it writes and the tables it creates. *)
Record program : Type := Program {
  prog_missing : bool;
  prog_returncode : Z;
  prog_writes : list (string * string);
  prog_tables : list string;
}.

(** The world a job runs in.  [remote], [programs], [zip_members] (the
    members of a zip archive, by content; [None] when it is not one) and
    [gpkg_layers] (the feature layers of a GeoPackage in table-name order,
    by content; [None] when SQLite cannot read it) are what the outside
    answers; [environ], [files], [pg] and [journal] are the state. *)
Record world : Type := World {
  environ : gmap string string;
  files : gmap string string;
  pg : database;
  remote : string → http_reply;
  programs : list string → program;
  zip_members : string → option (list (string * string));
  gpkg_layers : string → option (list string);
  journal : list event;
}.

Definition set_files (f : gmap string string → gmap string string) (w : world) : world :=
  World (environ w) (f (files w)) (pg w) (remote w) (programs w)
        (zip_members w) (gpkg_layers w) (journal w).

Definition set_pg (f : database → database) (w : world) : world :=
  World (environ w) (files w) (f (pg w)) (remote w) (programs w)
        (zip_members w) (gpkg_layers w) (journal w).

Definition record (e : event) (w : world) : world :=
  World (environ w) (files w) (pg w) (remote w) (programs w)
        (zip_members w) (gpkg_layers w) (journal w ++ [e]).

(** ** The monad of the jobs: state and exceptions *)

Definition M (A : Type) : Type := world → result A * world.

Definition ret {A} (a : A) : M A := λ w, (Ok a, w).

Definition raise {A} (e : exn) : M A := λ w, (Raise e, w).

Definition bind {A B} (m : M A) (k : A → M B) : M B :=
  λ w, match m w with
       | (Ok a, w') => k a w'
       | (Raise e, w') => (Raise e, w')
       end.

(** [try: m except ... : h e]; a handler re-raises what it does not catch. *)
Definition try_except {A} (m : M A) (h : exn → M A) : M A :=
  λ w, match m w with
       | (Ok a, w') => (Ok a, w')
       | (Raise e, w') => h e w'
       end.

Declare Scope job_scope.
Delimit Scope job_scope with job.
Notation "x ← y ; z" := (bind y (λ x, z))
  (at level 20, y at level 100, z at level 200, only parsing) : job_scope.
Notation "x ;; z" := (bind x (λ _, z))
  (at level 100, z at level 200, only parsing, right associativity) : job_scope.
Local Open Scope job_scope.

Definition emit (e : event) : M unit := λ w, (Ok tt, record e w).

Definition print (line : string) : M unit := emit (EStdout line).
Definition eprint (line : string) : M unit := emit (EStderr line).

Fixpoint for_each {A} (l : list A) (body : A → M unit) : M unit :=
  match l with
  | [] => ret tt
  | x :: r => body x;; for_each r body
  end.

(** *** The filesystem *)

Definition path_exists (p : string) : M bool :=
  λ w, (Ok (bool_decide (is_Some (files w !! p))), w).

Definition read_file (p : string) : M string :=
  λ w, match files w !! p with
       | Some c => (Ok c, w)
       | None => (Raise (FileNotFoundError p), w)
       end.

(** [Path.stat()]: only whether it succeeds matters here. *)
Definition stat (p : string) : M unit := _ ← read_file p; ret tt.

Definition mkdir (p : string) : M unit := emit (EMkdir p).

(** [open(p, 'wb')]: the file is created, or emptied when it exists. *)
Definition open_w (p : string) : M unit :=
  emit (EOpenW p);; λ w, (Ok tt, set_files (insert p EmptyString) w).

(** [f.write(chunk)]. *)
Definition append_file (p chunk : string) : M unit :=
  λ w, (Ok tt, set_files (λ fs, <[p := default EmptyString (fs !! p) +:+ chunk]> fs) w).

(** [Path.write_text]. *)
Definition write_text (p text : string) : M unit :=
  open_w p;; append_file p text.

Definition unlink (p : string) : M unit :=
  _ ← read_file p;
  emit (EUnlink p);;
  λ w, (Ok tt, set_files (delete p) w).

Definition rename (src dst : string) : M unit :=
  c ← read_file src;
  emit (ERename src dst);;
  λ w, (Ok tt, set_files (λ fs, <[dst := c]> (delete src fs)) w).

(** *** HTTP *)

(** [requests.get(url, stream=True, timeout=...)]. *)
Definition requests_get (url : string) : M response :=
  emit (EHttpGet url);;
  λ w, match remote w url with
       | NetFailure t msg => (Raise (RequestException t msg), w)
       | Replied r => (Ok r, w)
       end.

(** [response.raise_for_status()]. *)
Definition raise_for_status (r : response) : M unit :=
  match resp_error r with
  | Some msg => raise (RequestException false msg)
  | None => ret tt
  end.

(** [with open(p, 'wb') as f: for chunk in response.iter_content(...):
    if chunk: f.write(chunk)]. *)
Definition save_body (p : string) (r : response) : M unit :=
  open_w p;;
  for_each (resp_chunks r)
       (λ chunk, if bool_decide (chunk = EmptyString) then ret tt
                 else append_file p chunk);;
  match resp_broken r with
  | Some msg => raise (RequestException false msg)
  | None => ret tt
  end.

(** *** External programs *)

Definition apply_program (g : program) (w : world) : world :=
  set_pg (λ d, Database (pg_down d) (pg_catalog d) (pg_extensions d)
                        (pg_tables d ++ prog_tables g) (pg_rejects d))
    (set_files (λ fs, foldl (λ acc kv, <[kv.1 := kv.2]> acc) fs (prog_writes g)) w).

(** [subprocess.Popen(argv, ...)] read to the end, then [process.wait()]. *)
Definition popen_wait (argv : list string) : M Z :=
  emit (ESpawn argv);;
  λ w, let g := programs w argv in
       if prog_missing g
       then (Raise (FileNotFoundError (default EmptyString (head argv))), w)
       else (Ok (prog_returncode g), apply_program g w).

(** [subprocess.run(argv, check=True, ...)]. *)
Definition run_checked (argv : list string) : M unit :=
  rc ← popen_wait argv;
  if bool_decide (rc = 0) then ret tt else raise (CalledProcessError rc).

(** *** PostgreSQL *)

Definition conninfo (host : string) (port : Z) (name user password : string) : string :=
  "host=" +:+ host +:+ " port=" +:+ Py.str_of_int port +:+ " dbname=" +:+ name
  +:+ " user=" +:+ user +:+ " password=" +:+ password.

Definition lookup_assoc (k : string) (l : list (string * string)) : option string :=
  snd <$> List.find (λ kv, bool_decide (kv.1 = k)) l.

Definition set_encoding (k enc : string) (l : list (string * string)) : list (string * string) :=
  (λ kv, if bool_decide (kv.1 = k) then (kv.1, enc) else kv) <$> l.

(** The first column of the row [fetchone] gives after a statement
    ([None]: no row). *)
Inductive cell : Type :=
  | CText (s : string)
  | CBool (b : bool)
  | CNone.

Definition answer (q : query) (d : database) : result (cell * database) :=
  match q with
  | QEncoding n =>
      Ok (from_option CText CNone (lookup_assoc n (pg_catalog d)), d)
  | QSetUtf8 n =>
      Ok (CNone, Database (pg_down d) (set_encoding n "UTF8" (pg_catalog d))
                          (pg_extensions d) (pg_tables d) (pg_rejects d))
  | QCreateExtension x =>
      Ok (CNone,
          if bool_decide (x ∈ pg_extensions d) then d
          else Database (pg_down d) (pg_catalog d) (pg_extensions d ++ [x])
                        (pg_tables d) (pg_rejects d))
  | QPostgisVersion => Ok (CText "3", d)
  | QTablesExist names =>
      Ok (CBool (existsb (λ t, bool_decide (t ∈ names)) (pg_tables d)), d)
  | QCount t =>
      if bool_decide (t ∈ pg_tables d) then Ok (CText "0", d)
      else Raise (PsycopgError false ("relation " +:+ t +:+ " does not exist"))
  | QCommit => Ok (CNone, d)
  end.

(** [encoding != "UTF8"] on the cell read from the catalog. *)
Definition not_utf8 (c : cell) : bool :=
  match c with
  | CText s => negb (bool_decide (s = "UTF8"))
  | _ => true
  end.

(** [cur.execute(q)] followed, where the code does it, by [cur.fetchone()]. *)
Definition execute (q : query) : M cell :=
  emit (ESql q);;
  λ w, match pg_rejects (pg w) q with
       | Some msg => (Raise (PsycopgError false msg), w)
       | None =>
           match answer q (pg w) with
           | Ok (c, d) => (Ok c, set_pg (λ _, d) w)
           | Raise e => (Raise e, w)
           end
       end.

(** [with psycopg.connect(conninfo) as conn: body].  Leaving the block
    with an exception rolls back what the connection's own statements did to
    the catalog and the extensions (tables are only ever written by the
    external programs, over connections of their own). *)
Definition rollback (before : database) (d : database) : database :=
  Database (pg_down d) (pg_catalog before) (pg_extensions before)
           (pg_tables d) (pg_rejects d).

Definition with_connection {A} (info : string) (body : M A) : M A :=
  emit (EConnect info);;
  λ w, match pg_down (pg w) with
       | Some msg => (Raise (PsycopgError true msg), w)
       | None =>
           match body w with
           | (Ok a, w') => (Ok a, w')
           | (Raise e, w') => (Raise e, set_pg (rollback (pg w)) w')
           end
       end.

(** ** The GADM job ([jobs/gadm-ingestion/src]) *)
Module Gadm.

(** *** config.py *)

Record Config : Type := MkConfig {
db_host : string;
db_port : Z;
db_name : string;
db_user : string;
db_password : string;
data_dir : string;
ogr2ogr_path : string;
gadm_geopackage_url : string;
}.

Definition raw_dir (c : Config) : string := Py.joinpath (data_dir c) "gadm_410-levels.gpkg".
Definition zip_dir (c : Config) : string := Py.joinpath (data_dir c) "gadm_410-levels.zip".
Definition md5_dir (c : Config) : string := Py.joinpath (data_dir c) "gadm_410-levels.md5".

Definition connection_string (c : Config) : string :=
conninfo (db_host c) (db_port c) (db_name c) (db_user c) (db_password c).

Definition get_env_bool (env : gmap string string) (key : string) (default : bool) : bool :=
let value := Py.lower (option.default EmptyString (env !! key)) in
if bool_decide (value = EmptyString) then default
else bool_decide (value ∈ ["true"; "1"; "yes"; "on"]).

Definition get_env_int (env : gmap string string) (key : string) (default : Z) : result Z :=
match env !! key with
| None | Some EmptyString => Ok default
| Some value =>
  match Py.int value with
  | Some n => Ok n
  | None => Raise (ConfigurationError (key +:+ " must be an integer, got: " +:+ value))
  end
end.

Definition required (key : string) : exn :=
ConfigurationError (key +:+ " environment variable is required").

Definition load_config (env : gmap string string) : result Config :=
let db_host := Py.strip (option.default EmptyString (env !! "DB_HOST")) in
let db_name := Py.strip (option.default EmptyString (env !! "DB_NAME")) in
let db_user := Py.strip (option.default EmptyString (env !! "DB_USER")) in
let db_password := Py.strip (option.default EmptyString (env !! "DB_PASSWORD")) in
if bool_decide (db_host = EmptyString) then Raise (required "DB_HOST")
else if bool_decide (db_name = EmptyString) then Raise (required "DB_NAME")
else if bool_decide (db_user = EmptyString) then Raise (required "DB_USER")
else if bool_decide (db_password = EmptyString) then Raise (required "DB_PASSWORD")
else
match get_env_int env "DB_PORT" 5432 with
| Raise e => Raise e
| Ok db_port =>
    let data_dir := option.default "/app/data" (env !! "DATA_DIR") in
    let ogr2ogr_path := option.default "/usr/bin/ogr2ogr" (env !! "OGR2OGR_PATH") in
    match env !! "GADM_GEOPACKAGE_URL" with
    | None | Some EmptyString => Raise (required "GADM_GEOPACKAGE_URL")
    | Some gadm_geopackage_url =>
        Ok (MkConfig db_host db_port db_name db_user db_password
                     data_dir ogr2ogr_path gadm_geopackage_url)
    end
end.

(** *** database.py *)

Definition as_database_error (e : exn) : M unit :=
match e with
| PsycopgError true msg => raise (DatabaseError ("Failed to connect to database: " +:+ msg))
| PsycopgError false msg => raise (DatabaseError ("Database error: " +:+ msg))
| _ => raise e
end.

Definition verify_connection (config : Config) : M unit :=
try_except
(with_connection (connection_string config)
   (result ← execute (QEncoding (db_name config));
    match result with
    | CNone =>
        raise (DatabaseError ("Database '" +:+ db_name config +:+ "' not found"))
    | encoding =>
        (if not_utf8 encoding
         then _ ← execute (QSetUtf8 (db_name config)); ret tt
         else ret tt);;
        _ ← execute (QCreateExtension "postgis");
        _ ← execute QPostgisVersion;
        _ ← execute (QCreateExtension "hstore");
        _ ← execute QCommit;
        ret tt
    end))
as_database_error.

Definition expected_tables : list string :=
["admin0"; "admin1"; "admin2"; "admin3"; "admin4"; "admin5"].

Definition check_existing_data (config : Config) : M bool :=
try_except
(with_connection (connection_string config)
   (result ← execute (QTablesExist expected_tables);
    match result with
    | CBool b => ret b
    | CText _ => ret true
    | CNone => ret false
    end))
(λ e, match e with
      | PsycopgError _ msg =>
          raise (DatabaseError ("Failed to check existing tables: " +:+ msg))
      | _ => raise e
      end).

(** *** upload.py *)

(** Lines 31-35 of [upload_levels_gpkg]: the destination table of a layer. *)
Definition table_of_layer (layer : string) : result string :=
let parts := Py.split_on "_" layer in
if (length parts <? 2)%nat
then Raise (ValueError ("Invalid layer name format: " +:+ layer
                      +:+ ". Expected format: gadmN_admN"))
else
let level := nth 1 parts EmptyString in
Ok ("admin" +:+ level).

Definition ogr2ogr_cmd (config : Config) (table_name layer gpkg_path : string) : list string :=
[ ogr2ogr_path config;
"--config"; "PG_USE_COPY"; "YES";
"-overwrite";
"-gt"; "100000";
"-f"; "PostgreSQL";
"-nln"; table_name;
"-nlt"; "PROMOTE_TO_MULTI";
"-lco"; "GEOMETRY_NAME=geom";
"-lco"; "FID=ogc_fid";
"-lco"; "SPATIAL_INDEX=GIST";
"-sql"; "SELECT * FROM " +:+ layer;
"PG:" +:+ connection_string config;
gpkg_path ].

(** The body of the loop over the layers. *)
Definition upload_layer (config : Config) (gpkg_path layer : string) : M unit :=
match table_of_layer layer with
| Raise e => raise e
| Ok table_name =>
  run_checked (ogr2ogr_cmd config table_name layer gpkg_path);;
  _ ← execute (QCount table_name);
  _ ← execute QCommit;
  ret tt
end.

(** [sqlite3.connect(path)] and the query on [gpkg_contents]. *)
Definition feature_layers (gpkg_path : string) : M (list string) :=
content ← read_file gpkg_path;
λ w, match gpkg_layers w content with
   | Some layers => (Ok layers, w)
   | None => (Raise (SqliteError "no such table: gpkg_contents"), w)
   end.

Definition upload_levels_gpkg (config : Config) : M unit :=
let gpkg_path := raw_dir config in
present ← path_exists gpkg_path;
if negb present
then raise (FileNotFoundError ("GeoPackage not found: " +:+ gpkg_path))
else
layers ← feature_layers gpkg_path;
match layers with
| [] => raise (ValueError ("No feature layers found in " +:+ gpkg_path))
| _ =>
    with_connection (connection_string config)
      (for_each layers (upload_layer config gpkg_path))
end.

(** *** download.py *)

Definition _read_md5 (file_path : string) : M (option string) :=
present ← path_exists file_path;
if present then text ← read_file file_path; ret (Some (Py.strip text))
else ret None.

Definition _write_md5 (md5_hash file_path : string) : M unit :=
mkdir (Py.parent file_path);;
write_text file_path md5_hash.

(** [with zipfile.ZipFile(zip_file) as zip_ref]: the first member whose
name ends in [.gpkg] is extracted next to the archive and renamed to
[gpkg_file].  (The [except] clause of the source prints and re-raises.) *)
Definition _extract_gpkg (zip_file gpkg_file : string) : M unit :=
content ← read_file zip_file;
members ← (λ w, match zip_members w content with
              | Some ms => (Ok ms, w)
              | None => (Raise (BadZipFile "File is not a zip file"), w)
              end);
match List.find (λ m : string * string, Py.endswith ".gpkg" m.1) members with
| Some (filename, data) =>
  let extracted_file := Py.joinpath (Py.parent zip_file) filename in
  write_text extracted_file data;;
  if bool_decide (extracted_file = gpkg_file) then ret tt
  else rename extracted_file gpkg_file
| None => ret tt
end.

Definition cleanup_geopackage (config : Config) : M unit :=
let gpkg_file := raw_dir config in
present ← path_exists gpkg_file;
if present
then unlink gpkg_file;; print ("✓ Cleaned up " +:+ gpkg_file)
else print ("X " +:+ gpkg_file +:+ " not found, nothing to clean").

Section WithDigest.

(** [hashlib.md5(content).hexdigest()]. *)
Variable md5_hexdigest : string → string.

Definition _calculate_md5 (file_path : string) : M string :=
content ← read_file file_path;
ret (md5_hexdigest content).

(** [not zip_file.exists() or not stored_md5 or
_calculate_md5(zip_file) != stored_md5], left to right. *)
Definition must_download (zip_file : string) (stored_md5 : option string) : M bool :=
present ← path_exists zip_file;
if negb present then ret true
else match stored_md5 with
| None | Some EmptyString => ret true
| Some stored =>
   computed ← _calculate_md5 zip_file;
   ret (negb (bool_decide (computed = stored)))
end.

(** Lines 48-65 of [download_geopackage_levels], the body of the [if]:
fetch the archive, then store its digest.  The two [except] clauses
of the source print and re-raise. *)
Definition refresh_archive (config : Config) : M unit :=
let zip_file := zip_dir config in
response ← requests_get (gadm_geopackage_url config);
raise_for_status response;;
save_body zip_file response;;
new_md5 ← _calculate_md5 zip_file;
_write_md5 new_md5 (md5_dir config).

Definition download_geopackage_levels (config : Config) : M string :=
mkdir (data_dir config);;
let gpkg_file := raw_dir config in
let zip_file := zip_dir config in
stored_md5 ← _read_md5 (md5_dir config);
stale ← must_download zip_file stored_md5;
(if stale then refresh_archive config else ret tt);;
_extract_gpkg zip_file gpkg_file;;
ret gpkg_file.

(** *** __main__.py *)

Definition skip_message : string :=
"Existing GADM data found in the database. Skipping download to avoid overwriting or use --force to override.".

Definition main (force : bool) : M Z :=
λ w,
match load_config (environ w) with
| Raise (ConfigurationError msg) =>
(eprint ("Configuration error: " +:+ msg);; ret 1) w
| Raise e => raise e w
| Ok config =>
(verify_connection config;;
 existing ← check_existing_data config;
 if existing && negb force
 then eprint skip_message;; ret 0
 else
   _ ← download_geopackage_levels config;
   upload_levels_gpkg config;;
   cleanup_geopackage config;;
   ret 0) w
end.

End WithDigest.

End Gadm.

(** ** The OSM job ([jobs/osm-ingestion/src]) *)
Module Osm.

(** *** config.py *)

Record Config : Type := MkConfig {
region : string;
db_host : string;
db_port : Z;
db_name : string;
db_user : string;
db_password : string;
cache_size_mb : Z;
num_processes : Z;
cleanup : bool;
drop_slim_tables : bool;
data_dir : string;
geofabrik_base_url : string;
log_level : string;
log_format : string;
}.

Definition raw_dir (c : Config) : string := Py.joinpath (data_dir c) "raw".
Definition filtered_dir (c : Config) : string := Py.joinpath (data_dir c) "filtered".

Definition get_download_url (c : Config) : string :=
if bool_decide (region c = "planet") then
if Py.contains "download.geofabrik.de" (geofabrik_base_url c)
then "https://planet.openstreetmap.org/pbf/planet-latest.osm.pbf"
else geofabrik_base_url c +:+ "/planet-latest.osm.pbf"
else geofabrik_base_url c +:+ "/" +:+ region c +:+ "-latest.osm.pbf".

Definition REGIONS : list string :=
[ "africa"; "antarctica"; "asia"; "australia-oceania"; "central-america";
"europe"; "north-america"; "south-america"; "planet" ].

Definition get_env_bool (env : gmap string string) (key : string) (default : bool) : bool :=
let value := Py.lower (option.default EmptyString (env !! key)) in
if bool_decide (value = EmptyString) then default
else bool_decide (value ∈ ["true"; "1"; "yes"; "on"]).

Definition get_env_int (env : gmap string string) (key : string) (default : Z) : result Z :=
match env !! key with
| None | Some EmptyString => Ok default
| Some value =>
  match Py.int value with
  | Some n => Ok n
  | None => Raise (ConfigurationError (key +:+ " must be an integer, got: " +:+ value))
  end
end.

Definition newline : string := String "010"%char EmptyString.

Definition available_regions : string :=
"Available regions: " +:+ Py.join ", " REGIONS.

Definition required (key : string) : exn :=
ConfigurationError (key +:+ " environment variable is required").

Definition load_config (env : gmap string string) : result Config :=
let region := Py.strip (option.default EmptyString (env !! "OSM_REGION")) in
if bool_decide (region = EmptyString)
then Raise (ConfigurationError ("OSM_REGION environment variable is required."
                              +:+ newline +:+ available_regions))
else if negb (bool_decide (region ∈ REGIONS))
then Raise (ConfigurationError ("Invalid region: " +:+ region
                              +:+ newline +:+ available_regions))
else
let db_host := Py.strip (option.default EmptyString (env !! "DB_HOST")) in
let db_name := Py.strip (option.default EmptyString (env !! "DB_NAME")) in
let db_user := Py.strip (option.default EmptyString (env !! "DB_USER")) in
let db_password := Py.strip (option.default EmptyString (env !! "DB_PASSWORD")) in
if bool_decide (db_host = EmptyString) then Raise (required "DB_HOST")
else if bool_decide (db_name = EmptyString) then Raise (required "DB_NAME")
else if bool_decide (db_user = EmptyString) then Raise (required "DB_USER")
else if bool_decide (db_password = EmptyString) then Raise (required "DB_PASSWORD")
else
match get_env_int env "DB_PORT" 5432 with
| Raise e => Raise e
| Ok db_port =>
match get_env_int env "CACHE_SIZE_MB" 2000 with
| Raise e => Raise e
| Ok cache_size_mb =>
match get_env_int env "NUM_PROCESSES" 4 with
| Raise e => Raise e
| Ok num_processes =>
let cleanup := get_env_bool env "CLEANUP" true in
let drop_slim_tables := get_env_bool env "DROP_SLIM_TABLES" false in
let data_dir := option.default "/app/data" (env !! "DATA_DIR") in
let geofabrik_base_url :=
Py.rstrip_slash (option.default "https://download.geofabrik.de"
                                (env !! "GEOFABRIK_BASE_URL")) in
let log_level := Py.upper (option.default "INFO" (env !! "LOG_LEVEL")) in
if negb (bool_decide (log_level ∈ ["DEBUG"; "INFO"; "WARNING"; "ERROR"]))
then Raise (ConfigurationError ("Invalid LOG_LEVEL: " +:+ log_level +:+ ". "
                              +:+ "Must be one of: DEBUG, INFO, WARNING, ERROR"))
else
let log_format := Py.lower (option.default "json" (env !! "LOG_FORMAT")) in
if negb (bool_decide (log_format ∈ ["json"; "text"]))
then Raise (ConfigurationError ("Invalid LOG_FORMAT: " +:+ log_format
                              +:+ ". Must be 'json' or 'text'"))
else
Ok (MkConfig region db_host db_port db_name db_user db_password
             cache_size_mb num_processes cleanup drop_slim_tables
             data_dir geofabrik_base_url log_level log_format)
end end end.

(** *** database.py *)

Definition conn_str (c : Config) : string :=
conninfo (db_host c) (db_port c) (db_name c) (db_user c) (db_password c).

Definition as_database_error (e : exn) : M unit :=
match e with
| PsycopgError true msg => raise (DatabaseError ("Failed to connect to database: " +:+ msg))
| PsycopgError false msg => raise (DatabaseError ("Database error: " +:+ msg))
| _ => raise e
end.

Definition cell_str (c : cell) : string :=
match c with
| CText s => s
| CBool true => "True"
| CBool false => "False"
| CNone => "None"
end.

(** The version string read after [SELECT PostGIS_version()] is bound to
a local that is never used. *)
Definition verify_connection (config : Config) : M unit :=
try_except
(with_connection (conn_str config)
   (result ← execute (QEncoding (db_name config));
    match result with
    | CNone =>
        raise (DatabaseError ("Database '" +:+ db_name config +:+ "' not found"))
    | encoding =>
        if not_utf8 encoding
        then raise (DatabaseError ("Database must use UTF8 encoding, found: "
                                   +:+ cell_str encoding))
        else
          _ ← execute (QCreateExtension "postgis");
          _ ← execute QPostgisVersion;
          _ ← execute (QCreateExtension "hstore");
          _ ← execute QCommit;
          ret tt
    end))
as_database_error.

Definition expected_tables : list string :=
["planet_osm_point"; "planet_osm_line"; "planet_osm_polygon"].

Definition check_existing_data (config : Config) : M bool :=
try_except
(with_connection (conn_str config)
   (result ← execute (QTablesExist expected_tables);
    match result with
    | CBool b => ret b
    | CText _ => ret true
    | CNone => ret false
    end))
(λ e, match e with
      | PsycopgError _ msg =>
          raise (DatabaseError ("Failed to check existing tables: " +:+ msg))
      | _ => raise e
      end).

(** *** download.py *)

Definition output_file_of (config : Config) : string :=
Py.joinpath (raw_dir config) (region config +:+ "-latest.osm.pbf").

(** The loop of [format_size] once [bytes_size] is a float: [a / 2^k] is
  the value, [units] the units still to try. *)
Fixpoint scale_size (units : list string) (a k : Z) : string :=
match units with
| [] => Py.format_2f a k +:+ " PB"
| unit :: rest =>
  if a <? 1024 * 2 ^ k then Py.format_2f a k +:+ " " +:+ unit
  else scale_size rest a (k + 10)
end.

(** [format_size(bytes_size)] for an [int].  The first comparison is made
  on the [int]; to be formatted, or divided by [1024.0], it becomes a
  float, which is where an [OverflowError] (here [None]) can arise.  The
  divisions by 1024 that follow are exact. *)
Definition format_size (bytes_size : Z) : option string :=
if bytes_size <? 1024
then match Py.float_of_int bytes_size with
   | Some x => Some (Py.format_2f x 0 +:+ " B")
   | None => None
   end
else match Py.float_of_int bytes_size with
   | Some x => Some (scale_size ["KB"; "MB"; "GB"; "TB"] x 10)
   | None => None
   end.

(** [int(response.headers.get('content-length', 0))]. *)
Definition content_length (r : response) : M Z :=
match resp_content_length r with
| None => ret 0
| Some h =>
  match Py.int h with
  | Some n => ret n
  | None => raise (ValueError ("invalid literal for int() with base 10: '" +:+ h +:+ "'"))
  end
end.

Definition remove_partial (output_file : string) : M unit :=
present ← path_exists output_file;
if present then unlink output_file else ret tt.

Definition download_region (config : Config) : M string :=
let url := get_download_url config in
let output_file := output_file_of config in
mkdir (raw_dir config);;
present ← path_exists output_file;
if present then ret output_file
else
try_except
  (response ← requests_get url;
   raise_for_status response;;
   _ ← content_length response;
   save_body output_file response;;
   ret output_file)
  (λ e, match e with
        | RequestException _ msg =>
            remove_partial output_file;;
            raise (DownloadError ("Download failed: " +:+ msg))
        | _ =>
            remove_partial output_file;;
            raise (DownloadError ("Unexpected error during download: " +:+ exn_str e))
        end).

(** *** filter.py *)

Definition osmium_cmd (input_file output_file : string) : list string :=
[ "osmium"; "tags-filter"; input_file; "w/highway";
"-o"; output_file; "--overwrite"; "--progress" ].

Definition filter_roads (input_file output_file : string) : M unit :=
mkdir (Py.parent output_file);;
try_except
(return_code ← popen_wait (osmium_cmd input_file output_file);
 if negb (bool_decide (return_code = 0))
 then raise (FilterError ("osmium tags-filter failed with exit code "
                          +:+ Py.str_of_int return_code))
 else stat input_file;; stat output_file)
(λ e, match e with
      | FileNotFoundError _ =>
          raise (FilterError "osmium command not found. Ensure osmium-tool is installed in the container.")
      | _ => raise (FilterError ("Filter operation failed: " +:+ exn_str e))
      end).

Definition filtered_file_of (config : Config) (input_file : string) : string :=
let base_name := Py.replace "-latest" "" (Py.stem input_file) in
Py.joinpath (filtered_dir config) (base_name +:+ "-roads.osm.pbf").

Definition filter_osm_data (config : Config) (input_file : string) : M string :=
let output_file := filtered_file_of config input_file in
present ← path_exists output_file;
if present then ret output_file
else filter_roads input_file output_file;; ret output_file.

(** *** upload.py *)

Definition osm2pgsql_cmd (config : Config) (pbf_file : string) : list string :=
[ "osm2pgsql"; "--slim"; "--hstore"; "--multi-geometry"; "--create";
"-d"; db_name config;
"-U"; db_user config;
"-H"; db_host config;
"-P"; Py.str_of_int (db_port config);
"-S"; "/usr/share/osm2pgsql/default.style";
"--cache"; Py.str_of_int (cache_size_mb config);
"--number-processes"; Py.str_of_int (num_processes config) ]
++ (if drop_slim_tables config then ["--drop"] else [])
++ [pbf_file].

Definition upload_to_database (config : Config) (pbf_file : string) : M unit :=
try_except
(return_code ← popen_wait (osm2pgsql_cmd config pbf_file);
 if negb (bool_decide (return_code = 0))
 then raise (UploadError ("osm2pgsql failed with exit code "
                          +:+ Py.str_of_int return_code))
 else ret tt)
(λ e, match e with
      | FileNotFoundError _ =>
          raise (UploadError "osm2pgsql command not found. Ensure osm2pgsql is installed in the container.")
      | _ => raise (UploadError ("Upload operation failed: " +:+ exn_str e))
      end).

(** *** main.py *)

(** [try: x = m except E as e: ...; return code], followed by the rest of
the function: [handler] gives the early return for the exceptions the
clause catches, [None] for those it lets through. *)
Definition attempt {A} (m : M A) (handler : exn → option (M Z)) (rest : A → M Z) : M Z :=
λ w, match m w with
   | (Ok a, w') => rest a w'
   | (Raise e, w') =>
       match handler e with
       | Some h => h w'
       | None => (Raise e, w')
       end
   end.

Definition rule : string := "============================================================".

Definition database_line (config : Config) : string :=
"Database: " +:+ db_host config +:+ ":" +:+ Py.str_of_int (db_port config)
+:+ "/" +:+ db_name config.

Definition on_database_error (e : exn) : option (M Z) :=
match e with
| DatabaseError msg => Some (eprint ("Database error: " +:+ msg);; ret 4)
| _ => None
end.

(** Lines 68-72 of [main]: [if config.cleanup and raw_file.exists(): ...]. *)
Definition cleanup_raw (config : Config) (raw_file : string) : M unit :=
present ← path_exists raw_file;
if cleanup config && present then
print ("Cleaning up raw file: " +:+ Py.basename raw_file);;
unlink raw_file;;
print ("✓ Raw file deleted" +:+ newline)
else ret tt.

(** Lines 83-87 of [main]: [if config.cleanup and filtered_file.exists(): ...]. *)
Definition cleanup_filtered (config : Config) (filtered_file : string) : M unit :=
present ← path_exists filtered_file;
if cleanup config && present then
print ("Cleaning up filtered file: " +:+ Py.basename filtered_file);;
unlink filtered_file;;
print ("✓ Filtered file deleted" +:+ newline)
else ret tt.

Definition main : M Z :=
λ w,
match load_config (environ w) with
| Raise (ConfigurationError msg) =>
    (eprint ("Configuration error: " +:+ msg);; ret 1) w
| Raise e => raise e w
| Ok config =>
  (print ("Loaded configuration for region: " +:+ region config);;
   print (database_line config);;
   attempt
     (print "Verifying database connection...";;
      verify_connection config;;
      print "✓ Database connection verified";;
      print "✓ PostGIS extension available";;
      print "✓ hstore extension available")
     on_database_error
     (λ _,
   attempt (check_existing_data config) on_database_error
     (λ existing,
   if existing : bool then
     print "✓ OSM tables already exist in database";;
     print "⚠ Cannot append data - osm2pgsql append mode is not supported";;
     print "  To process a different region, use a separate database";;
     print "Pipeline complete (skipping - data already present)";;
     ret 0
   else
   print (newline +:+ "--- Step 1: Download ---");;
   attempt (download_region config)
     (λ e, match e with
           | DownloadError msg => Some (eprint ("Download error: " +:+ msg);; ret 2)
           | _ => None
           end)
     (λ raw_file,
   print ("✓ Raw file ready: " +:+ Py.basename raw_file +:+ newline);;
   print "--- Step 2: Filter ---";;
   attempt (filter_osm_data config raw_file)
     (λ e, match e with
           | FilterError msg => Some (eprint ("Filter error: " +:+ msg);; ret 3)
           | _ => None
           end)
     (λ filtered_file,
   print ("✓ Filtered file ready: " +:+ Py.basename filtered_file +:+ newline);;
   cleanup_raw config raw_file;;
   print "--- Step 3: Upload ---";;
   attempt (upload_to_database config filtered_file)
     (λ e, match e with
           | UploadError msg => Some (eprint ("Upload error: " +:+ msg);; ret 4)
           | _ => None
           end)
     (λ _,
   print ("✓ Data imported to database" +:+ newline);;
   cleanup_filtered config filtered_file;;
   print rule;;
   print "Pipeline complete!";;
   print ("Region: " +:+ region config);;
   print (database_line config);;
   print rule;;
   ret 0)))))) w
end.

End Osm.

(** ** Paths

    The last character of a string: two paths with different last characters
    are different files. *)
Fixpoint last_char (s : string) : option ascii :=
  match s with
  | EmptyString => None
  | String c EmptyString => Some c
  | String _ r => last_char r
  end.

(** ** Reading the journal *)

Definition http_requests (j : list event) : list string :=
  omap (λ e, match e with EHttpGet url => Some url | _ => None end) j.

Definition spawned (j : list event) : list (list string) :=
  omap (λ e, match e with ESpawn argv => Some argv | _ => None end) j.

Definition created (j : list event) : list string :=
  omap (λ e, match e with
             | EOpenW p => Some p
             | ERename _ dst => Some dst
             | _ => None
             end) j.

Definition unlinked (j : list event) : list string :=
  omap (λ e, match e with EUnlink p => Some p | _ => None end) j.

Definition sql_statements (j : list event) : list query :=
  omap (λ e, match e with ESql q => Some q | _ => None end) j.

(** The event may change the file at [p]: it opens, removes or renames it,
    or it starts a program (a program may write any file). *)
Definition touches (e : event) (p : string) : Prop :=
  match e with
  | EOpenW q | EUnlink q => q = p
  | ERename src dst => src = p ∨ dst = p
  | ESpawn _ => True
  | _ => False
  end.

Definition is_spawn (e : event) : Prop :=
  match e with ESpawn _ => True | _ => False end.

(** [evolves φ w w']: [w'] comes after [w] in a run.  What the outside
    answers is the same, the journal has grown by events that all satisfy
    [φ], a file is as it was unless one of these events touches it, and
    the tables are as they were unless a program was started. *)
Definition evolves (φ : event → Prop) (w w' : world) : Prop :=
  environ w' = environ w ∧ remote w' = remote w ∧ programs w' = programs w ∧
  zip_members w' = zip_members w ∧ gpkg_layers w' = gpkg_layers w ∧
  pg_down (pg w') = pg_down (pg w) ∧ pg_rejects (pg w') = pg_rejects (pg w) ∧
  ∃ d, journal w' = journal w ++ d ∧ Forall φ d ∧
       (∀ p, Forall (λ e, ¬ touches e p) d → files w' !! p = files w !! p) ∧
       (Forall (λ e, ¬ is_spawn e) d → pg_tables (pg w') = pg_tables (pg w)).

(** [behaves φ P m]: every run of [m] only adds events that satisfy [φ],
    and an exception it raises satisfies [P]. *)
Definition behaves {A} (φ : event → Prop) (P : exn → Prop) (m : M A) : Prop :=
  ∀ w, evolves φ w (m w).2 ∧ (∀ e, (m w).1 = Raise e → P e).

(** Event classes. *)
Definition database_event (e : event) : Prop :=
  match e with EConnect _ | ESql _ => True | _ => False end.

Definition console_event (e : event) : Prop :=
  match e with EStdout _ | EStderr _ => True | _ => False end.

(** Talking to the database and to the console: no HTTP request, no
    program, no file or directory made, removed or renamed. *)
Definition quiet_event (e : event) : Prop := database_event e ∨ console_event e.

(** Lines on stdout. *)
Definition say (lines : list string) (w : world) : world :=
  foldl (λ acc line, record (EStdout line) acc) w lines.

(** ** The drivers as phase machines (spec 4.6) *)

Inductive outcome : Type :=
  | success
  | skipped
  | configuration_error
  | database_error
  | download_error
  | filter_error
  | upload_error
  | crashed (e : exn).

(** The exit code of each outcome; a crash is an uncaught exception. *)
Definition exit_status (o : outcome) : result Z :=
  match o with
  | success | skipped => Ok 0
  | configuration_error => Ok 1
  | download_error => Ok 2
  | filter_error => Ok 3
  | database_error | upload_error => Ok 4
  | crashed e => Raise e
  end.

Module OsmMachine.
Import Osm.

Inductive phase : Type :=
| Configuring
| Verifying (c : Config)
| CheckingExisting (c : Config)
| Downloading (c : Config)
| Filtering (c : Config) (raw_file : string)
| DiscardingRaw (c : Config) (raw_file filtered_file : string)
| Uploading (c : Config) (filtered_file : string)
| CleaningUp (c : Config) (filtered_file : string).

Definition skip_lines : list string :=
[ "✓ OSM tables already exist in database";
"⚠ Cannot append data - osm2pgsql append mode is not supported";
"  To process a different region, use a separate database";
"Pipeline complete (skipping - data already present)" ].

Definition verified_lines : list string :=
[ "✓ Database connection verified";
"✓ PostGIS extension available";
"✓ hstore extension available" ].

Definition closing_lines (c : Config) : list string :=
[ rule; "Pipeline complete!"; "Region: " +:+ region c; database_line c; rule ].

(** [run p w o w']: started in phase [p] and world [w], the driver ends
with outcome [o] in world [w'].  Each phase runs its step once; a
step that raises the error its [except] clause names ends the run
with one line on stderr. *)
Inductive run : phase → world → outcome → world → Prop :=
| configured w c o w' :
  load_config (environ w) = Ok c →
  run (Verifying c)
      (say ["Loaded configuration for region: " +:+ region c; database_line c] w) o w' →
  run Configuring w o w'
| configuration_failed w msg :
  load_config (environ w) = Raise (ConfigurationError msg) →
  run Configuring w configuration_error
      (record (EStderr ("Configuration error: " +:+ msg)) w)
| verified c w w1 o w' :
  verify_connection c (say ["Verifying database connection..."] w) = (Ok tt, w1) →
  run (CheckingExisting c) (say verified_lines w1) o w' →
  run (Verifying c) w o w'
| verification_failed c w w1 msg :
  verify_connection c (say ["Verifying database connection..."] w)
    = (Raise (DatabaseError msg), w1) →
  run (Verifying c) w database_error
      (record (EStderr ("Database error: " +:+ msg)) w1)
| data_present c w w1 :
  check_existing_data c w = (Ok true, w1) →
  run (CheckingExisting c) w skipped (say skip_lines w1)
| data_absent c w w1 o w' :
  check_existing_data c w = (Ok false, w1) →
  run (Downloading c) (say [newline +:+ "--- Step 1: Download ---"] w1) o w' →
  run (CheckingExisting c) w o w'
| check_failed c w w1 msg :
  check_existing_data c w = (Raise (DatabaseError msg), w1) →
  run (CheckingExisting c) w database_error
      (record (EStderr ("Database error: " +:+ msg)) w1)
| downloaded c w raw_file w1 o w' :
  download_region c w = (Ok raw_file, w1) →
  run (Filtering c raw_file)
      (say ["✓ Raw file ready: " +:+ Py.basename raw_file +:+ newline;
            "--- Step 2: Filter ---"] w1) o w' →
  run (Downloading c) w o w'
| download_failed c w w1 msg :
  download_region c w = (Raise (DownloadError msg), w1) →
  run (Downloading c) w download_error
      (record (EStderr ("Download error: " +:+ msg)) w1)
| filtered c raw_file w filtered_file w1 o w' :
  filter_osm_data c raw_file w = (Ok filtered_file, w1) →
  run (DiscardingRaw c raw_file filtered_file)
      (say ["✓ Filtered file ready: " +:+ Py.basename filtered_file +:+ newline] w1)
      o w' →
  run (Filtering c raw_file) w o w'
| filter_failed c raw_file w w1 msg :
  filter_osm_data c raw_file w = (Raise (FilterError msg), w1) →
  run (Filtering c raw_file) w filter_error
      (record (EStderr ("Filter error: " +:+ msg)) w1)
| raw_discarded c raw_file filtered_file w w1 o w' :
  cleanup_raw c raw_file w = (Ok tt, w1) →
  run (Uploading c filtered_file) (say ["--- Step 3: Upload ---"] w1) o w' →
  run (DiscardingRaw c raw_file filtered_file) w o w'
| uploaded c filtered_file w w1 o w' :
  upload_to_database c filtered_file w = (Ok tt, w1) →
  run (CleaningUp c filtered_file)
      (say ["✓ Data imported to database" +:+ newline] w1) o w' →
  run (Uploading c filtered_file) w o w'
| upload_failed c filtered_file w w1 msg :
  upload_to_database c filtered_file w = (Raise (UploadError msg), w1) →
  run (Uploading c filtered_file) w upload_error
      (record (EStderr ("Upload error: " +:+ msg)) w1)
| cleaned_up c filtered_file w w1 :
  cleanup_filtered c filtered_file w = (Ok tt, w1) →
  run (CleaningUp c filtered_file) w success (say (closing_lines c) w1).

End OsmMachine.

Module GadmMachine.
Import Gadm.

Inductive phase : Type :=
| Configuring
| Verifying (c : Config)
| CheckingExisting (c : Config)
| Downloading (c : Config)
| Uploading (c : Config)
| CleaningUp (c : Config).

Section WithDigest.
Variable md5_hexdigest : string → string.
Variable force : bool.

(** The GADM driver catches the configuration error only: any other
exception of a step ends the run as a crash. *)
Inductive run : phase → world → outcome → world → Prop :=
| configured w c o w' :
load_config (environ w) = Ok c →
run (Verifying c) w o w' →
run Configuring w o w'
| configuration_failed w msg :
load_config (environ w) = Raise (ConfigurationError msg) →
run Configuring w configuration_error
  (record (EStderr ("Configuration error: " +:+ msg)) w)
| verified c w w1 o w' :
verify_connection c w = (Ok tt, w1) →
run (CheckingExisting c) w1 o w' →
run (Verifying c) w o w'
| verification_failed c w w1 e :
verify_connection c w = (Raise e, w1) →
run (Verifying c) w (crashed e) w1
| data_present c w w1 :
check_existing_data c w = (Ok true, w1) →
force = false →
run (CheckingExisting c) w skipped (record (EStderr skip_message) w1)
| data_wanted c w w1 existing o w' :
check_existing_data c w = (Ok existing, w1) →
existing && negb force = false →
run (Downloading c) w1 o w' →
run (CheckingExisting c) w o w'
| check_failed c w w1 e :
check_existing_data c w = (Raise e, w1) →
run (CheckingExisting c) w (crashed e) w1
| downloaded c w gpkg_file w1 o w' :
download_geopackage_levels md5_hexdigest c w = (Ok gpkg_file, w1) →
run (Uploading c) w1 o w' →
run (Downloading c) w o w'
| download_failed c w w1 e :
download_geopackage_levels md5_hexdigest c w = (Raise e, w1) →
run (Downloading c) w (crashed e) w1
| uploaded c w w1 o w' :
upload_levels_gpkg c w = (Ok tt, w1) →
run (CleaningUp c) w1 o w' →
run (Uploading c) w o w'
| upload_failed c w w1 e :
upload_levels_gpkg c w = (Raise e, w1) →
run (Uploading c) w (crashed e) w1
| cleaned_up c w w1 :
cleanup_geopackage c w = (Ok tt, w1) →
run (CleaningUp c) w success w1.

End WithDigest.

End GadmMachine.

(** ** The configuration checks, in the order [load_config] makes them *)

Inductive check : Type :=
  | Required (key : string)
  | KnownRegion (key : string)
  | Integer (key : string).

(** A required variable fails when it is absent or empty after trimming, the
    region when it is not one of [REGIONS], an integer variable when it is
    set, not empty and not an integer literal. *)
Definition fails (env : gmap string string) (c : check) : bool :=
  match c with
  | Required key =>
      bool_decide (Py.strip (default EmptyString (env !! key)) = EmptyString)
  | KnownRegion key =>
      negb (bool_decide (Py.strip (default EmptyString (env !! key)) ∈ Osm.REGIONS))
  | Integer key =>
      match env !! key with
      | None | Some EmptyString => false
      | Some v => bool_decide (Py.int v = None)
      end
  end.

Definition first_failure (env : gmap string string) (checks : list check) : option check :=
  List.find (fails env) checks.



Definition osm_checks : list check :=
  [ Required "OSM_REGION"; KnownRegion "OSM_REGION";
    Required "DB_HOST"; Required "DB_NAME"; Required "DB_USER"; Required "DB_PASSWORD";
    Integer "DB_PORT"; Integer "CACHE_SIZE_MB"; Integer "NUM_PROCESSES" ].


(** The values [get_env_bool] reads as true. *)
Definition truthy : list string := ["true"; "1"; "yes"; "on"].

Definition with_cleanup (b : bool) (c : Osm.Config) : Osm.Config :=
  Osm.MkConfig (Osm.region c) (Osm.db_host c) (Osm.db_port c) (Osm.db_name c)
    (Osm.db_user c) (Osm.db_password c) (Osm.cache_size_mb c) (Osm.num_processes c)
    b (Osm.drop_slim_tables c) (Osm.data_dir c) (Osm.geofabrik_base_url c)
    (Osm.log_level c) (Osm.log_format c).

Definition with_drop_slim_tables (b : bool) (c : Osm.Config) : Osm.Config :=
  Osm.MkConfig (Osm.region c) (Osm.db_host c) (Osm.db_port c) (Osm.db_name c)
    (Osm.db_user c) (Osm.db_password c) (Osm.cache_size_mb c) (Osm.num_processes c)
    (Osm.cleanup c) b (Osm.data_dir c) (Osm.geofabrik_base_url c)
    (Osm.log_level c) (Osm.log_format c).

(** ** Sample worlds *)

Definition sample_database : database :=
  Database None [("gis", "UTF8")] [] [] (λ _, None).

Definition osm_environ : gmap string string :=
  list_to_map [ ("OSM_REGION", "europe"); ("DB_HOST", "db"); ("DB_NAME", "gis");
                ("DB_USER", "ingest"); ("DB_PASSWORD", "secret") ].

Definition gadm_environ : gmap string string :=
  list_to_map [ ("GADM_GEOPACKAGE_URL", "https://geodata.example/gadm_410-levels.zip");
                ("DB_HOST", "db"); ("DB_NAME", "gis");
                ("DB_USER", "ingest"); ("DB_PASSWORD", "secret") ].

Definition sample_reply : http_reply :=
  Replied (Response None (Some "4") ["PK"; "34"] None).

Definition idle_program : program := Program false 0 [] [].

Definition sample_world (env : gmap string string) : world :=
  World env ∅ sample_database (λ _, sample_reply) (λ _, idle_program)
        (λ _, None) (λ _, None) [].

Definition osm_config : Osm.Config :=
  Osm.MkConfig "europe" "db" 5432 "gis" "ingest" "secret" 2000 4 true false
               "/app/data" "https://download.geofabrik.de" "INFO" "json".

Definition gadm_config : Gadm.Config :=
  Gadm.MkConfig "db" 5432 "gis" "ingest" "secret" "/app/data" "/usr/bin/ogr2ogr"
                "https://geodata.example/gadm_410-levels.zip".


(** The two configurations name the same database and credentials. *)
Definition same_database (g : Gadm.Config) (o : Osm.Config) : Prop :=
  Gadm.db_host g = Osm.db_host o ∧ Gadm.db_port g = Osm.db_port o ∧
  Gadm.db_name g = Osm.db_name o ∧ Gadm.db_user g = Osm.db_user o ∧
  Gadm.db_password g = Osm.db_password o.

(** The encoding [pg_database] lists for a database. *)
Definition catalogued (name : string) (w : world) : option string :=
  lookup_assoc name (pg_catalog (pg w)).

(** A reachable server that lists the database with another encoding. *)
Definition latin1_database (tables : list string) : database :=
  Database None [("gis", "LATIN1")] [] tables (λ _, None).

Definition latin1_world (env : gmap string string) (tables : list string) : world :=
  World env ∅ (latin1_database tables) (λ _, sample_reply) (λ _, idle_program)
        (λ _, None) (λ _, None) [].

(** The body of a response: its chunks, one after the other. *)
Definition body_of (r : response) : string :=
  foldr String.append EmptyString (resp_chunks r).

(** The world of the OSM fetcher after the request, before the body is saved. *)
Definition asked (c : Osm.Config) (w : world) : world :=
  record (EHttpGet (Osm.get_download_url c)) (record (EMkdir (Osm.raw_dir c)) w).

(** The GADM archive has to be fetched: it is absent, or no digest is
    stored (no file, or a blank one), or the digest of the archive is not the
    stored one. *)
Definition stale (md5_hexdigest : string → string) (c : Gadm.Config) (w : world) : bool :=
  match files w !! Gadm.zip_dir c, files w !! Gadm.md5_dir c with
  | Some archive, Some stored =>
      bool_decide (Py.strip stored = EmptyString)
      || negb (bool_decide (md5_hexdigest archive = Py.strip stored))
  | _, _ => true
  end.

(** The world of the GADM fetcher after a download that went through. *)
Definition refreshed (md5_hexdigest : string → string) (c : Gadm.Config) (r : response)
    (w : world) : world :=
  set_files (insert (Gadm.md5_dir c) (md5_hexdigest (body_of r)))
    (record (EOpenW (Gadm.md5_dir c))
       (record (EMkdir (Py.parent (Gadm.md5_dir c)))
          (set_files (insert (Gadm.zip_dir c) (body_of r))
             (record (EOpenW (Gadm.zip_dir c))
                (record (EHttpGet (Gadm.gadm_geopackage_url c)) w))))).

(** What extraction does: it writes and renames files whose names end in
    [g] (the [.gpkg] files). *)
Definition extraction_event (e : event) : Prop :=
  match e with
  | EOpenW p => last_char p = Some "g"%char
  | ERename src dst => last_char src = Some "g"%char ∧ last_char dst = Some "g"%char
  | _ => False
  end.

(** A toy digest for the sample runs. *)
Definition toy_digest (content : string) : string := "md5:" +:+ content.

(** The remote server cannot be reached. *)
Definition offline_world (env : gmap string string) : world :=
  World env ∅ sample_database (λ _, NetFailure false "connection refused")
        (λ _, idle_program) (λ _, None) (λ _, None) [].



(** ** What each step may do and raise *)

Definition database_error_only (e : exn) : Prop :=
  match e with DatabaseError _ => True | _ => False end.

Definition download_error_only (e : exn) : Prop :=
  match e with DownloadError _ => True | _ => False end.

Definition filter_error_only (e : exn) : Prop :=
  match e with FilterError _ => True | _ => False end.

Definition upload_error_only (e : exn) : Prop :=
  match e with UploadError _ => True | _ => False end.

Definition nothing_raised (e : exn) : Prop := False.

(** The fetch step: a directory, a request, and the destination file
    opened and, on failure, removed. *)
Definition download_step (destination : string) (e : event) : Prop :=
  match e with
  | EMkdir _ | EHttpGet _ => True
  | EOpenW p | EUnlink p => p = destination
  | _ => False
  end.

(** The filter step: a directory and the [osmium] program. *)
Definition filter_step (e : event) : Prop :=
  match e with
  | EMkdir _ => True
  | ESpawn argv => head argv = Some "osmium"
  | _ => False
  end.

(** The load step of the OSM job: the [osm2pgsql] program. *)
Definition upload_step (e : event) : Prop :=
  match e with
  | ESpawn argv => head argv = Some "osm2pgsql"
  | _ => False
  end.

(** Removing one file, with lines on stdout. *)
Definition discard_step (p : string) (e : event) : Prop :=
  match e with
  | EStdout _ => True
  | EUnlink q => q = p
  | _ => False
  end.

(** The steps of the GADM job before cleanup: anything but removing a file. *)
Definition keeps_files (e : event) : Prop :=
  match e with EUnlink _ => False | _ => True end.

(** Some expected table is there. *)
Definition data_present (expected : list string) (w : world) : Prop :=
  ∃ t, t ∈ expected ∧ t ∈ pg_tables (pg w).

(** ** Reading a run of the OSM driver *)

(** The step a phase runs, counted from the configuration. *)
Definition stage (p : OsmMachine.phase) : nat :=
  match p with
  | OsmMachine.Configuring => 0
  | OsmMachine.Verifying _ => 1
  | OsmMachine.CheckingExisting _ => 2
  | OsmMachine.Downloading _ => 3
  | OsmMachine.Filtering _ _ => 4
  | OsmMachine.DiscardingRaw _ _ _ => 5
  | OsmMachine.Uploading _ _ => 6
  | OsmMachine.CleaningUp _ _ => 7
  end.

(** The last step a run with this outcome may have reached. *)
Definition ended (o : outcome) : nat :=
  match o with
  | configuration_error => 0
  | database_error | skipped => 2
  | download_error => 3
  | filter_error => 4
  | upload_error => 6
  | success | crashed _ => 7
  end.

(** The events a run with this outcome may make: a configuration error
    only writes to the console; a database error or a skip also talks to
    the database; a download error starts no program; a filter error
    starts no program but [osmium]. *)
Definition allowed (o : outcome) (e : event) : Prop :=
  match o with
  | configuration_error => console_event e
  | database_error | skipped => quiet_event e
  | download_error => ¬ is_spawn e
  | filter_error =>
      match e with ESpawn argv => head argv = Some "osmium" | _ => True end
  | _ => True
  end.




(** Between [w] and [w'] no HTTP request was made, no program was started
    and no file was created, removed or changed. *)
Definition untouched (w w' : world) : Prop :=
  ∃ d, journal w' = journal w ++ d
       ∧ http_requests d = [] ∧ spawned d = [] ∧ created d = [] ∧ unlinked d = []
       ∧ files w' = files w.

(** A database that holds tables of both jobs. *)
Definition loaded_database : database :=
  Database None [("gis", "UTF8")] [] ["planet_osm_point"; "admin0"] (λ _, None).

Definition loaded_world (env : gmap string string) : world :=
  World env ∅ loaded_database (λ _, sample_reply) (λ _, idle_program)
        (λ _, None) (λ _, None) [].

(** ** Clean-up and the upload *)

(** The event does not remove the file at [p]. *)
Definition spares (p : string) (e : event) : Prop :=
  match e with EUnlink q => q ≠ p | _ => True end.

(** A run of the GADM job from [w] to [w'] with outcome [o]: unless it
    ends with success no file is removed; when it does, none is removed up
    to the world in which [upload_levels_gpkg] returned, and
    [cleanup_geopackage] went from there. *)
Definition gadm_cleanup_after_upload (w : world) (o : outcome) (w' : world) : Prop :=
  (o ≠ success → evolves keeps_files w w')
  ∧ (o = success →
     ∃ c w3 w4, evolves keeps_files w w4
                ∧ Gadm.upload_levels_gpkg c w3 = (Ok tt, w4)
                ∧ Gadm.cleanup_geopackage c w4 = (Ok tt, w')).

(** The same for the filtered file of the OSM job: it is not removed
    unless the run ends with success, and then not before
    [upload_to_database] returned. *)
Definition osm_cleanup_after_upload (c : Osm.Config) (filtered_file : string)
    (w : world) (o : outcome) (w' : world) : Prop :=
  (o ≠ success → evolves (spares filtered_file) w w')
  ∧ (o = success →
     ∃ w3 w4 w5, evolves (spares filtered_file) w w4
                 ∧ Osm.upload_to_database c filtered_file w3 = (Ok tt, w4)
                 ∧ Osm.cleanup_filtered c filtered_file
                     (say ["✓ Data imported to database" +:+ Osm.newline] w4) = (Ok tt, w5)
                 ∧ w' = say (OsmMachine.closing_lines c) w5).

(** The configuration and the filtered file a phase works towards. *)
Definition aims_at (p : OsmMachine.phase) (c : Osm.Config) (filtered_file : string) : Prop :=
  match p with
  | OsmMachine.Verifying c' | OsmMachine.CheckingExisting c' | OsmMachine.Downloading c' =>
      c' = c ∧ filtered_file = Osm.filtered_file_of c (Osm.output_file_of c)
  | OsmMachine.Filtering c' raw_file =>
      c' = c ∧ raw_file = Osm.output_file_of c
      ∧ filtered_file = Osm.filtered_file_of c raw_file
  | OsmMachine.DiscardingRaw c' raw_file f =>
      c' = c ∧ raw_file = Osm.output_file_of c ∧ f = filtered_file
      ∧ filtered_file = Osm.filtered_file_of c raw_file
  | OsmMachine.Uploading c' f => c' = c ∧ f = filtered_file
  | OsmMachine.Configuring | OsmMachine.CleaningUp _ _ => False
  end.

(** The tools of the OSM job for the sample configuration: [osmium]
    writes the filtered file, [osm2pgsql] exits with [status] and, when that
    is 0, has made the tables. *)
Definition osm_tools (status : Z) (argv : list string) : program :=
  if bool_decide (head argv = Some "osmium")
  then Program false 0
         [(Osm.filtered_file_of osm_config (Osm.output_file_of osm_config), "roads")] []
  else if bool_decide (head argv = Some "osm2pgsql")
       then Program false status []
              (if bool_decide (status = 0) then Osm.expected_tables else [])
       else idle_program.

Definition tooled_world (status : Z) : world :=
  World osm_environ ∅ sample_database (λ _, sample_reply) (osm_tools status)
        (λ _, None) (λ _, None) [].

(** ** Vocabulary of the further properties

    An external program is what [program] records of it; what it prints
    plays no part, the progress lines of [osmium] and [osm2pgsql] being
    taken for text that the parsers of the filter and load steps read
    without raising. *)

(** The log settings as [load_config] of the OSM job reads them. *)
Definition log_levels : list string := ["DEBUG"; "INFO"; "WARNING"; "ERROR"].
Definition log_formats : list string := ["json"; "text"].

Definition log_level_of (env : gmap string string) : string :=
  Py.upper (default "INFO" (env !! "LOG_LEVEL")).

Definition log_format_of (env : gmap string string) : string :=
  Py.lower (default "json" (env !! "LOG_FORMAT")).

(** The GADM variables with a URL made of blanks. *)
Definition blank_url_environ : gmap string string :=
  <["GADM_GEOPACKAGE_URL" := "  "]> gadm_environ.

(** No character of the string satisfies [p]. *)
Fixpoint free_of (p : ascii → bool) (s : string) : bool :=
  match s with
  | EmptyString => true
  | String c r => negb (p c) && free_of p r
  end.

(** A character that [repr] shows as it is inside single quotes: printable
    ASCII, neither a quote nor a backslash. *)
Definition shown_as_is (c : ascii) : bool :=
  let n := N_of_ascii c in
  (32 <=? n)%N && (n <? 127)%N && negb (n =? 39)%N && negb (n =? 92)%N.

(** The OSM tools when [osmium] writes its output and then fails. *)
Definition osmium_crashes (argv : list string) : program :=
  if bool_decide (head argv = Some "osmium")
  then Program false 137
         [(Osm.filtered_file_of osm_config (Osm.output_file_of osm_config), "ro")] []
  else idle_program.

Definition crashing_world : world :=
  World osm_environ {[ Osm.output_file_of osm_config := "PK34" ]} sample_database
        (λ _, sample_reply) osmium_crashes (λ _, None) (λ _, None) [].

(** A reply whose [Content-Length] is not a number. *)
Definition odd_length_reply : http_reply :=
  Replied (Response None (Some "4 bytes") ["PK"; "34"] None).

Definition odd_length_world : world :=
  World osm_environ ∅ sample_database (λ _, odd_length_reply) (λ _, idle_program)
        (λ _, None) (λ _, None) [].

(** [CREATE EXTENSION IF NOT EXISTS x] on the database. *)
Definition add_extension (x : string) (d : database) : database :=
  if bool_decide (x ∈ pg_extensions d) then d
  else Database (pg_down d) (pg_catalog d) (pg_extensions d ++ [x])
                (pg_tables d) (pg_rejects d).

(** The database after a connection check that went through. *)
Definition with_extensions (d : database) : database :=
  add_extension "hstore" (add_extension "postgis" d).

(** The statements both connection checks always send. *)
Definition verify_statements (datname : string) : list query :=
  [ QEncoding datname; QCreateExtension "postgis"; QPostgisVersion;
    QCreateExtension "hstore"; QCommit ].

(** The server refuses none of the statements. *)
Definition accepts (d : database) (qs : list query) : Prop :=
  ∀ q, q ∈ qs → pg_rejects d q = None.

(** The events of a run from [w] to [w']: what the journal gained. *)
Definition events_between (w w' : world) : list event :=
  drop (length (journal w)) (journal w').



(** A GeoPackage with two layers, and [ogr2ogr] making the table it is
    asked for (the argument after [-nln]). *)
Definition ogr2ogr_tool (argv : list string) : program :=
  Program false 0 [] [nth 10 argv EmptyString].


(** An archive with a GeoPackage inside. *)
Definition archive_world : world :=
  World gadm_environ ∅ sample_database (λ _, sample_reply) (λ _, idle_program)
        (λ _, Some [("README.txt", "read me"); ("gadm_410-levels.gpkg", "GPKG")])
        (λ _, None) [].

(** The computation leaves the rows of [pg_database] as they are. *)
Definition keeps_catalog {A} (m : M A) : Prop :=
  ∀ w, pg_catalog (pg (m w).2) = pg_catalog (pg w).

(** A world in which the whole GADM pipeline goes through: the archive
    holds a GeoPackage with two layers, and [ogr2ogr] makes the table it is
    asked for. *)
Definition gadm_ready_world : world :=
  World gadm_environ ∅ sample_database (λ _, sample_reply) ogr2ogr_tool
        (λ _, Some [("README.txt", "read me"); ("gadm_410-levels.gpkg", "GPKG")])
        (λ _, Some ["ADM_0"; "ADM_1"]) [].

(** From [w] to [w'] no file has been removed: the journal has grown by
    events none of which is an [unlink]. *)
Definition removes_nothing (w w' : world) : Prop :=
  ∃ d, journal w' = journal w ++ d ∧ unlinked d = [].

(** The units of [format_size], smallest first. *)
Definition size_units : list string := ["B"; "KB"; "MB"; "GB"; "TB"; "PB"].

(** The OSM configuration with another database password. *)
Definition with_password (p : string) (c : Osm.Config) : Osm.Config :=
  Osm.MkConfig (Osm.region c) (Osm.db_host c) (Osm.db_port c) (Osm.db_name c)
    (Osm.db_user c) p (Osm.cache_size_mb c) (Osm.num_processes c)
    (Osm.cleanup c) (Osm.drop_slim_tables c) (Osm.data_dir c) (Osm.geofabrik_base_url c)
    (Osm.log_level c) (Osm.log_format c).

(** * Properties *)

(** ** Strings *)

Lemma append_cons (c : ascii) (a s : string) : String c a +:+ s = String c (a +:+ s).
Proof. reflexivity. Qed.

Lemma append_nil_l (s : string) : "" +:+ s = s.
Proof. reflexivity. Qed.

Lemma append_nil_r (s : string) : s +:+ "" = s.
Proof. induction s as [|c s IH]; [done | by rewrite append_cons, IH]. Qed.

Lemma append_assoc (a b c : string) : (a +:+ b) +:+ c = a +:+ b +:+ c.
Proof. induction a as [|x a IH]; [done | by rewrite !append_cons, IH]. Qed.


Lemma lower_empty (s : string) : Py.lower s = "" ↔ s = "".
Proof. destruct s; simpl; split; intros; done. Qed.

Lemma last_char_append (a b : string) : b ≠ "" → last_char (a +:+ b) = last_char b.
Proof.
  intros Hb. induction a as [|c a IH]; [done |].
  rewrite append_cons. simpl. rewrite IH. destruct (a +:+ b) eqn:E; [| done].
  destruct a; [done | discriminate].
Qed.

Lemma endswith_last_char (p s : string) :
  p ≠ "" → Py.endswith p s = true → last_char s = last_char p.
Proof.
  intros Hp. induction s as [|c s IH]; simpl.
  - rewrite orb_false_r. intros <-%bool_decide_eq_true. done.
  - intros [<-%bool_decide_eq_true | H]%orb_true_iff; [done |].
    specialize (IH H). rewrite <- IH.
    destruct s; [| done]. simpl in H. rewrite orb_false_r in H.
    apply bool_decide_eq_true in H. congruence.
Qed.

(** Membership in a concrete list, and its negation, by evaluation. *)
Ltac by_evaluation := apply (bool_decide_unpack _); vm_compute; exact I.

(** ** The monad *)

Lemma bind_ok {A B} (m : M A) (k : A → M B) w a w' :
  m w = (Ok a, w') → bind m k w = k a w'.
Proof. unfold bind. by intros ->. Qed.

Lemma bind_raise {A B} (m : M A) (k : A → M B) w e w' :
  m w = (Raise e, w') → bind m k w = (Raise e, w').
Proof. unfold bind. by intros ->. Qed.

(** ** C4: the OSM fetcher skips an existing file *)

(** C4.  Whenever the destination file
    [<data_dir>/raw/<region>-latest.osm.pbf] exists, whatever its content,
    [download_region] returns that path after making sure the directory
    exists: the journal gains no HTTP request and the files are untouched. *)
Theorem osm_existing_file_is_not_fetched (c : Osm.Config) (w : world) (content : string) :
  files w !! Osm.output_file_of c = Some content →
  Osm.download_region c w = (Ok (Osm.output_file_of c), record (EMkdir (Osm.raw_dir c)) w)
  ∧ http_requests (journal (Osm.download_region c w).2) = http_requests (journal w)
  ∧ files (Osm.download_region c w).2 = files w.
Proof.
  intros Hfile.
  assert (Osm.download_region c w
          = (Ok (Osm.output_file_of c), record (EMkdir (Osm.raw_dir c)) w)) as Hrun.
  { unfold Osm.download_region, mkdir, emit, path_exists, bind, ret. simpl.
    rewrite Hfile. rewrite bool_decide_eq_true_2 by eauto. done. }
  rewrite Hrun. split; [done |]. split; [| done].
  simpl. unfold http_requests. rewrite omap_app. simpl. by rewrite app_nil_r.
Qed.

Lemma osm_existing_file_is_not_fetched_witness :
  let w := set_files (insert (Osm.output_file_of osm_config) "stale bytes")
                     (sample_world osm_environ) in
  http_requests (journal (Osm.download_region osm_config w).2) = [].
Proof.
  intros w.
  destruct (osm_existing_file_is_not_fetched osm_config w "stale bytes") as (_ & H & _).
  - unfold w. simpl. apply lookup_insert_eq.
  - exact H.
Defined.

(** ** C10: boolean variables *)

Lemma get_env_bool_agree (env : gmap string string) (key : string) (dflt : bool) :
  Gadm.get_env_bool env key dflt = Osm.get_env_bool env key dflt.
Proof. reflexivity. Qed.

Lemma get_env_bool_unset (env : gmap string string) (key : string) (dflt : bool) :
  env !! key = None ∨ env !! key = Some "" → Osm.get_env_bool env key dflt = dflt.
Proof. unfold Osm.get_env_bool. by intros [-> | ->]. Qed.

Lemma get_env_bool_set (env : gmap string string) (key v : string) (dflt : bool) :
  env !! key = Some v → v ≠ "" →
  Osm.get_env_bool env key dflt = bool_decide (Py.lower v ∈ truthy).
Proof.
  intros Hv Hne. unfold Osm.get_env_bool. rewrite Hv. simpl.
  rewrite bool_decide_eq_false_2; [done |]. by rewrite lower_empty.
Qed.

Lemma get_env_bool_insert_ne (env : gmap string string) (k k' v : string) (d : bool) :
  k ≠ k' → Osm.get_env_bool (<[k := v]> env) k' d = Osm.get_env_bool env k' d.
Proof. intros. unfold Osm.get_env_bool. by rewrite lookup_insert_ne. Qed.

Lemma get_env_int_insert_ne (env : gmap string string) (k k' v : string) (d : Z) :
  k ≠ k' → Osm.get_env_int (<[k := v]> env) k' d = Osm.get_env_int env k' d.
Proof. intros. unfold Osm.get_env_int. by rewrite lookup_insert_ne. Qed.

(** One step of the case analysis that follows [load_config] through its
    checks. *)
Ltac next_check :=
  match goal with
  | |- context [bool_decide ?P] => destruct (bool_decide P); cbn [negb]; try reflexivity
  | |- context [Osm.get_env_int ?e ?k ?d] =>
      destruct (Osm.get_env_int e k d); try reflexivity
  end.

(** Setting [CLEANUP] changes the [cleanup] field of the configuration and
    nothing else: whether [load_config] succeeds, and with which error it
    fails, does not depend on the value. *)
Lemma load_config_cleanup (env : gmap string string) (v : string) :
  Osm.load_config (<["CLEANUP" := v]> env) =
  match Osm.load_config env with
  | Ok c => Ok (with_cleanup (Osm.get_env_bool (<["CLEANUP" := v]> env) "CLEANUP" true) c)
  | Raise e => Raise e
  end.
Proof.
  unfold Osm.load_config.
  rewrite !(get_env_int_insert_ne env "CLEANUP") by done.
  rewrite !(get_env_bool_insert_ne env "CLEANUP" "DROP_SLIM_TABLES") by done.
  rewrite !(lookup_insert_ne env "CLEANUP") by done.
  repeat next_check.
Qed.

Lemma load_config_drop_slim_tables (env : gmap string string) (v : string) :
  Osm.load_config (<["DROP_SLIM_TABLES" := v]> env) =
  match Osm.load_config env with
  | Ok c => Ok (with_drop_slim_tables
                  (Osm.get_env_bool (<["DROP_SLIM_TABLES" := v]> env) "DROP_SLIM_TABLES" false) c)
  | Raise e => Raise e
  end.
Proof.
  unfold Osm.load_config.
  rewrite !(get_env_int_insert_ne env "DROP_SLIM_TABLES") by done.
  rewrite !(get_env_bool_insert_ne env "DROP_SLIM_TABLES" "CLEANUP") by done.
  rewrite !(lookup_insert_ne env "DROP_SLIM_TABLES") by done.
  repeat next_check.
Qed.

(** C10.  [get_env_bool] is a total function to [bool] (it has no way to
    raise); both jobs define the same one.  An unset or empty variable gives
    the default; a non-empty value gives true when its lower-case form is
    one of true, 1, yes, on, and false otherwise.  In the OSM [load_config]
    the values of [CLEANUP] and [DROP_SLIM_TABLES] only set their fields:
    they neither cause nor cure a configuration error, and an unrecognised
    non-empty [CLEANUP] turns cleanup off although the default is on. *)
Theorem boolean_variables_are_total (env : gmap string string) (key v : string) (dflt : bool) :
  Gadm.get_env_bool env key dflt = Osm.get_env_bool env key dflt
  ∧ (env !! key = None ∨ env !! key = Some "" → Osm.get_env_bool env key dflt = dflt)
  ∧ (env !! key = Some v → v ≠ "" → Py.lower v ∈ truthy →
     Osm.get_env_bool env key dflt = true)
  ∧ (env !! key = Some v → v ≠ "" → Py.lower v ∉ truthy →
     Osm.get_env_bool env key dflt = false)
  ∧ Osm.load_config (<["CLEANUP" := v]> env) =
    match Osm.load_config env with
    | Ok c => Ok (with_cleanup (Osm.get_env_bool (<["CLEANUP" := v]> env) "CLEANUP" true) c)
    | Raise e => Raise e
    end
  ∧ Osm.load_config (<["DROP_SLIM_TABLES" := v]> env) =
    match Osm.load_config env with
    | Ok c => Ok (with_drop_slim_tables
                    (Osm.get_env_bool (<["DROP_SLIM_TABLES" := v]> env)
                                      "DROP_SLIM_TABLES" false) c)
    | Raise e => Raise e
    end
  ∧ (v ≠ "" → Py.lower v ∉ truthy →
     ∀ c, Osm.load_config (<["CLEANUP" := v]> env) = Ok c → Osm.cleanup c = false).
Proof.
  split; [apply get_env_bool_agree |].
  split; [apply get_env_bool_unset |].
  split.
  { intros Hv Hne Hin. rewrite (get_env_bool_set _ _ v) by done.
    by apply bool_decide_eq_true_2. }
  split.
  { intros Hv Hne Hin. rewrite (get_env_bool_set _ _ v) by done.
    by apply bool_decide_eq_false_2. }
  split; [apply load_config_cleanup |].
  split; [apply load_config_drop_slim_tables |].
  intros Hne Hout c. rewrite load_config_cleanup.
  destruct (Osm.load_config env) as [c0 | e]; [| done].
  intros [= <-]. simpl.
  rewrite (get_env_bool_set _ _ v); [| apply lookup_insert_eq | done].
  by apply bool_decide_eq_false_2.
Qed.

Lemma boolean_variables_are_total_witness :
  Osm.get_env_bool (<["CLEANUP" := "Yes"]> osm_environ) "CLEANUP" false = true
  ∧ ∀ c, Osm.load_config (<["CLEANUP" := "banana"]> osm_environ) = Ok c →
         Osm.cleanup c = false.
Proof.
  split.
  - destruct (boolean_variables_are_total (<["CLEANUP" := "Yes"]> osm_environ)
                "CLEANUP" "Yes" false) as (_ & _ & H & _).
    apply H; [apply lookup_insert_eq | done | by_evaluation].
  - destruct (boolean_variables_are_total osm_environ "CLEANUP" "banana" true)
      as (_ & _ & _ & _ & _ & _ & H).
    apply H; [done | by_evaluation].
Defined.

(** ** C2: the table of a GADM layer *)

(** A layer name with fewer than two parts is refused before [ogr2ogr] is
    started for it: the world is as it was. *)
Lemma malformed_layer_starts_nothing (c : Gadm.Config) (gpkg_path layer : string) (w : world) :
  (length (Py.split_on "_" layer) < 2)%nat →
  ∃ msg, Gadm.upload_layer c gpkg_path layer w = (Raise (ValueError msg), w).
Proof.
  intros Hshort. unfold Gadm.upload_layer, Gadm.table_of_layer.
  destruct (Nat.ltb_spec (length (Py.split_on "_" layer)) 2) as [_ | Hge]; [| lia].
  eexists. reflexivity.
Qed.

(** C2.  At the layer name [gadm41_adm2] the loader derives the table
    [adminadm2], which is none of the tables the existence check looks for;
    the derivation gives [admin2] for the layer [ADM_2]. *)
Theorem gadm41_adm2_goes_to_adminadm2 :
  Gadm.table_of_layer "gadm41_adm2" = Ok "adminadm2"
  ∧ ("adminadm2" ∉ Gadm.expected_tables)
  ∧ Gadm.table_of_layer "ADM_2" = Ok "admin2".
Proof.
  split; [reflexivity |]. split; [| reflexivity].
  by_evaluation.
Qed.

(** ** C8: configuration errors *)











(** ** C7: the two [verify_connection] *)

Lemma execute_unfold (q : query) (w : world) :
  execute q w =
  match pg_rejects (pg w) q with
  | Some msg => (Raise (PsycopgError false msg), record (ESql q) w)
  | None =>
      match answer q (pg w) with
      | Ok (c, d) => (Ok c, set_pg (λ _, d) (record (ESql q) w))
      | Raise e => (Raise e, record (ESql q) w)
      end
  end.
Proof. reflexivity. Qed.

Lemma with_connection_unfold {A} (info : string) (body : M A) (w : world) :
  with_connection info body w =
  match pg_down (pg w) with
  | Some msg => (Raise (PsycopgError true msg), record (EConnect info) w)
  | None =>
      match body (record (EConnect info) w) with
      | (Ok a, w') => (Ok a, w')
      | (Raise e, w') => (Raise e, set_pg (rollback (pg w)) w')
      end
  end.
Proof. reflexivity. Qed.

Lemma execute_encoding (n : string) (w : world) (c : cell) (w1 : world) :
  execute (QEncoding n) w = (Ok c, w1) →
  c = from_option CText CNone (catalogued n w).
Proof.
  rewrite execute_unfold. destruct (pg_rejects (pg w) (QEncoding n)); [done |].
  simpl. by intros [= <- _].
Qed.

Lemma execute_accepted (q : query) (w : world) (c : cell) (w1 : world) :
  execute q w = (Ok c, w1) → pg_rejects (pg w) q = None.
Proof. rewrite execute_unfold. by destruct (pg_rejects (pg w) q). Qed.

(** Unless the server is up, answers the encoding query and lists the
    database with an encoding other than UTF8, the two [verify_connection]
    are the same computation. *)
Lemma verify_same (g : Gadm.Config) (o : Osm.Config) (w : world) :
  same_database g o →
  (pg_down (pg w) = None → pg_rejects (pg w) (QEncoding (Osm.db_name o)) = None →
   ∀ enc, catalogued (Osm.db_name o) w = Some enc → enc = "UTF8") →
  Gadm.verify_connection g w = Osm.verify_connection o w.
Proof.
  intros (Hh & Hp & Hn & Hu & Hpw) Hcase.
  unfold Gadm.verify_connection, Osm.verify_connection, Gadm.connection_string, Osm.conn_str.
  rewrite Hh, Hp, Hn, Hu, Hpw.
  unfold try_except. rewrite !with_connection_unfold.
  destruct (pg_down (pg w)) as [down|] eqn:Hdown; [reflexivity |].
  match goal with
  | |- context [bind (execute ?q) _ ?w0] =>
      destruct (execute q w0) as [[c | e] w1] eqn:Hexec
  end.
  2:{ rewrite (bind_raise _ _ _ _ _ Hexec), (bind_raise _ _ _ _ _ Hexec). reflexivity. }
  rewrite (bind_ok _ _ _ _ _ Hexec), (bind_ok _ _ _ _ _ Hexec).
  pose proof (execute_accepted _ _ _ _ Hexec) as Hacc.
  apply execute_encoding in Hexec. unfold catalogued in *. simpl in Hexec, Hacc.
  destruct (lookup_assoc _ _) as [enc|] eqn:Hc; simpl in Hexec; subst c.
  - rewrite (Hcase eq_refl Hacc enc eq_refl). reflexivity.
  - reflexivity.
Qed.

Lemma lookup_set_encoding (n enc : string) (l : list (string * string)) :
  is_Some (lookup_assoc n l) → lookup_assoc n (set_encoding n enc l) = Some enc.
Proof.
  unfold lookup_assoc, set_encoding. induction l as [| [k v] l IH]; simpl.
  - by intros [? ?].
  - destruct (bool_decide (k = n)) eqn:E; simpl; rewrite E; simpl; [done |].
    exact IH.
Qed.

Lemma journal_record (e : event) (w : world) : journal (record e w) = journal w ++ [e].
Proof. reflexivity. Qed.

Lemma osm_verify_refuses (o : Osm.Config) (w : world) (enc : string) :
  pg_down (pg w) = None →
  pg_rejects (pg w) (QEncoding (Osm.db_name o)) = None →
  catalogued (Osm.db_name o) w = Some enc → enc ≠ "UTF8" →
  ∃ w', Osm.verify_connection o w
        = (Raise (DatabaseError ("Database must use UTF8 encoding, found: " +:+ enc)), w')
        ∧ journal w' = journal w ++ [EConnect (Osm.conn_str o); ESql (QEncoding (Osm.db_name o))]
        ∧ pg_catalog (pg w') = pg_catalog (pg w)
        ∧ pg_extensions (pg w') = pg_extensions (pg w)
        ∧ files w' = files w.
Proof.
  intros Hdown Hrej Hcat Henc.
  unfold Osm.verify_connection, try_except. rewrite with_connection_unfold, Hdown.
  unfold bind. rewrite execute_unfold. simpl. rewrite Hrej. simpl.
  unfold catalogued in Hcat. rewrite Hcat. simpl.
  rewrite bool_decide_eq_false_2 by done. simpl.
  eexists. split; [reflexivity |]. simpl. rewrite <- app_assoc. done.
Qed.

Lemma gadm_verify_updates (g : Gadm.Config) (w : world) (enc : string) :
  pg_down (pg w) = None →
  pg_rejects (pg w) (QEncoding (Gadm.db_name g)) = None →
  catalogued (Gadm.db_name g) w = Some enc → enc ≠ "UTF8" →
  ∃ rest, journal (Gadm.verify_connection g w).2
          = journal w ++ EConnect (Gadm.connection_string g)
                      :: ESql (QEncoding (Gadm.db_name g))
                      :: ESql (QSetUtf8 (Gadm.db_name g)) :: rest
          ∧ (pg_rejects (pg w) (QSetUtf8 (Gadm.db_name g)) = None →
             ∃ rest', rest = ESql (QCreateExtension "postgis") :: rest').
Proof.
  intros Hdown Hrej Hcat Henc.
  unfold Gadm.verify_connection, try_except. rewrite with_connection_unfold, Hdown.
  unfold bind. rewrite execute_unfold. simpl. rewrite Hrej. simpl.
  unfold catalogued in Hcat. rewrite Hcat. simpl.
  rewrite bool_decide_eq_false_2 by done. simpl.
  rewrite execute_unfold. simpl.
  destruct (pg_rejects (pg w) (QSetUtf8 _)) eqn:R1; simpl.
  { eexists. rewrite <- !app_assoc. simpl. split; [reflexivity | done]. }
  repeat (rewrite execute_unfold; simpl;
          repeat match goal with
                 | |- context [bool_decide (?x ∈ ?l)] => destruct (bool_decide (x ∈ l)); simpl
                 end;
          match goal with
          | |- context [pg_rejects (pg w) ?q] => destruct (pg_rejects (pg w) q); simpl
          end).
  all: eexists; rewrite <- !app_assoc; simpl; split; [reflexivity | eauto].
Qed.

Lemma gadm_verify_proceeds (g : Gadm.Config) (w : world) (enc : string) :
  pg_down (pg w) = None →
  (∀ q, pg_rejects (pg w) q = None) →
  catalogued (Gadm.db_name g) w = Some enc → enc ≠ "UTF8" →
  ∃ w', Gadm.verify_connection g w = (Ok tt, w')
        ∧ sql_statements (journal w')
          = sql_statements (journal w) ++
            [ QEncoding (Gadm.db_name g); QSetUtf8 (Gadm.db_name g);
              QCreateExtension "postgis"; QPostgisVersion;
              QCreateExtension "hstore"; QCommit ]
        ∧ catalogued (Gadm.db_name g) w' = Some "UTF8"
        ∧ "postgis" ∈ pg_extensions (pg w') ∧ "hstore" ∈ pg_extensions (pg w').
Proof.
  intros Hdown Hrej Hcat Henc.
  unfold Gadm.verify_connection, try_except. rewrite with_connection_unfold, Hdown.
  unfold bind. rewrite execute_unfold. simpl. rewrite Hrej. simpl.
  unfold catalogued in *. rewrite Hcat. simpl.
  rewrite bool_decide_eq_false_2 by done. simpl.
  repeat (rewrite execute_unfold; simpl; rewrite ?Hrej; simpl;
          repeat (case_bool_decide; simpl)).
  all: eexists; split; [reflexivity |]; simpl.
  all: split; [unfold sql_statements; rewrite !omap_app; simpl;
               by rewrite <- !app_assoc |].
  all: split; [by apply lookup_set_encoding |].
  all: rewrite ?elem_of_app, ?list_elem_of_singleton in *; intuition congruence.
Qed.

Lemma osm_verify_not_found (o : Osm.Config) (w : world) :
  pg_down (pg w) = None →
  pg_rejects (pg w) (QEncoding (Osm.db_name o)) = None →
  catalogued (Osm.db_name o) w = None →
  ∃ w', Osm.verify_connection o w
        = (Raise (DatabaseError ("Database '" +:+ Osm.db_name o +:+ "' not found")), w').
Proof.
  intros Hdown Hrej Hcat.
  unfold Osm.verify_connection, try_except. rewrite with_connection_unfold, Hdown.
  unfold bind. rewrite execute_unfold. simpl. rewrite Hrej. simpl.
  unfold catalogued in Hcat. rewrite Hcat. simpl. eexists. reflexivity.
Qed.

Lemma osm_verify_utf8 (o : Osm.Config) (w : world) :
  pg_down (pg w) = None →
  (∀ q, pg_rejects (pg w) q = None) →
  catalogued (Osm.db_name o) w = Some "UTF8" →
  ∃ w', Osm.verify_connection o w = (Ok tt, w')
        ∧ sql_statements (journal w')
          = sql_statements (journal w) ++
            [ QEncoding (Osm.db_name o); QCreateExtension "postgis"; QPostgisVersion;
              QCreateExtension "hstore"; QCommit ]
        ∧ "postgis" ∈ pg_extensions (pg w') ∧ "hstore" ∈ pg_extensions (pg w').
Proof.
  intros Hdown Hrej Hcat.
  unfold Osm.verify_connection, try_except. rewrite with_connection_unfold, Hdown.
  unfold bind. rewrite execute_unfold. simpl. rewrite Hrej. simpl.
  unfold catalogued in *. rewrite Hcat. simpl.
  repeat (rewrite execute_unfold; simpl; rewrite ?Hrej; simpl;
          repeat (case_bool_decide; simpl)).
  all: eexists; split; [reflexivity |]; simpl.
  all: split; [unfold sql_statements; rewrite !omap_app; simpl;
               by rewrite <- !app_assoc |].
  all: rewrite ?elem_of_app, ?list_elem_of_singleton in *; intuition congruence.
Qed.

(** C7.  For configurations that name the same database: unless the server
    is up, answers the encoding query and lists the database with an
    encoding other than UTF8, the two [verify_connection] are the same
    computation (same result, same final world); in particular both raise
    the same database error when the database is not listed, and both
    create the postgis and hstore extensions.  When the encoding is another
    one, the OSM job raises a database error right after the encoding query
    and leaves the database as it was, while the GADM job issues the UPDATE
    of [pg_database] and, the UPDATE accepted, goes on to create the
    extensions. *)
Theorem verify_connection_policies (g : Gadm.Config) (o : Osm.Config) (w : world) :
  same_database g o →
  ((pg_down (pg w) = None → pg_rejects (pg w) (QEncoding (Osm.db_name o)) = None →
    ∀ enc, catalogued (Osm.db_name o) w = Some enc → enc = "UTF8") →
   Gadm.verify_connection g w = Osm.verify_connection o w)
  ∧ (pg_down (pg w) = None →
     pg_rejects (pg w) (QEncoding (Osm.db_name o)) = None →
     catalogued (Osm.db_name o) w = None →
     ∃ w', Osm.verify_connection o w
           = (Raise (DatabaseError ("Database '" +:+ Osm.db_name o +:+ "' not found")), w'))
  ∧ (pg_down (pg w) = None →
     (∀ q, pg_rejects (pg w) q = None) →
     catalogued (Osm.db_name o) w = Some "UTF8" →
     ∃ w', Osm.verify_connection o w = (Ok tt, w')
           ∧ sql_statements (journal w')
             = sql_statements (journal w) ++
               [ QEncoding (Osm.db_name o); QCreateExtension "postgis"; QPostgisVersion;
                 QCreateExtension "hstore"; QCommit ]
           ∧ "postgis" ∈ pg_extensions (pg w') ∧ "hstore" ∈ pg_extensions (pg w'))
  ∧ (∀ enc,
       pg_down (pg w) = None →
       pg_rejects (pg w) (QEncoding (Osm.db_name o)) = None →
       catalogued (Osm.db_name o) w = Some enc → enc ≠ "UTF8" →
       (∃ w', Osm.verify_connection o w
              = (Raise (DatabaseError ("Database must use UTF8 encoding, found: " +:+ enc)), w')
              ∧ journal w' = journal w ++ [ EConnect (Osm.conn_str o);
                                            ESql (QEncoding (Osm.db_name o)) ]
              ∧ pg_catalog (pg w') = pg_catalog (pg w)
              ∧ pg_extensions (pg w') = pg_extensions (pg w)
              ∧ files w' = files w)
       ∧ (∃ rest, journal (Gadm.verify_connection g w).2
                  = journal w ++ EConnect (Gadm.connection_string g)
                              :: ESql (QEncoding (Gadm.db_name g))
                              :: ESql (QSetUtf8 (Gadm.db_name g)) :: rest
                  ∧ (pg_rejects (pg w) (QSetUtf8 (Gadm.db_name g)) = None →
                     ∃ rest', rest = ESql (QCreateExtension "postgis") :: rest'))
       ∧ ((∀ q, pg_rejects (pg w) q = None) →
          ∃ w', Gadm.verify_connection g w = (Ok tt, w')
                ∧ sql_statements (journal w')
                  = sql_statements (journal w) ++
                    [ QEncoding (Gadm.db_name g); QSetUtf8 (Gadm.db_name g);
                      QCreateExtension "postgis"; QPostgisVersion;
                      QCreateExtension "hstore"; QCommit ]
                ∧ catalogued (Gadm.db_name g) w' = Some "UTF8"
                ∧ "postgis" ∈ pg_extensions (pg w') ∧ "hstore" ∈ pg_extensions (pg w'))).
Proof.
  intros Hsame. split; [by apply verify_same |].
  split; [apply osm_verify_not_found |].
  split; [apply osm_verify_utf8 |].
  intros enc Hdown Hrej Hcat Henc.
  assert (Gadm.db_name g = Osm.db_name o) as Hname by apply Hsame.
  split; [by apply osm_verify_refuses |].
  split.
  - apply (gadm_verify_updates g w enc); rewrite ?Hname; done.
  - intros Hall. apply (gadm_verify_proceeds g w enc); rewrite ?Hname; done.
Qed.

Lemma verify_connection_policies_witness :
  same_database gadm_config osm_config
  ∧ (∃ w', Osm.verify_connection osm_config (latin1_world osm_environ [])
           = (Raise (DatabaseError "Database must use UTF8 encoding, found: LATIN1"), w'))
  ∧ (∃ w', Gadm.verify_connection gadm_config (latin1_world gadm_environ [])
           = (Ok tt, w') ∧ catalogued "gis" w' = Some "UTF8").
Proof.
  assert (same_database gadm_config osm_config) as Hsame by (repeat split).
  split; [exact Hsame |].
  destruct (verify_connection_policies gadm_config osm_config
              (latin1_world osm_environ []) Hsame) as (_ & _ & _ & Hosm).
  destruct (verify_connection_policies gadm_config osm_config
              (latin1_world gadm_environ []) Hsame) as (_ & _ & _ & Hgadm).
  split.
  - destruct (Hosm "LATIN1") as ((w' & Hrun & _) & _); try done. by exists w'.
  - destruct (Hgadm "LATIN1") as (_ & _ & Hok); try done.
    destruct Hok as (w' & Hrun & _ & Hcat & _); [done |]. by exists w'.
Defined.
(** ** How worlds evolve *)

Lemma evolves_refl φ (w : world) : evolves φ w w.
Proof.
  repeat split. exists []. rewrite app_nil_r. repeat split; auto.
Qed.

Lemma evolves_trans φ (w1 w2 w3 : world) :
  evolves φ w1 w2 → evolves φ w2 w3 → evolves φ w1 w3.
Proof.
  intros (E1 & E2 & E3 & E4 & E5 & E6 & E7 & d1 & Hj1 & Hφ1 & Hf1 & Ht1)
         (F1 & F2 & F3 & F4 & F5 & F6 & F7 & d2 & Hj2 & Hφ2 & Hf2 & Ht2).
  repeat split; try congruence.
  exists (d1 ++ d2). split; [by rewrite Hj2, Hj1, app_assoc |].
  split; [by apply Forall_app |]. split.
  - intros p [H1 H2]%Forall_app. by rewrite Hf2, Hf1.
  - intros [H1 H2]%Forall_app. by rewrite Ht2, Ht1.
Qed.

Lemma evolves_mono (φ ψ : event → Prop) (w w' : world) :
  (∀ e, φ e → ψ e) → evolves φ w w' → evolves ψ w w'.
Proof.
  intros Hsub (E1 & E2 & E3 & E4 & E5 & E6 & E7 & d & Hj & Hφ & Hf & Ht).
  repeat split; try done. exists d. repeat split; try done.
  eapply Forall_impl; eauto.
Qed.

Lemma evolves_record φ (e : event) (w : world) : φ e → evolves φ w (record e w).
Proof.
  intros He. repeat split. exists [e]. repeat split; auto.
Qed.

(** A change of one file, announced by an event that touches it. *)
Lemma evolves_write φ (e : event) (p : string) (f : gmap string string → gmap string string)
    (w : world) :
  φ e → touches e p → (∀ fs q, q ≠ p → f fs !! q = fs !! q) →
  evolves φ w (set_files f (record e w)).
Proof.
  intros He Htouch Hframe. repeat split. exists [e]. repeat split; auto.
  intros q [Hq _]%Forall_cons. simpl. apply Hframe. by intros ->.
Qed.

Lemma evolves_journal φ (w w' : world) :
  evolves φ w w' → ∃ d, journal w' = journal w ++ d ∧ Forall φ d.
Proof. intros (_ & _ & _ & _ & _ & _ & _ & d & Hj & Hφ & _). eauto. Qed.

Lemma evolves_say φ (lines : list string) (w : world) :
  (∀ line, φ (EStdout line)) → evolves φ w (say lines w).
Proof.
  intros Hφ. revert w. induction lines as [|l lines IH]; intros w; simpl.
  - apply evolves_refl.
  - eapply evolves_trans; [by apply evolves_record | apply IH].
Qed.

(** ** How computations behave *)

Section Behaves.
Context (φ : event → Prop) (P : exn → Prop).

Lemma behaves_ret {A} (a : A) : behaves φ P (ret a).
Proof. intros w. split; [apply evolves_refl | done]. Qed.

Lemma behaves_raise {A} (e : exn) : P e → behaves φ P (raise (A := A) e).
Proof. intros He w. split; [apply evolves_refl |]. by intros ? [= <-]. Qed.

Lemma behaves_bind {A B} (m : M A) (k : A → M B) :
behaves φ P m → (∀ a, behaves φ P (k a)) → behaves φ P (bind m k).
Proof.
intros Hm Hk w. unfold bind. destruct (Hm w) as [Hev Hex].
destruct (m w) as [[a | e] w1]; simpl in *.
- destruct (Hk a w1) as [Hev' Hex']. split; [by eapply evolves_trans | done].
- split; [done |]. intros e0 [= <-]. by apply Hex.
Qed.

Lemma behaves_try {A} (Q : exn → Prop) (m : M A) (h : exn → M A) :
behaves φ Q m → (∀ e, Q e → behaves φ P (h e)) → behaves φ P (try_except m h).
Proof.
intros Hm Hh w. unfold try_except. destruct (Hm w) as [Hev Hex].
destruct (m w) as [[a | e] w1]; simpl in *.
- split; [done | by intros].
- destruct (Hh e (Hex e eq_refl) w1) as [Hev' Hex'].
split; [by eapply evolves_trans | done].
Qed.

Lemma behaves_emit (e : event) : φ e → behaves φ P (emit e).
Proof. intros He w. split; [by apply evolves_record | done]. Qed.

Lemma behaves_path_exists (p : string) : behaves φ P (path_exists p).
Proof. intros w. split; [apply evolves_refl | done]. Qed.

Lemma behaves_read_file (p : string) : P (FileNotFoundError p) → behaves φ P (read_file p).
Proof.
intros HP w. unfold read_file. destruct (files w !! p); simpl.
- split; [apply evolves_refl | done].
- split; [apply evolves_refl |]. by intros ? [= <-].
Qed.

Lemma behaves_for_each {A} (l : list A) (body : A → M unit) :
(∀ x, behaves φ P (body x)) → behaves φ P (for_each l body).
Proof.
intros Hbody. induction l as [|x l IH]; simpl.
- apply behaves_ret.
- apply behaves_bind; [apply Hbody | done].
Qed.

Lemma behaves_execute (q : query) :
φ (ESql q) → (∀ msg, P (PsycopgError false msg)) → behaves φ P (execute q).
Proof.
intros Hφ HP w. rewrite execute_unfold.
destruct (pg_rejects (pg w) q); simpl.
{ split; [by apply evolves_record |]. intros ? [= <-]. apply HP. }
assert (∀ d, pg_down d = pg_down (pg w) → pg_rejects d = pg_rejects (pg w) →
           pg_tables d = pg_tables (pg w) →
           evolves φ w (set_pg (λ _, d) (record (ESql q) w))) as Hset.
{ intros d H1 H2 H3. repeat split; try done. exists [ESql q]. repeat split; auto. }
destruct q; simpl; try (split; [by apply Hset | done]).
- case_bool_decide; (split; [by apply Hset | done]).
- case_bool_decide; simpl.
+ split; [by apply Hset | done].
+ split; [by apply evolves_record |]. intros ? [= <-]. apply HP.
Qed.

Lemma behaves_with_connection {A} (info : string) (body : M A) :
φ (EConnect info) → (∀ msg, P (PsycopgError true msg)) →
behaves φ P body → behaves φ P (with_connection info body).
Proof.
intros Hφ HP Hbody w. rewrite with_connection_unfold.
destruct (pg_down (pg w)); simpl.
{ split; [by apply evolves_record |]. intros ? [= <-]. apply HP. }
destruct (Hbody (record (EConnect info) w)) as [Hev Hex].
destruct (body _) as [[a | e] w1]; simpl in *.
- split; [| done]. eapply evolves_trans; [by apply evolves_record | done].
- split; [| done].
eapply evolves_trans; [by apply evolves_record |].
eapply evolves_trans; [exact Hev |].
repeat split. exists []. rewrite app_nil_r. repeat split; auto.
Qed.

End Behaves.
(** ** Files *)

Lemma set_files_twice (f g : gmap string string → gmap string string) (w : world) :
  set_files f (set_files g w) = set_files (f ∘ g) w.
Proof. reflexivity. Qed.

Lemma set_files_ext (f g : gmap string string → gmap string string) (w : world) :
  f (files w) = g (files w) → set_files f w = set_files g w.
Proof. unfold set_files. by intros ->. Qed.

Lemma write_chunks (p : string) (chunks : list string) (acc : string) (w : world) :
  files w !! p = Some acc →
  for_each chunks (λ chunk, if bool_decide (chunk = EmptyString) then ret tt
                            else append_file p chunk) w
  = (Ok tt, set_files (insert p (acc +:+ foldr String.append EmptyString chunks)) w).
Proof.
  revert acc w. induction chunks as [|c chunks IH]; intros acc w Hp; simpl.
  - unfold ret. f_equal. rewrite append_nil_r. destruct w; unfold set_files; simpl in *.
    f_equal. by rewrite insert_id.
  - unfold bind. case_bool_decide as Hc.
    + subst c. unfold ret at 1. cbn beta iota. rewrite (IH acc w Hp). done.
    + unfold append_file at 1. cbn beta iota.
      rewrite (IH (acc +:+ c)); [| simpl; by rewrite lookup_insert_eq, Hp].
      f_equal. rewrite set_files_twice. apply set_files_ext. simpl.
      by rewrite insert_insert_eq, append_assoc.
Qed.

Lemma save_body_result (p : string) (r : response) (w : world) :
  save_body p r w =
  (match resp_broken r with
   | Some msg => Raise (RequestException false msg)
   | None => Ok tt
   end,
   set_files (insert p (body_of r)) (record (EOpenW p) w)).
Proof.
  unfold save_body, open_w, bind, emit. simpl.
  erewrite write_chunks; [| simpl; apply lookup_insert_eq].
  rewrite set_files_twice.
  assert (set_files (insert p ("" +:+ foldr String.append "" (resp_chunks r)) ∘ insert p "")
                    (record (EOpenW p) w)
          = set_files (insert p (body_of r)) (record (EOpenW p) w)) as ->.
  { apply set_files_ext. simpl. by rewrite insert_insert_eq. }
  by destruct (resp_broken r).
Qed.

Lemma write_text_result (p text : string) (w : world) :
  write_text p text w = (Ok tt, set_files (insert p text) (record (EOpenW p) w)).
Proof.
  unfold write_text, open_w, append_file, bind, emit. simpl.
  f_equal. rewrite set_files_twice. apply set_files_ext. simpl.
  by rewrite lookup_insert_eq, insert_insert_eq.
Qed.

Lemma unlink_result (p : string) (w : world) :
  unlink p w =
  match files w !! p with
  | Some _ => (Ok tt, set_files (delete p) (record (EUnlink p) w))
  | None => (Raise (FileNotFoundError p), w)
  end.
Proof. unfold unlink, read_file, bind, emit. by destruct (files w !! p). Qed.

Lemma rename_result (src dst : string) (w : world) :
  rename src dst w =
  match files w !! src with
  | Some c => (Ok tt, set_files (λ fs, <[dst := c]> (delete src fs))
                                (record (ERename src dst) w))
  | None => (Raise (FileNotFoundError src), w)
  end.
Proof. unfold rename, read_file, bind, emit. by destruct (files w !! src). Qed.

Section BehavesIO.
Context (φ : event → Prop) (P : exn → Prop).

Lemma behaves_print (line : string) : φ (EStdout line) → behaves φ P (print line).
Proof. apply behaves_emit. Qed.

Lemma behaves_mkdir (p : string) : φ (EMkdir p) → behaves φ P (mkdir p).
Proof. apply behaves_emit. Qed.

Lemma behaves_stat (p : string) : P (FileNotFoundError p) → behaves φ P (stat p).
Proof.
intros HP. apply behaves_bind; [by apply behaves_read_file | intros; apply behaves_ret].
Qed.

Lemma behaves_write_text (p text : string) : φ (EOpenW p) → behaves φ P (write_text p text).
Proof.
intros Hφ w. rewrite write_text_result. split; [| done].
apply evolves_write with (p := p); [done | done |].
intros fs q Hq. by rewrite lookup_insert_ne.
Qed.

Lemma behaves_save_body (p : string) (r : response) :
φ (EOpenW p) → (∀ msg, P (RequestException false msg)) → behaves φ P (save_body p r).
Proof.
intros Hφ HP w. rewrite save_body_result. split.
- apply evolves_write with (p := p); [done | done |].
intros fs q Hq. by rewrite lookup_insert_ne.
- simpl. destruct (resp_broken r); [| done]. intros ? [= <-]. apply HP.
Qed.

Lemma behaves_unlink (p : string) :
φ (EUnlink p) → P (FileNotFoundError p) → behaves φ P (unlink p).
Proof.
intros Hφ HP w. rewrite unlink_result. destruct (files w !! p); simpl.
- split; [| done]. apply evolves_write with (p := p); [done | done |].
intros fs q Hq. by rewrite lookup_delete_ne.
- split; [apply evolves_refl |]. by intros ? [= <-].
Qed.

Lemma behaves_rename (src dst : string) :
φ (ERename src dst) → P (FileNotFoundError src) → behaves φ P (rename src dst).
Proof.
intros Hφ HP w. rewrite rename_result. destruct (files w !! src); simpl.
- split; [| done]. repeat split. exists [ERename src dst]. repeat split; auto.
intros q [Hq _]%Forall_cons. simpl in *.
rewrite lookup_insert_ne, lookup_delete_ne; [done | |]; intros ->; tauto.
- split; [apply evolves_refl |]. by intros ? [= <-].
Qed.

Lemma behaves_requests_get (url : string) :
φ (EHttpGet url) → (∀ t msg, P (RequestException t msg)) → behaves φ P (requests_get url).
Proof.
intros Hφ HP w. unfold requests_get, bind, emit. simpl.
destruct (remote w url); simpl.
- split; [by apply evolves_record |]. intros ? [= <-]. apply HP.
- split; [by apply evolves_record | done].
Qed.

Lemma behaves_raise_for_status (r : response) :
(∀ msg, P (RequestException false msg)) → behaves φ P (raise_for_status r).
Proof.
intros HP. unfold raise_for_status. destruct (resp_error r).
- apply behaves_raise, HP.
- apply behaves_ret.
Qed.

Lemma behaves_popen_wait (argv : list string) :
φ (ESpawn argv) → (∀ msg, P (FileNotFoundError msg)) → behaves φ P (popen_wait argv).
Proof.
intros Hφ HP w. unfold popen_wait, bind, emit. simpl.
destruct (prog_missing (programs w argv)); simpl.
- split; [by apply evolves_record |]. intros ? [= <-]. apply HP.
- split; [| done]. repeat split. exists [ESpawn argv]. repeat split; auto.
+ intros q [Hq _]%Forall_cons. by destruct Hq.
+ intros [Hq _]%Forall_cons. by destruct Hq.
Qed.

Lemma behaves_run_checked (argv : list string) :
φ (ESpawn argv) → (∀ msg, P (FileNotFoundError msg)) → (∀ rc, P (CalledProcessError rc)) →
behaves φ P (run_checked argv).
Proof.
intros Hφ HP HC. apply behaves_bind; [by apply behaves_popen_wait |].
intros rc. case_bool_decide; [apply behaves_ret | apply behaves_raise, HC].
Qed.

End BehavesIO.

(** Weakening. *)
Lemma behaves_mono {A} (φ ψ : event → Prop) (P Q : exn → Prop) (m : M A) :
  (∀ e, φ e → ψ e) → (∀ e, P e → Q e) → behaves φ P m → behaves ψ Q m.
Proof.
  intros Hφ HP Hm w. destruct (Hm w) as [Hev Hex].
  split; [by eapply evolves_mono | auto].
Qed.
(** ** The OSM fetcher, case by case *)

Lemma requests_get_result (url : string) (w : world) :
  requests_get url w =
  match remote w url with
  | NetFailure t msg => (Raise (RequestException t msg), record (EHttpGet url) w)
  | Replied r => (Ok r, record (EHttpGet url) w)
  end.
Proof. unfold requests_get, bind, emit. simpl. by destruct (remote w url). Qed.

Lemma remove_partial_absent (p : string) (w : world) :
  files w !! p = None → Osm.remove_partial p w = (Ok tt, w).
Proof.
  intros Hp. unfold Osm.remove_partial, bind, path_exists. rewrite Hp.
  rewrite bool_decide_eq_false_2; [done |]. by intros [? ?].
Qed.

Lemma remove_partial_present (p c : string) (w : world) :
  files w !! p = Some c →
  Osm.remove_partial p w = (Ok tt, set_files (delete p) (record (EUnlink p) w)).
Proof.
  intros Hp. unfold Osm.remove_partial, bind, path_exists. rewrite Hp.
  rewrite bool_decide_eq_true_2 by eauto. rewrite unlink_result. simpl. by rewrite Hp.
Qed.

Lemma download_region_cases (c : Osm.Config) (w : world) :
  files w !! Osm.output_file_of c = None →
  Osm.download_region c w =
  match remote w (Osm.get_download_url c) with
  | NetFailure t msg => (Raise (DownloadError ("Download failed: " +:+ msg)), asked c w)
  | Replied r =>
      match resp_error r with
      | Some msg => (Raise (DownloadError ("Download failed: " +:+ msg)), asked c w)
      | None =>
          match Osm.content_length r (asked c w) with
          | (Raise e, _) =>
              (Raise (DownloadError ("Unexpected error during download: " +:+ exn_str e)),
               asked c w)
          | (Ok _, _) =>
              let saved := set_files (insert (Osm.output_file_of c) (body_of r))
                                     (record (EOpenW (Osm.output_file_of c)) (asked c w)) in
              match resp_broken r with
              | Some msg =>
                  (Raise (DownloadError ("Download failed: " +:+ msg)),
                   set_files (delete (Osm.output_file_of c))
                             (record (EUnlink (Osm.output_file_of c)) saved))
              | None => (Ok (Osm.output_file_of c), saved)
              end
          end
      end
  end.
Proof.
  intros Habsent. unfold Osm.download_region, mkdir.
  unfold bind at 1, emit. unfold bind at 1, path_exists. simpl. rewrite Habsent.
  rewrite bool_decide_eq_false_2 by (by intros [? ?]).
  unfold try_except, bind at 1. rewrite requests_get_result. simpl. unfold asked.
  destruct (remote w _) as [t msg | r]; simpl.
  { erewrite bind_ok by (by apply remove_partial_absent). done. }
  unfold bind at 1, raise_for_status.
  destruct (resp_error r) as [msg |]; simpl.
  { unfold raise at 1. cbn beta iota. erewrite bind_ok by (by apply remove_partial_absent). done. }
  unfold ret at 1. unfold bind at 1.
  unfold Osm.content_length.
  destruct (resp_content_length r) as [h |]; simpl.
  - destruct (Py.int h); simpl.
    + unfold bind. rewrite save_body_result.
      destruct (resp_broken r); simpl.
      * erewrite remove_partial_present by (simpl; apply lookup_insert_eq). done.
      * done.
    + erewrite bind_ok by (by apply remove_partial_absent). done.
  - unfold bind. rewrite save_body_result.
    destruct (resp_broken r); simpl.
    * erewrite remove_partial_present by (simpl; apply lookup_insert_eq). done.
    * done.
Qed.
(** ** The GADM fetcher, case by case *)

Section GadmFetch.
Variable md5 : string → string.

Lemma refresh_archive_cases (c : Gadm.Config) (w : world) :
Gadm.refresh_archive md5 c w =
match remote w (Gadm.gadm_geopackage_url c) with
| NetFailure t msg =>
  (Raise (RequestException t msg), record (EHttpGet (Gadm.gadm_geopackage_url c)) w)
| Replied r =>
  match resp_error r with
  | Some msg =>
      (Raise (RequestException false msg),
       record (EHttpGet (Gadm.gadm_geopackage_url c)) w)
  | None =>
      match resp_broken r with
      | Some msg =>
          (Raise (RequestException false msg),
           set_files (insert (Gadm.zip_dir c) (body_of r))
             (record (EOpenW (Gadm.zip_dir c))
                (record (EHttpGet (Gadm.gadm_geopackage_url c)) w)))
      | None => (Ok tt, refreshed md5 c r w)
      end
  end
end.
Proof.
unfold Gadm.refresh_archive. unfold bind at 1. rewrite requests_get_result.
destruct (remote w _) as [t msg | r]; [done |].
unfold bind at 1, raise_for_status.
destruct (resp_error r) as [msg |]; [done |].
unfold ret at 1. unfold bind at 1. rewrite save_body_result.
destruct (resp_broken r) as [msg |]; [done |].
unfold bind at 1, Gadm._calculate_md5, bind at 1, read_file. simpl.
rewrite lookup_insert_eq. unfold ret at 1. cbn beta iota.
unfold Gadm._write_md5, bind, mkdir, emit. rewrite write_text_result. done.
Qed.

Lemma must_download_result (c : Gadm.Config) (w : world) :
(bind (Gadm._read_md5 (Gadm.md5_dir c))
    (Gadm.must_download md5 (Gadm.zip_dir c))) w
= (Ok (stale md5 c w), w).
Proof.
unfold bind, Gadm._read_md5, Gadm.must_download, path_exists, read_file, bind, stale.
destruct (files w !! Gadm.md5_dir c) as [stored |] eqn:Hmd5;
destruct (files w !! Gadm.zip_dir c) as [archive |] eqn:Hzip;
simpl; rewrite ?Hmd5, ?Hzip; simpl; try done.
all: rewrite Hzip; simpl; try done.
destruct (Py.strip stored) eqn:Hs; simpl; [done |].
unfold Gadm._calculate_md5, bind, read_file. rewrite Hzip. done.
Qed.

(** [download_geopackage_levels] is: make the directory, fetch when the
archive is stale, extract. *)
Lemma download_geopackage_levels_unfold (c : Gadm.Config) (w : world) :
Gadm.download_geopackage_levels md5 c w =
let w1 := record (EMkdir (Gadm.data_dir c)) w in
let extract := bind (Gadm._extract_gpkg (Gadm.zip_dir c) (Gadm.raw_dir c))
                  (λ _, ret (Gadm.raw_dir c)) in
if stale md5 c w then
match Gadm.refresh_archive md5 c w1 with
| (Ok _, w2) => extract w2
| (Raise e, w2) => (Raise e, w2)
end
else extract w1.
Proof.
unfold Gadm.download_geopackage_levels. unfold bind at 1, mkdir, emit.
pose proof (must_download_result c (record (EMkdir (Gadm.data_dir c)) w)) as H.
unfold bind at 1 in H. unfold bind at 1.
destruct (Gadm._read_md5 _ _) as [[stored | e] w1] eqn:Hread.
- unfold bind at 1. rewrite H. cbn beta iota zeta.
change (stale md5 c (record (EMkdir (Gadm.data_dir c)) w)) with (stale md5 c w).
destruct (stale md5 c w); unfold bind at 1; [| done].
by destruct (Gadm.refresh_archive _ _ _) as [[[] | e] w2].
- discriminate.
Qed.

End GadmFetch.
(** ** What extraction leaves alone *)

Lemma last_char_joinpath (d name : string) :
  name ≠ "" → last_char (Py.joinpath d name) = last_char name.
Proof.
  intros Hname. unfold Py.joinpath.
  rewrite last_char_append; [by apply (last_char_append "/") |].
  by destruct name.
Qed.

Lemma gpkg_last_char (c : Gadm.Config) : last_char (Gadm.raw_dir c) = Some "g"%char.
Proof. unfold Gadm.raw_dir. by rewrite last_char_joinpath. Qed.

Lemma zip_last_char (c : Gadm.Config) : last_char (Gadm.zip_dir c) = Some "p"%char.
Proof. unfold Gadm.zip_dir. by rewrite last_char_joinpath. Qed.

Lemma md5_last_char (c : Gadm.Config) : last_char (Gadm.md5_dir c) = Some "5"%char.
Proof. unfold Gadm.md5_dir. by rewrite last_char_joinpath. Qed.

Lemma behaves_extract_gpkg (zip_file gpkg_file : string) :
  last_char gpkg_file = Some "g"%char →
  behaves extraction_event (λ _, True) (Gadm._extract_gpkg zip_file gpkg_file).
Proof.
  intros Hg. unfold Gadm._extract_gpkg.
  apply behaves_bind; [by apply behaves_read_file |]. intros content.
  apply behaves_bind.
  { intros w. destruct (zip_members w content); simpl; (split; [apply evolves_refl | done]). }
  intros members.
  destruct (List.find _ members) as [[filename data] |] eqn:Hfind; [| apply behaves_ret].
  apply List.find_some in Hfind as [_ Hend]. simpl in Hend.
  assert (last_char (Py.joinpath (Py.parent zip_file) filename) = Some "g"%char) as Hx.
  { rewrite last_char_joinpath.
    - by rewrite (endswith_last_char ".gpkg").
    - intros ->. by vm_compute in Hend. }
  apply behaves_bind; [by apply behaves_write_text |]. intros _.
  case_bool_decide; [apply behaves_ret | by apply behaves_rename].
Qed.

Lemma http_requests_app (d1 d2 : list event) :
  http_requests (d1 ++ d2) = http_requests d1 ++ http_requests d2.
Proof. apply omap_app. Qed.

Lemma spawned_app (d1 d2 : list event) : spawned (d1 ++ d2) = spawned d1 ++ spawned d2.
Proof. apply omap_app. Qed.

Lemma created_app (d1 d2 : list event) : created (d1 ++ d2) = created d1 ++ created d2.
Proof. apply omap_app. Qed.

Lemma unlinked_app (d1 d2 : list event) : unlinked (d1 ++ d2) = unlinked d1 ++ unlinked d2.
Proof. apply omap_app. Qed.

Lemma no_http_requests (φ : event → Prop) (d : list event) :
  (∀ url, ¬ φ (EHttpGet url)) → Forall φ d → http_requests d = [].
Proof.
  intros Hφ Hd. induction Hd as [| e d He _ IH]; [done |].
  change (e :: d) with ([e] ++ d). rewrite http_requests_app, IH.
  destruct e; try done. by destruct (Hφ url).
Qed.

Lemma no_spawned (φ : event → Prop) (d : list event) :
  (∀ argv, ¬ φ (ESpawn argv)) → Forall φ d → spawned d = [].
Proof.
  intros Hφ Hd. induction Hd as [| e d He _ IH]; [done |].
  change (e :: d) with ([e] ++ d). rewrite spawned_app, IH.
  destruct e; try done. by destruct (Hφ argv).
Qed.

Lemma no_created (φ : event → Prop) (d : list event) :
  (∀ p, ¬ φ (EOpenW p)) → (∀ src dst, ¬ φ (ERename src dst)) → Forall φ d → created d = [].
Proof.
  intros Hφ Hψ Hd. induction Hd as [| e d He _ IH]; [done |].
  change (e :: d) with ([e] ++ d). rewrite created_app, IH.
  destruct e; try done; [by destruct (Hφ path) | by destruct (Hψ src dst)].
Qed.

Lemma no_unlinked (φ : event → Prop) (d : list event) :
  (∀ p, ¬ φ (EUnlink p)) → Forall φ d → unlinked d = [].
Proof.
  intros Hφ Hd. induction Hd as [| e d He _ IH]; [done |].
  change (e :: d) with ([e] ++ d). rewrite unlinked_app, IH.
  destruct e; try done. by destruct (Hφ path).
Qed.

(** Extraction makes no request and leaves the archive and the digest file
    as they are. *)
Lemma extract_frame (c : Gadm.Config) (w : world) :
  let after := (bind (Gadm._extract_gpkg (Gadm.zip_dir c) (Gadm.raw_dir c))
                     (λ _, ret (Gadm.raw_dir c)) w).2 in
  (∃ d, journal after = journal w ++ d ∧ http_requests d = [])
  ∧ files after !! Gadm.zip_dir c = files w !! Gadm.zip_dir c
  ∧ files after !! Gadm.md5_dir c = files w !! Gadm.md5_dir c.
Proof.
  intros after.
  assert (evolves extraction_event w after) as Hev.
  { apply (behaves_bind extraction_event (λ _, True)).
    - apply behaves_extract_gpkg, gpkg_last_char.
    - intros. apply behaves_ret. }
  destruct Hev as (_ & _ & _ & _ & _ & _ & _ & d & Hj & Hφ & Hframe & _).
  assert (∀ p x, last_char p = Some x → x ≠ "g"%char → Forall (λ e, ¬ touches e p) d) as Hkeep.
  { intros p x Hp Hx. eapply Forall_impl; [exact Hφ |].
    intros [] He; simpl in *; try done.
    - intros ->. congruence.
    - destruct He as [H1 H2]. intros [-> | ->]; congruence. }
  split; [| split].
  - exists d. split; [done |]. eapply no_http_requests; [| exact Hφ]. intros url [].
  - apply Hframe. by eapply Hkeep; [apply zip_last_char |].
  - apply Hframe. by eapply Hkeep; [apply md5_last_char |].
Qed.
(** ** C3: the checksum-gated fetch of the GADM job *)

Section ChecksumGate.
Variable md5 : string → string.
(** A hexadecimal MD5 digest has 32 characters: it is never empty. *)
Hypothesis md5_not_empty : ∀ content, md5 content ≠ "".



End ChecksumGate.


(** ** C5: a failed download *)

Lemma download_region_existing (c : Osm.Config) (w : world) :
  is_Some (files w !! Osm.output_file_of c) →
  Osm.download_region c w = (Ok (Osm.output_file_of c), record (EMkdir (Osm.raw_dir c)) w).
Proof.
  intros Hfile. unfold Osm.download_region, mkdir, emit, path_exists, bind, ret. simpl.
  by rewrite bool_decide_eq_true_2.
Qed.

Lemma content_length_pure (r : response) (w : world) :
  (Osm.content_length r w).2 = w.
Proof.
  unfold Osm.content_length. destruct (resp_content_length r) as [h |]; [| done].
  by destruct (Py.int h).
Qed.

(** Whatever makes [download_region] raise, it raises a download error and
    the files are as they were before the call. *)
Lemma osm_download_failure (c : Osm.Config) (w : world) (e : exn) :
  (Osm.download_region c w).1 = Raise e →
  (∃ msg, e = DownloadError msg)
  ∧ files (Osm.download_region c w).2 = files w
  ∧ files (Osm.download_region c w).2 !! Osm.output_file_of c = None.
Proof.
  destruct (files w !! Osm.output_file_of c) as [content |] eqn:Hfile.
  { rewrite download_region_existing by eauto. done. }
  rewrite download_region_cases by done.
  destruct (remote w _) as [t msg | r].
  { simpl. intros [= <-]. eauto. }
  destruct (resp_error r) as [msg |].
  { simpl. intros [= <-]. eauto. }
  destruct (Osm.content_length r (asked c w)) as [[n | e'] w1].
  2:{ simpl. intros [= <-]. eauto. }
  cbn zeta. destruct (resp_broken r) as [msg |]; [| done].
  simpl. intros [= <-]. split; [eauto |].
  rewrite delete_insert_eq, delete_id by done. done.
Qed.





(** ** The steps of the OSM job *)

Lemma behaves_osm_verify (c : Osm.Config) :
  behaves database_event database_error_only (Osm.verify_connection c).
Proof.
  unfold Osm.verify_connection.
  apply behaves_try with (Q := λ e, match e with
                                    | PsycopgError _ _ | DatabaseError _ => True
                                    | _ => False
                                    end).
  - apply behaves_with_connection; [done | done |].
    apply behaves_bind; [by apply behaves_execute |]. intros result.
    destruct result; try (by apply behaves_raise);
      (destruct (not_utf8 _); [by apply behaves_raise |]);
      repeat (apply behaves_bind; [by apply behaves_execute | intros _]);
      apply behaves_ret.
  - intros [] He; try done; simpl.
    + by apply behaves_raise.
    + destruct operational; by apply behaves_raise.
Qed.

Lemma behaves_osm_check (c : Osm.Config) :
  behaves database_event database_error_only (Osm.check_existing_data c).
Proof.
  unfold Osm.check_existing_data.
  apply behaves_try with (Q := λ e, match e with PsycopgError _ _ => True | _ => False end).
  - apply behaves_with_connection; [done | done |].
    apply behaves_bind; [by apply behaves_execute |].
    intros []; apply behaves_ret.
  - intros [] He; try done. by apply behaves_raise.
Qed.

Lemma existsb_present (expected tables : list string) :
  existsb (λ t, bool_decide (t ∈ expected)) tables = true ↔
  ∃ t, t ∈ expected ∧ t ∈ tables.
Proof.
  rewrite existsb_exists. split.
  - intros (t & Hin & Hdec). exists t. split; [by apply bool_decide_eq_true in Hdec |].
    by apply list_elem_of_In.
  - intros (t & Hexp & Hin). exists t. split; [by apply list_elem_of_In |].
    by apply bool_decide_eq_true.
Qed.

(** What the existence check answers. *)
Lemma osm_check_answer (c : Osm.Config) (w : world) (b : bool) (w1 : world) :
  Osm.check_existing_data c w = (Ok b, w1) →
  (b = true ↔ data_present Osm.expected_tables w).
Proof.
  unfold Osm.check_existing_data, try_except. rewrite with_connection_unfold.
  destruct (pg_down (pg w)); [done |].
  unfold bind. rewrite execute_unfold. simpl.
  destruct (pg_rejects (pg w) _); [done |]. simpl.
  intros [= <- _]. apply existsb_present.
Qed.

Lemma behaves_osm_download (c : Osm.Config) :
  behaves (download_step (Osm.output_file_of c)) download_error_only (Osm.download_region c).
Proof.
  intros w. split.
  2:{ intros e He. by destruct (osm_download_failure c w e He) as ((msg & ->) & _). }
  assert (evolves (download_step (Osm.output_file_of c)) w (asked c w)) as Hasked.
  { eapply evolves_trans; by apply evolves_record. }
  assert (∀ body, evolves (download_step (Osm.output_file_of c)) w
            (set_files (insert (Osm.output_file_of c) body)
                       (record (EOpenW (Osm.output_file_of c)) (asked c w)))) as Hsaved.
  { intros body. eapply evolves_trans; [exact Hasked |].
    apply evolves_write with (p := Osm.output_file_of c); [done | done |].
    intros fs q Hq. by rewrite lookup_insert_ne. }
  destruct (files w !! Osm.output_file_of c) as [content |] eqn:Hfile.
  { rewrite download_region_existing by eauto. simpl. by apply evolves_record. }
  rewrite download_region_cases by done.
  destruct (remote w _) as [t msg | r]; [done |].
  destruct (resp_error r); [done |].
  destruct (Osm.content_length r (asked c w)) as [[n | e'] w1]; [| done].
  cbn zeta. destruct (resp_broken r); simpl; [| apply Hsaved].
  eapply evolves_trans; [apply Hsaved |].
  apply evolves_write with (p := Osm.output_file_of c); [done | done |].
  intros fs q Hq. by rewrite lookup_delete_ne.
Qed.


Lemma osm_download_returns (c : Osm.Config) (w : world) (raw_file : string) (w1 : world) :
  Osm.download_region c w = (Ok raw_file, w1) →
  raw_file = Osm.output_file_of c ∧ is_Some (files w1 !! raw_file).
Proof.
  destruct (files w !! Osm.output_file_of c) as [content |] eqn:Hfile.
  { rewrite download_region_existing by eauto. intros [= <- <-]. simpl. eauto. }
  rewrite download_region_cases by done.
  destruct (remote w _) as [t msg | r]; [done |].
  destruct (resp_error r); [done |].
  destruct (Osm.content_length r (asked c w)) as [[n | e'] w1']; [| done].
  cbn zeta. destruct (resp_broken r); [done |].
  intros [= <- <-]. simpl. rewrite lookup_insert_eq. eauto.
Qed.
Lemma behaves_filter_roads (input_file output_file : string) :
  behaves filter_step filter_error_only (Osm.filter_roads input_file output_file).
Proof.
  unfold Osm.filter_roads.
  apply behaves_bind; [by apply behaves_mkdir |]. intros _.
  apply behaves_try with (Q := λ _, True).
  - apply behaves_bind; [by apply behaves_popen_wait |]. intros rc.
    destruct (negb _); [by apply behaves_raise |].
    apply behaves_bind; [by apply behaves_stat | intros _; by apply behaves_stat].
  - intros e _. destruct e; by apply behaves_raise.
Qed.

Lemma behaves_osm_filter (c : Osm.Config) (input_file : string) :
  behaves filter_step filter_error_only (Osm.filter_osm_data c input_file).
Proof.
  unfold Osm.filter_osm_data.
  apply behaves_bind; [apply behaves_path_exists |]. intros present.
  destruct present; [apply behaves_ret |].
  apply behaves_bind; [apply behaves_filter_roads | intros _; apply behaves_ret].
Qed.

Lemma popen_wait_result (argv : list string) (w : world) :
  popen_wait argv w =
  if prog_missing (programs w argv)
  then (Raise (FileNotFoundError (default "" (head argv))), record (ESpawn argv) w)
  else (Ok (prog_returncode (programs w argv)),
        apply_program (programs w argv) (record (ESpawn argv) w)).
Proof. reflexivity. Qed.

Lemma journal_apply_program (g : program) (w : world) :
  journal (apply_program g w) = journal w.
Proof. reflexivity. Qed.


Lemma upload_result (c : Osm.Config) (pbf_file : string) (w : world) :
  let argv := Osm.osm2pgsql_cmd c pbf_file in
  Osm.upload_to_database c pbf_file w =
  if prog_missing (programs w argv)
  then (Raise (UploadError "osm2pgsql command not found. Ensure osm2pgsql is installed in the container."),
        record (ESpawn argv) w)
  else if bool_decide (prog_returncode (programs w argv) = 0)
       then (Ok tt, apply_program (programs w argv) (record (ESpawn argv) w))
       else (Raise (UploadError ("Upload operation failed: osm2pgsql failed with exit code "
                                 +:+ Py.str_of_int (prog_returncode (programs w argv)))),
             apply_program (programs w argv) (record (ESpawn argv) w)).
Proof.
  intros argv. unfold Osm.upload_to_database, try_except, bind. fold argv.
  rewrite popen_wait_result. simpl (programs _ _).
  destruct (prog_missing _); [done |].
  by case_bool_decide.
Qed.

Lemma behaves_osm_upload (c : Osm.Config) (pbf_file : string) :
  behaves upload_step upload_error_only (Osm.upload_to_database c pbf_file).
Proof.
  unfold Osm.upload_to_database.
  apply behaves_try with (Q := λ _, True).
  - apply behaves_bind; [by apply behaves_popen_wait |]. intros rc.
    destruct (negb _); [by apply behaves_raise | apply behaves_ret].
  - intros e _. destruct e; by apply behaves_raise.
Qed.


(** The two clean-up blocks of the driver never raise; with [CLEANUP] off
    or the file missing they do nothing at all. *)
Lemma cleanup_raw_result (c : Osm.Config) (raw_file : string) (w : world) :
  Osm.cleanup_raw c raw_file w =
  if Osm.cleanup c && bool_decide (is_Some (files w !! raw_file))
  then (Ok tt,
        record (EStdout ("✓ Raw file deleted" +:+ Osm.newline))
          (set_files (delete raw_file)
             (record (EUnlink raw_file)
                (record (EStdout ("Cleaning up raw file: " +:+ Py.basename raw_file)) w))))
  else (Ok tt, w).
Proof.
  unfold Osm.cleanup_raw, bind at 1, path_exists.
  destruct (Osm.cleanup c); simpl; [| done].
  case_bool_decide as Hfile; [| done].
  unfold bind, print, emit. rewrite unlink_result. simpl.
  destruct Hfile as [content ->]. done.
Qed.

Lemma cleanup_filtered_result (c : Osm.Config) (filtered_file : string) (w : world) :
  Osm.cleanup_filtered c filtered_file w =
  if Osm.cleanup c && bool_decide (is_Some (files w !! filtered_file))
  then (Ok tt,
        record (EStdout ("✓ Filtered file deleted" +:+ Osm.newline))
          (set_files (delete filtered_file)
             (record (EUnlink filtered_file)
                (record (EStdout ("Cleaning up filtered file: "
                                  +:+ Py.basename filtered_file)) w))))
  else (Ok tt, w).
Proof.
  unfold Osm.cleanup_filtered, bind at 1, path_exists.
  destruct (Osm.cleanup c); simpl; [| done].
  case_bool_decide as Hfile; [| done].
  unfold bind, print, emit. rewrite unlink_result. simpl.
  destruct Hfile as [content ->]. done.
Qed.

Lemma discard_evolves (p line1 line2 : string) (w : world) :
  evolves (discard_step p) w
    (record (EStdout line2)
       (set_files (delete p) (record (EUnlink p) (record (EStdout line1) w)))).
Proof.
  eapply evolves_trans; [by apply (evolves_record _ (EStdout line1)) |].
  eapply evolves_trans; [| by apply (evolves_record _ (EStdout line2))].
  apply evolves_write with (p := p); [done | done |].
  intros fs q Hq. by rewrite lookup_delete_ne.
Qed.

Lemma behaves_cleanup_raw (c : Osm.Config) (raw_file : string) :
  behaves (discard_step raw_file) nothing_raised (Osm.cleanup_raw c raw_file).
Proof.
  intros w. rewrite cleanup_raw_result.
  destruct (_ && _); simpl; (split; [| done]);
    [apply discard_evolves | apply evolves_refl].
Qed.

Lemma behaves_cleanup_filtered (c : Osm.Config) (filtered_file : string) :
  behaves (discard_step filtered_file) nothing_raised (Osm.cleanup_filtered c filtered_file).
Proof.
  intros w. rewrite cleanup_filtered_result.
  destruct (_ && _); simpl; (split; [| done]);
    [apply discard_evolves | apply evolves_refl].
Qed.
(** ** The OSM driver follows its phases *)

Lemma osm_load_config_raises (env : gmap string string) (e : exn) :
  Osm.load_config env = Raise e → ∃ msg, e = ConfigurationError msg.
Proof.
  unfold Osm.load_config, Osm.get_env_int, Osm.required.
  repeat match goal with
  | |- context [bool_decide ?P] => destruct (bool_decide P); cbn [negb]
  | |- context [env !! ?k] => lazymatch k with
      | "DB_PORT" => destruct (env !! k) as [[|? ?]|]
      | "CACHE_SIZE_MB" => destruct (env !! k) as [[|? ?]|]
      | "NUM_PROCESSES" => destruct (env !! k) as [[|? ?]|]
      end
  | |- context [Py.int ?v] => destruct (Py.int v)
  end; intros [= <-] || intros [=]; eauto.
Qed.

(** The exception of a step that behaves. *)
Lemma behaves_raises {A} φ P (m : M A) (w : world) (e : exn) (w1 : world) :
  behaves φ P m → m w = (Raise e, w1) → P e.
Proof. intros Hm Hrun. destruct (Hm w) as [_ Hex]. apply Hex. by rewrite Hrun. Qed.

Lemma behaves_evolves {A} φ P (m : M A) (w : world) (r : result A) (w1 : world) :
  behaves φ P m → m w = (r, w1) → evolves φ w w1.
Proof. intros Hm Hrun. destruct (Hm w) as [Hev _]. by rewrite Hrun in Hev. Qed.

Ltac ends_with tac := eexists _, _; split; [tac | reflexivity].

Lemma osm_main_run (w : world) :
  ∃ o w', OsmMachine.run OsmMachine.Configuring w o w' ∧ Osm.main w = (exit_status o, w').
Proof.
  unfold Osm.main.
  destruct (Osm.load_config (environ w)) as [c | e] eqn:Hload.
  2:{ destruct (osm_load_config_raises _ _ Hload) as [msg ->].
      eexists _, _. split; [by apply OsmMachine.configuration_failed | done]. }
  cbv beta iota delta [Osm.attempt bind print eprint emit ret Osm.on_database_error].
  destruct (Osm.verify_connection c _) as [[[] | e] w1] eqn:Hverify.
  2:{ pose proof (behaves_raises _ _ _ _ _ _ (behaves_osm_verify c) Hverify) as He.
      destruct e; try done.
      ends_with ltac:(
        eapply OsmMachine.configured; [exact Hload |];
        eapply OsmMachine.verification_failed; exact Hverify). }
  destruct (Osm.check_existing_data c _) as [[existing | e] w2] eqn:Hcheck.
  2:{ pose proof (behaves_raises _ _ _ _ _ _ (behaves_osm_check c) Hcheck) as He.
      destruct e; try done.
      ends_with ltac:(
        eapply OsmMachine.configured; [exact Hload |];
        eapply OsmMachine.verified; [exact Hverify |];
        eapply OsmMachine.check_failed; exact Hcheck). }
  destruct existing.
  { ends_with ltac:(
        eapply OsmMachine.configured; [exact Hload |];
        eapply OsmMachine.verified; [exact Hverify |];
        eapply OsmMachine.data_present; exact Hcheck). }
  destruct (Osm.download_region c _) as [[raw_file | e] w3] eqn:Hdownload.
  2:{ pose proof (behaves_raises _ _ _ _ _ _ (behaves_osm_download c) Hdownload) as He.
      destruct e; try done.
      ends_with ltac:(
        eapply OsmMachine.configured; [exact Hload |];
        eapply OsmMachine.verified; [exact Hverify |];
        eapply OsmMachine.data_absent; [exact Hcheck |];
        eapply OsmMachine.download_failed; exact Hdownload). }
  destruct (Osm.filter_osm_data c raw_file _) as [[filtered_file | e] w4] eqn:Hfilter.
  2:{ pose proof (behaves_raises _ _ _ _ _ _ (behaves_osm_filter c raw_file) Hfilter) as He.
      destruct e; try done.
      ends_with ltac:(
        eapply OsmMachine.configured; [exact Hload |];
        eapply OsmMachine.verified; [exact Hverify |];
        eapply OsmMachine.data_absent; [exact Hcheck |];
        eapply OsmMachine.downloaded; [exact Hdownload |];
        eapply OsmMachine.filter_failed; exact Hfilter). }
  destruct (Osm.cleanup_raw c raw_file _) as [[[] | e] w5] eqn:Hdiscard.
  2:{ by pose proof (behaves_raises _ _ _ _ _ _ (behaves_cleanup_raw c raw_file) Hdiscard). }
  destruct (Osm.upload_to_database c filtered_file _) as [[[] | e] w6] eqn:Hupload.
  2:{ pose proof (behaves_raises _ _ _ _ _ _ (behaves_osm_upload c filtered_file) Hupload) as He.
      destruct e; try done.
      ends_with ltac:(
        eapply OsmMachine.configured; [exact Hload |];
        eapply OsmMachine.verified; [exact Hverify |];
        eapply OsmMachine.data_absent; [exact Hcheck |];
        eapply OsmMachine.downloaded; [exact Hdownload |];
        eapply OsmMachine.filtered; [exact Hfilter |];
        eapply OsmMachine.raw_discarded; [exact Hdiscard |];
        eapply OsmMachine.upload_failed; exact Hupload). }
  destruct (Osm.cleanup_filtered c filtered_file _) as [[[] | e] w7] eqn:Hcleanup.
  2:{ by pose proof (behaves_raises _ _ _ _ _ _ (behaves_cleanup_filtered c filtered_file)
                       Hcleanup). }
  ends_with ltac:(
        eapply OsmMachine.configured; [exact Hload |];
        eapply OsmMachine.verified; [exact Hverify |];
        eapply OsmMachine.data_absent; [exact Hcheck |];
        eapply OsmMachine.downloaded; [exact Hdownload |];
        eapply OsmMachine.filtered; [exact Hfilter |];
        eapply OsmMachine.raw_discarded; [exact Hdiscard |];
        eapply OsmMachine.uploaded; [exact Hupload |];
        eapply OsmMachine.cleaned_up; exact Hcleanup).
Qed.
(** ** What a run of the OSM driver contains *)

Lemma osm_run_stage p w o w' :
  OsmMachine.run p w o w' → (stage p ≤ ended o)%nat ∧ ∀ e, o ≠ crashed e.
Proof.
  induction 1; simpl in *; (split; [lia | done || intuition]).
Qed.

Lemma allowed_console (o : outcome) (e : event) : console_event e → allowed o e.
Proof. destruct o, e; simpl; try done; unfold quiet_event; simpl; tauto. Qed.

Lemma allowed_database (o : outcome) (e : event) :
  (1 ≤ ended o)%nat → database_event e → allowed o e.
Proof. destruct o, e; simpl; try done; try lia; unfold quiet_event; simpl; tauto. Qed.

Lemma allowed_download (o : outcome) (dest : string) (e : event) :
  (3 ≤ ended o)%nat → download_step dest e → allowed o e.
Proof. destruct o, e; simpl; try done; try lia; tauto. Qed.

Lemma allowed_filter (o : outcome) (e : event) :
  (4 ≤ ended o)%nat → filter_step e → allowed o e.
Proof. destruct o, e; simpl; try done; try lia; tauto. Qed.

Lemma allowed_late (o : outcome) (e : event) : (5 ≤ ended o)%nat → allowed o e.
Proof. destruct o; simpl; try done; lia. Qed.

Lemma evolves_stdout (o : outcome) (lines : list string) (w : world) :
  evolves (allowed o) w (say lines w).
Proof. apply evolves_say. intros line. by apply allowed_console. Qed.

Lemma evolves_stderr (o : outcome) (line : string) (w : world) :
  evolves (allowed o) w (record (EStderr line) w).
Proof. apply evolves_record. by apply allowed_console. Qed.

Lemma evolves_step {A} φ P (m : M A) (o : outcome) (w : world) (r : result A) (w1 : world) :
  behaves φ P m → m w = (r, w1) → (∀ e, φ e → allowed o e) → evolves (allowed o) w w1.
Proof.
  intros Hm Hrun Hsub. eapply evolves_mono; [exact Hsub |]. by eapply behaves_evolves.
Qed.

Lemma osm_run_evolves p w o w' : OsmMachine.run p w o w' → evolves (allowed o) w w'.
Proof.
  induction 1 as
    [ w c o w' Hload Hrun IH | w msg Hload
    | c w w1 o w' Hstep Hrun IH | c w w1 msg Hstep
    | c w w1 Hstep | c w w1 o w' Hstep Hrun IH | c w w1 msg Hstep
    | c w raw_file w1 o w' Hstep Hrun IH | c w w1 msg Hstep
    | c raw_file w filtered_file w1 o w' Hstep Hrun IH | c raw_file w w1 msg Hstep
    | c raw_file filtered_file w w1 o w' Hstep Hrun IH
    | c filtered_file w w1 o w' Hstep Hrun IH | c filtered_file w w1 msg Hstep
    | c filtered_file w w1 Hstep ];
    try (apply osm_run_stage in Hrun as [Hstage _]; simpl in Hstage).
  - eapply evolves_trans; [apply evolves_stdout | exact IH].
  - apply evolves_stderr.
  - eapply evolves_trans; [apply (evolves_stdout _ ["Verifying database connection..."]) |].
    eapply evolves_trans; [| eapply evolves_trans; [apply evolves_stdout | exact IH]].
    eapply evolves_step; [apply behaves_osm_verify | exact Hstep |].
    intros e. apply allowed_database. lia.
  - eapply evolves_trans; [apply (evolves_stdout _ ["Verifying database connection..."]) |].
    eapply evolves_trans; [| apply evolves_stderr].
    eapply evolves_step; [apply behaves_osm_verify | exact Hstep |].
    intros e. apply allowed_database. simpl. lia.
  - eapply evolves_trans; [| apply evolves_stdout].
    eapply evolves_step; [apply behaves_osm_check | exact Hstep |].
    intros e. apply allowed_database. simpl. lia.
  - eapply evolves_trans; [| eapply evolves_trans; [apply evolves_stdout | exact IH]].
    eapply evolves_step; [apply behaves_osm_check | exact Hstep |].
    intros e. apply allowed_database. lia.
  - eapply evolves_trans; [| apply evolves_stderr].
    eapply evolves_step; [apply behaves_osm_check | exact Hstep |].
    intros e. apply allowed_database. simpl. lia.
  - eapply evolves_trans; [| eapply evolves_trans; [apply evolves_stdout | exact IH]].
    eapply evolves_step; [apply behaves_osm_download | exact Hstep |].
    intros e. apply allowed_download. lia.
  - eapply evolves_trans; [| apply evolves_stderr].
    eapply evolves_step; [apply behaves_osm_download | exact Hstep |].
    intros e. apply allowed_download. simpl. lia.
  - eapply evolves_trans; [| eapply evolves_trans; [apply evolves_stdout | exact IH]].
    eapply evolves_step; [apply behaves_osm_filter | exact Hstep |].
    intros e. apply allowed_filter. lia.
  - eapply evolves_trans; [| apply evolves_stderr].
    eapply evolves_step; [apply behaves_osm_filter | exact Hstep |].
    intros e. apply allowed_filter. simpl. lia.
  - eapply evolves_trans; [| eapply evolves_trans; [apply evolves_stdout | exact IH]].
    eapply evolves_step; [apply behaves_cleanup_raw | exact Hstep |].
    intros e _. apply allowed_late. lia.
  - eapply evolves_trans; [| eapply evolves_trans; [apply evolves_stdout | exact IH]].
    eapply evolves_step; [apply behaves_osm_upload | exact Hstep |].
    intros e _. apply allowed_late. lia.
  - eapply evolves_trans; [| apply evolves_stderr].
    eapply evolves_step; [apply behaves_osm_upload | exact Hstep |].
    intros e _. apply allowed_late. simpl. lia.
  - eapply evolves_trans; [| apply evolves_stdout].
    eapply evolves_step; [apply behaves_cleanup_filtered | exact Hstep |].
    intros e _. apply allowed_late. simpl. lia.
Qed.

(** ** Counting requests and programs *)
















(** ** The steps of the GADM job *)

Lemma gadm_load_config_raises (env : gmap string string) (e : exn) :
  Gadm.load_config env = Raise e → ∃ msg, e = ConfigurationError msg.
Proof.
  unfold Gadm.load_config, Gadm.get_env_int, Gadm.required.
  repeat match goal with
  | |- context [bool_decide ?P] => destruct (bool_decide P)
  | |- context [env !! ?k] => lazymatch k with
      | "DB_PORT" => destruct (env !! k) as [[|? ?]|]
      | "GADM_GEOPACKAGE_URL" => destruct (env !! k) as [[|? ?]|]
      end
  | |- context [Py.int ?v] => destruct (Py.int v)
  end; intros [= <-] || intros [=]; eauto.
Qed.

Lemma behaves_gadm_verify (c : Gadm.Config) :
  behaves database_event (λ _, True) (Gadm.verify_connection c).
Proof.
  unfold Gadm.verify_connection.
  apply behaves_try with (Q := λ _, True).
  - apply behaves_with_connection; [done | done |].
    apply behaves_bind; [by apply behaves_execute |]. intros result.
    destruct result; try (by apply behaves_raise);
      (apply behaves_bind;
       [ destruct (not_utf8 _);
         [ apply behaves_bind; [by apply behaves_execute | intros; apply behaves_ret]
         | apply behaves_ret ] |]); intros _;
      repeat (apply behaves_bind; [by apply behaves_execute | intros _]);
      apply behaves_ret.
  - intros e _. destruct e; try (by apply behaves_raise).
    destruct operational; by apply behaves_raise.
Qed.

Lemma behaves_gadm_check (c : Gadm.Config) :
  behaves database_event (λ _, True) (Gadm.check_existing_data c).
Proof.
  unfold Gadm.check_existing_data.
  apply behaves_try with (Q := λ _, True).
  - apply behaves_with_connection; [done | done |].
    apply behaves_bind; [by apply behaves_execute |].
    intros []; apply behaves_ret.
  - intros e _. destruct e; by apply behaves_raise.
Qed.

Lemma gadm_check_answer (c : Gadm.Config) (w : world) (b : bool) (w1 : world) :
  Gadm.check_existing_data c w = (Ok b, w1) →
  (b = true ↔ data_present Gadm.expected_tables w).
Proof.
  unfold Gadm.check_existing_data, try_except. rewrite with_connection_unfold.
  destruct (pg_down (pg w)); [done |].
  unfold bind. rewrite execute_unfold. simpl.
  destruct (pg_rejects (pg w) _); [done |]. simpl.
  intros [= <- _]. apply existsb_present.
Qed.


Lemma extraction_keeps_files (e : event) : extraction_event e → keeps_files e.
Proof. by destruct e. Qed.

Lemma behaves_gadm_download md5 (c : Gadm.Config) :
  behaves keeps_files (λ _, True) (Gadm.download_geopackage_levels md5 c).
Proof.
  unfold Gadm.download_geopackage_levels.
  apply behaves_bind; [by apply behaves_mkdir | intros _].
  apply behaves_bind.
  { unfold Gadm._read_md5. apply behaves_bind; [apply behaves_path_exists |].
    intros []; [| apply behaves_ret].
    apply behaves_bind; [by apply behaves_read_file | intros; apply behaves_ret]. }
  intros stored.
  apply behaves_bind.
  { unfold Gadm.must_download. apply behaves_bind; [apply behaves_path_exists |].
    intros []; simpl; [| apply behaves_ret].
    destruct stored as [[|? ?]|]; try apply behaves_ret.
    apply behaves_bind; [| intros; apply behaves_ret].
    unfold Gadm._calculate_md5.
    apply behaves_bind; [by apply behaves_read_file | intros; apply behaves_ret]. }
  intros stale.
  apply behaves_bind.
  { destruct stale; [| apply behaves_ret].
    unfold Gadm.refresh_archive.
    apply behaves_bind; [by apply behaves_requests_get | intros response].
    apply behaves_bind; [by apply behaves_raise_for_status | intros _].
    apply behaves_bind; [by apply behaves_save_body | intros _].
    apply behaves_bind.
    { unfold Gadm._calculate_md5.
      apply behaves_bind; [by apply behaves_read_file | intros; apply behaves_ret]. }
    intros new_md5. unfold Gadm._write_md5.
    apply behaves_bind; [by apply behaves_mkdir | intros _].
    by apply behaves_write_text. }
  intros _.
  apply behaves_bind; [| intros; apply behaves_ret].
  eapply behaves_mono; [apply extraction_keeps_files | done |].
  apply behaves_extract_gpkg, gpkg_last_char.
Qed.

Lemma behaves_gadm_upload (c : Gadm.Config) :
  behaves keeps_files (λ _, True) (Gadm.upload_levels_gpkg c).
Proof.
  unfold Gadm.upload_levels_gpkg.
  apply behaves_bind; [apply behaves_path_exists |].
  intros []; simpl; [| by apply behaves_raise].
  apply behaves_bind.
  { unfold Gadm.feature_layers.
    apply behaves_bind; [by apply behaves_read_file |]. intros content w.
    destruct (gpkg_layers w content); simpl; (split; [apply evolves_refl | done]). }
  intros [| layer layers]; [by apply behaves_raise |].
  apply behaves_with_connection; [done | done |].
  apply behaves_for_each. intros x. unfold Gadm.upload_layer.
  destruct (Gadm.table_of_layer x); [| by apply behaves_raise].
  apply behaves_bind; [by apply behaves_run_checked | intros _].
  repeat (apply behaves_bind; [by apply behaves_execute | intros _]).
  apply behaves_ret.
Qed.

(** Clean-up of the GADM job never raises: it removes the GeoPackage, or
    says that there is none. *)
Lemma cleanup_geopackage_result (c : Gadm.Config) (w : world) :
  Gadm.cleanup_geopackage c w =
  if bool_decide (is_Some (files w !! Gadm.raw_dir c))
  then (Ok tt,
        record (EStdout ("✓ Cleaned up " +:+ Gadm.raw_dir c))
          (set_files (delete (Gadm.raw_dir c)) (record (EUnlink (Gadm.raw_dir c)) w)))
  else (Ok tt,
        record (EStdout ("X " +:+ Gadm.raw_dir c +:+ " not found, nothing to clean")) w).
Proof.
  unfold Gadm.cleanup_geopackage, bind at 1, path_exists.
  case_bool_decide as Hfile; [| done].
  unfold bind, print, emit. rewrite unlink_result. simpl.
  destruct Hfile as [content ->]. done.
Qed.

Lemma behaves_gadm_cleanup (c : Gadm.Config) :
  behaves (discard_step (Gadm.raw_dir c)) nothing_raised (Gadm.cleanup_geopackage c).
Proof.
  intros w. rewrite cleanup_geopackage_result.
  case_bool_decide; simpl; (split; [| done]).
  - eapply evolves_trans; [| by apply (evolves_record _ (EStdout _))].
    apply evolves_write with (p := Gadm.raw_dir c); [done | done |].
    intros fs q Hq. by rewrite lookup_delete_ne.
  - by apply evolves_record.
Qed.

(** ** The GADM driver follows its phases *)

Lemma gadm_main_run md5 (force : bool) (w : world) :
  ∃ o w', GadmMachine.run md5 force GadmMachine.Configuring w o w'
          ∧ Gadm.main md5 force w = (exit_status o, w').
Proof.
  unfold Gadm.main.
  destruct (Gadm.load_config (environ w)) as [c | e] eqn:Hload.
  2:{ destruct (gadm_load_config_raises _ _ Hload) as [msg ->].
      eexists _, _. split; [by apply GadmMachine.configuration_failed | done]. }
  cbv beta iota delta [bind eprint emit ret].
  destruct (Gadm.verify_connection c w) as [[[] | e] w1] eqn:Hverify.
  2:{ ends_with ltac:(
        eapply GadmMachine.configured; [exact Hload |];
        eapply GadmMachine.verification_failed; exact Hverify). }
  destruct (Gadm.check_existing_data c w1) as [[existing | e] w2] eqn:Hcheck.
  2:{ ends_with ltac:(
        eapply GadmMachine.configured; [exact Hload |];
        eapply GadmMachine.verified; [exact Hverify |];
        eapply GadmMachine.check_failed; exact Hcheck). }
  destruct (existing && negb force) eqn:Hskip.
  { apply andb_true_iff in Hskip as [-> Hforce%negb_true_iff].
    ends_with ltac:(
        eapply GadmMachine.configured; [exact Hload |];
        eapply GadmMachine.verified; [exact Hverify |];
        eapply GadmMachine.data_present; [exact Hcheck | exact Hforce]). }
  destruct (Gadm.download_geopackage_levels md5 c w2) as [[gpkg_file | e] w3] eqn:Hdownload.
  2:{ ends_with ltac:(
        eapply GadmMachine.configured; [exact Hload |];
        eapply GadmMachine.verified; [exact Hverify |];
        eapply GadmMachine.data_wanted; [exact Hcheck | exact Hskip |];
        eapply GadmMachine.download_failed; exact Hdownload). }
  destruct (Gadm.upload_levels_gpkg c w3) as [[[] | e] w4] eqn:Hupload.
  2:{ ends_with ltac:(
        eapply GadmMachine.configured; [exact Hload |];
        eapply GadmMachine.verified; [exact Hverify |];
        eapply GadmMachine.data_wanted; [exact Hcheck | exact Hskip |];
        eapply GadmMachine.downloaded; [exact Hdownload |];
        eapply GadmMachine.upload_failed; exact Hupload). }
  destruct (Gadm.cleanup_geopackage c w4) as [[[] | e] w5] eqn:Hcleanup.
  2:{ by pose proof (behaves_raises _ _ _ _ _ _ (behaves_gadm_cleanup c) Hcleanup). }
  ends_with ltac:(
        eapply GadmMachine.configured; [exact Hload |];
        eapply GadmMachine.verified; [exact Hverify |];
        eapply GadmMachine.data_wanted; [exact Hcheck | exact Hskip |];
        eapply GadmMachine.downloaded; [exact Hdownload |];
        eapply GadmMachine.uploaded; [exact Hupload |];
        eapply GadmMachine.cleaned_up; exact Hcleanup).
Qed.

(** ** Runs over a database that holds the tables *)

Lemma quiet_untouched (w w' : world) : evolves quiet_event w w' → untouched w w'.
Proof.
  intros (_ & _ & _ & _ & _ & _ & _ & d & Hj & Hd & Hfiles & _).
  exists d. split; [done |].
  assert (∀ e, quiet_event e → database_event e ∨ console_event e) as Hq by done.
  split; [eapply no_http_requests; [| exact Hd]; by intros url [[] | []] |].
  split; [eapply no_spawned; [| exact Hd]; by intros argv [[] | []] |].
  split; [eapply no_created; [| | exact Hd]; [by intros p [[] | []] | by intros ? ? [[] | []]] |].
  split; [eapply no_unlinked; [| exact Hd]; by intros p [[] | []] |].
  apply map_eq. intros p. apply Hfiles.
  eapply Forall_impl; [exact Hd |]. intros [] [[] | []]; simpl; tauto.
Qed.

Lemma evolves_tables φ (w w' : world) :
  (∀ e, φ e → ¬ is_spawn e) → evolves φ w w' → pg_tables (pg w') = pg_tables (pg w).
Proof.
  intros Hφ (_ & _ & _ & _ & _ & _ & _ & d & _ & Hd & _ & Htables).
  apply Htables. eapply Forall_impl; [exact Hd | exact Hφ].
Qed.

Lemma evolves_server φ (w w' : world) :
  evolves φ w w' → pg_down (pg w') = pg_down (pg w) ∧ pg_rejects (pg w') = pg_rejects (pg w).
Proof. by intros (_ & _ & _ & _ & _ & ? & ? & _). Qed.

Lemma data_present_evolves φ (expected : list string) (w w' : world) :
  (∀ e, φ e → ¬ is_spawn e) → evolves φ w w' →
  data_present expected w → data_present expected w'.
Proof.
  intros Hφ Hev (t & Hexp & Hin). exists t. split; [done |].
  by rewrite (evolves_tables φ w w').
Qed.

Lemma quiet_no_spawn (e : event) : quiet_event e → ¬ is_spawn e.
Proof. intros [H | H] Hs; by destruct e. Qed.

Lemma database_quiet (e : event) : database_event e → quiet_event e.
Proof. by left. Qed.

Lemma console_quiet (e : event) : console_event e → quiet_event e.
Proof. by right. Qed.

Lemma evolves_quiet_say (lines : list string) (w : world) : evolves quiet_event w (say lines w).
Proof. apply evolves_say. intros line. by right. Qed.

Lemma evolves_quiet_stderr (line : string) (w : world) :
  evolves quiet_event w (record (EStderr line) w).
Proof. apply evolves_record. by right. Qed.

(** With a table there, the OSM driver stops at the existence check or before. *)
Lemma osm_run_with_data (w : world) (o : outcome) (w' : world) :
  data_present Osm.expected_tables w →
  OsmMachine.run OsmMachine.Configuring w o w' →
  evolves quiet_event w w'
  ∧ (o = skipped ∨ o = configuration_error ∨ o = database_error).
Proof.
  intros Hdata Hrun.
  inversion Hrun as [? c ? ? Hload Hverifying | ? msg Hload | | | | | | | | | | | | |]; subst;
    [| split; [apply evolves_quiet_stderr | auto]].
  set (w0 := say _ w) in *.
  assert (evolves quiet_event w w0) as H0 by apply evolves_quiet_say.
  inversion Hverifying as [| | ? ? w1 ? ? Hverify Hchecking | ? ? w1 msg Hverify
                           | | | | | | | | | | |]; subst.
  2:{ split; [| auto].
      eapply evolves_trans; [exact H0 |].
      eapply evolves_trans; [apply (evolves_quiet_say ["Verifying database connection..."]) |].
      eapply evolves_trans; [| apply evolves_quiet_stderr].
      eapply evolves_mono; [apply database_quiet |].
      by eapply behaves_evolves; [apply behaves_osm_verify |]. }
  assert (evolves quiet_event w (say OsmMachine.verified_lines w1)) as H1.
  { eapply evolves_trans; [exact H0 |].
    eapply evolves_trans; [apply (evolves_quiet_say ["Verifying database connection..."]) |].
    eapply evolves_trans; [| apply evolves_quiet_say].
    eapply evolves_mono; [apply database_quiet |].
    by eapply behaves_evolves; [apply behaves_osm_verify |]. }
  pose proof (data_present_evolves _ _ _ _ quiet_no_spawn H1 Hdata) as Hdata1.
  inversion Hchecking as [| | | | ? ? w2 Hcheck | ? ? w2 ? ? Hcheck Hdownloading
                          | ? ? w2 msg Hcheck | | | | | | | |]; subst.
  - split; [| auto].
    eapply evolves_trans; [exact H1 |].
    eapply evolves_trans; [| apply evolves_quiet_say].
    eapply evolves_mono; [apply database_quiet |].
    by eapply behaves_evolves; [apply behaves_osm_check |].
  - apply osm_check_answer in Hcheck. by apply Hcheck in Hdata1.
  - split; [| auto].
    eapply evolves_trans; [exact H1 |].
    eapply evolves_trans; [| apply evolves_quiet_stderr].
    eapply evolves_mono; [apply database_quiet |].
    by eapply behaves_evolves; [apply behaves_osm_check |].
Qed.

Lemma say_pg (lines : list string) (w : world) : pg (say lines w) = pg w.
Proof. revert w. induction lines as [| l lines IH]; intros w; simpl; [done |]. by rewrite IH. Qed.



(** With a table there and no [--force], the GADM driver stops at the
    existence check or before. *)
Lemma gadm_run_with_data md5 (w : world) (o : outcome) (w' : world) :
  data_present Gadm.expected_tables w →
  GadmMachine.run md5 false GadmMachine.Configuring w o w' →
  evolves quiet_event w w'
  ∧ (o = skipped ∨ o = configuration_error ∨ ∃ e, o = crashed e).
Proof.
  intros Hdata Hrun.
  inversion Hrun as [? c ? ? Hload Hverifying | ? msg Hload | | | | | | | | | |]; subst;
    [| split; [apply evolves_quiet_stderr | auto]].
  inversion Hverifying as [| | ? ? w1 ? ? Hverify Hchecking | ? ? w1 e Hverify
                           | | | | | | | |]; subst.
  2:{ split; [| eauto].
      eapply evolves_mono; [apply database_quiet |].
      by eapply behaves_evolves; [apply behaves_gadm_verify |]. }
  assert (evolves quiet_event w w1) as H1.
  { eapply evolves_mono; [apply database_quiet |].
    by eapply behaves_evolves; [apply behaves_gadm_verify |]. }
  pose proof (data_present_evolves _ _ _ _ quiet_no_spawn H1 Hdata) as Hdata1.
  inversion Hchecking as [| | | | ? ? w2 Hcheck | ? ? w2 existing ? ? Hcheck Hwanted
                          | ? ? w2 e Hcheck | | | | |]; subst.
  - split; [| auto].
    eapply evolves_trans; [exact H1 |].
    eapply evolves_trans; [| apply evolves_quiet_stderr].
    eapply evolves_mono; [apply database_quiet |].
    by eapply behaves_evolves; [apply behaves_gadm_check |].
  - rewrite andb_true_r in Hwanted. subst existing.
    apply gadm_check_answer in Hcheck. by apply Hcheck in Hdata1.
  - split; [| eauto].
    eapply evolves_trans; [exact H1 |].
    eapply evolves_mono; [apply database_quiet |].
    by eapply behaves_evolves; [apply behaves_gadm_check |].
Qed.


(** ** C1: existing data *)




(** ** The raw file is not the filtered file *)

Lemma length_append (a b : string) :
  String.length (a +:+ b) = (String.length a + String.length b)%nat.
Proof. induction a as [| c a IH]; [done |]. rewrite append_cons. simpl. by rewrite IH. Qed.

Lemma endswith_append (p a : string) : Py.endswith p (a +:+ p) = true.
Proof.
  induction a as [| c a IH].
  - rewrite append_nil_l. destruct p; cbn [Py.endswith]; by rewrite bool_decide_eq_true_2.
  - rewrite append_cons. cbn [Py.endswith]. rewrite IH. apply orb_true_r.
Qed.

Lemma endswith_longer (p a b : string) :
  (String.length p ≤ String.length b)%nat →
  Py.endswith p (a +:+ b) = Py.endswith p b.
Proof.
  intros Hlen. induction a as [| c a IH]; [by rewrite append_nil_l |].
  rewrite append_cons. cbn [Py.endswith]. rewrite IH.
  rewrite bool_decide_eq_false_2; [done |].
  intros <-. simpl in Hlen. rewrite length_append in Hlen. lia.
Qed.

Lemma raw_is_not_filtered (c : Osm.Config) (input_file : string) :
  Osm.output_file_of c ≠ Osm.filtered_file_of c input_file.
Proof.
  intros Heq.
  assert (Py.endswith "-roads.osm.pbf" (Osm.output_file_of c) = false) as Hraw.
  { unfold Osm.output_file_of, Py.joinpath.
    rewrite <- !append_assoc. rewrite endswith_longer by (simpl; lia). reflexivity. }
  assert (Py.endswith "-roads.osm.pbf" (Osm.filtered_file_of c input_file) = true) as Hf.
  { unfold Osm.filtered_file_of, Py.joinpath. cbn zeta.
    rewrite <- !append_assoc. apply endswith_append. }
  congruence.
Qed.

(** ** Clean-up comes after the upload *)

Lemma database_keeps_files (e : event) : database_event e → keeps_files e.
Proof. by destruct e. Qed.

Lemma discard_keeps_others (p q : string) (e : event) : p ≠ q → discard_step p e → spares q e.
Proof. intros Hpq. destruct e; simpl; try done. by intros ->. Qed.

Lemma gadm_cleanup_step (w w1 : world) (o : outcome) (w' : world) :
  evolves keeps_files w w1 →
  gadm_cleanup_after_upload w1 o w' → gadm_cleanup_after_upload w o w'.
Proof.
  intros Hstep [Hfail Hsuccess]. split.
  - intros Ho. eapply evolves_trans; [exact Hstep | by apply Hfail].
  - intros Ho. destruct (Hsuccess Ho) as (c & w3 & w4 & Hev & Hup & Hclean).
    exists c, w3, w4. split; [by eapply evolves_trans | done].
Qed.

Lemma gadm_cleanup_failed (w w1 : world) (o : outcome) :
  o ≠ success → evolves keeps_files w w1 → gadm_cleanup_after_upload w o w1.
Proof. intros Ho Hev. split; [done | by intros ?]. Qed.

Lemma gadm_run_cleanup md5 (force : bool) p w o w' :
  GadmMachine.run md5 force p w o w' →
  (∀ c, p ≠ GadmMachine.CleaningUp c) → gadm_cleanup_after_upload w o w'.
Proof.
  induction 1 as
    [ w c o w' Hload Hrun IH | w msg Hload
    | c w w1 o w' Hstep Hrun IH | c w w1 e Hstep
    | c w w1 Hstep Hforce | c w w1 existing o w' Hstep Hwanted Hrun IH | c w w1 e Hstep
    | c w gpkg_file w1 o w' Hstep Hrun IH | c w w1 e Hstep
    | c w w1 o w' Hstep Hrun IH | c w w1 e Hstep
    | c w w1 Hstep ]; intros Hphase.
  - by apply IH.
  - apply gadm_cleanup_failed; [done | by apply evolves_record].
  - eapply gadm_cleanup_step; [| by apply IH].
    eapply evolves_mono; [apply database_keeps_files |].
    by eapply behaves_evolves; [apply behaves_gadm_verify |].
  - apply gadm_cleanup_failed; [done |].
    eapply evolves_mono; [apply database_keeps_files |].
    by eapply behaves_evolves; [apply behaves_gadm_verify |].
  - apply gadm_cleanup_failed; [done |].
    eapply evolves_trans; [| by apply evolves_record].
    eapply evolves_mono; [apply database_keeps_files |].
    by eapply behaves_evolves; [apply behaves_gadm_check |].
  - eapply gadm_cleanup_step; [| by apply IH].
    eapply evolves_mono; [apply database_keeps_files |].
    by eapply behaves_evolves; [apply behaves_gadm_check |].
  - apply gadm_cleanup_failed; [done |].
    eapply evolves_mono; [apply database_keeps_files |].
    by eapply behaves_evolves; [apply behaves_gadm_check |].
  - eapply gadm_cleanup_step; [| by apply IH].
    by eapply behaves_evolves; [apply behaves_gadm_download |].
  - apply gadm_cleanup_failed; [done |].
    by eapply behaves_evolves; [apply behaves_gadm_download |].
  - inversion Hrun; subst. split; [done | intros _].
    exists c, w, w1. split; [| done].
    by eapply behaves_evolves; [apply behaves_gadm_upload |].
  - apply gadm_cleanup_failed; [done |].
    by eapply behaves_evolves; [apply behaves_gadm_upload |].
  - by destruct (Hphase c).
Qed.

Lemma osm_cleanup_step (c : Osm.Config) (f : string) (w w1 : world) (o : outcome)
    (w' : world) :
  evolves (spares f) w w1 →
  osm_cleanup_after_upload c f w1 o w' → osm_cleanup_after_upload c f w o w'.
Proof.
  intros Hstep [Hfail Hsuccess]. split.
  - intros Ho. eapply evolves_trans; [exact Hstep | by apply Hfail].
  - intros Ho. destruct (Hsuccess Ho) as (w3 & w4 & w5 & Hev & Hup & Hclean & Hend).
    exists w3, w4, w5. split; [by eapply evolves_trans | done].
Qed.

Lemma osm_cleanup_failed (c : Osm.Config) (f : string) (w w1 : world) (o : outcome) :
  o ≠ success → evolves (spares f) w w1 → osm_cleanup_after_upload c f w o w1.
Proof. intros Ho Hev. split; [done | by intros ?]. Qed.

Lemma osm_filter_returns (c : Osm.Config) (input_file : string) (w : world)
    (filtered_file : string) (w1 : world) :
  Osm.filter_osm_data c input_file w = (Ok filtered_file, w1) →
  filtered_file = Osm.filtered_file_of c input_file.
Proof.
  unfold Osm.filter_osm_data, bind at 1, path_exists.
  destruct (bool_decide _); [by intros [= <- _] |].
  unfold bind. destruct (Osm.filter_roads _ _ _) as [[[] | e] w2]; [| done].
  by intros [= <- _].
Qed.

(** What the steps before the upload add spares the filtered file. *)
Ltac spared :=
  first
    [ eapply evolves_mono;
        [| eapply behaves_evolves; [apply behaves_osm_verify | eassumption]];
        by intros []
    | eapply evolves_mono;
        [| eapply behaves_evolves; [apply behaves_osm_check | eassumption]];
        by intros []
    | eapply evolves_mono;
        [| eapply behaves_evolves; [apply behaves_osm_filter | eassumption]];
        by intros []
    | eapply evolves_mono;
        [| eapply behaves_evolves; [apply behaves_osm_upload | eassumption]];
        by intros []
    | apply evolves_say; by intros ?
    | apply evolves_record; done ].

Lemma osm_run_cleanup p w o w' (c : Osm.Config) (f : string) :
  OsmMachine.run p w o w' → aims_at p c f → osm_cleanup_after_upload c f w o w'.
Proof.
  intros Hrun. revert c f.
  induction Hrun as
    [ w c0 o w' Hload Hrun IH | w msg Hload
    | c0 w w1 o w' Hstep Hrun IH | c0 w w1 msg Hstep
    | c0 w w1 Hstep | c0 w w1 o w' Hstep Hrun IH | c0 w w1 msg Hstep
    | c0 w raw_file w1 o w' Hstep Hrun IH | c0 w w1 msg Hstep
    | c0 raw_file w filtered_file w1 o w' Hstep Hrun IH | c0 raw_file w w1 msg Hstep
    | c0 raw_file filtered_file w w1 o w' Hstep Hrun IH
    | c0 filtered_file w w1 o w' Hstep Hrun IH | c0 filtered_file w w1 msg Hstep
    | c0 filtered_file w w1 Hstep ]; intros c f Haim; simpl in Haim; try done.
  - destruct Haim as [-> ->].
    eapply osm_cleanup_step; [| by apply IH].
    eapply evolves_trans; [apply (evolves_say _ ["Verifying database connection..."]); by intros ? |].
    eapply evolves_trans; [spared | spared].
  - destruct Haim as [-> ->]. apply osm_cleanup_failed; [done |].
    eapply evolves_trans; [apply (evolves_say _ ["Verifying database connection..."]); by intros ? |].
    eapply evolves_trans; [spared | spared].
  - destruct Haim as [-> ->]. apply osm_cleanup_failed; [done |].
    eapply evolves_trans; [spared | spared].
  - destruct Haim as [-> ->].
    eapply osm_cleanup_step; [| by apply IH].
    eapply evolves_trans; [spared | spared].
  - destruct Haim as [-> ->]. apply osm_cleanup_failed; [done |].
    eapply evolves_trans; [spared | spared].
  - destruct Haim as [-> ->].
    destruct (osm_download_returns _ _ _ _ Hstep) as [-> _].
    eapply osm_cleanup_step; [| by apply IH].
    eapply evolves_trans; [| spared].
    eapply evolves_mono;
      [| eapply behaves_evolves; [apply behaves_osm_download | eassumption]].
    intros [] He; simpl in *; try done. subst. apply raw_is_not_filtered.
  - destruct Haim as [-> ->]. apply osm_cleanup_failed; [done |].
    eapply evolves_trans; [| spared].
    eapply evolves_mono;
      [| eapply behaves_evolves; [apply behaves_osm_download | eassumption]].
    intros [] He; simpl in *; try done. subst. apply raw_is_not_filtered.
  - destruct Haim as (-> & -> & ->).
    pose proof (osm_filter_returns _ _ _ _ _ Hstep) as ->.
    eapply osm_cleanup_step; [| by apply IH].
    eapply evolves_trans; [spared | spared].
  - destruct Haim as (-> & -> & ->). apply osm_cleanup_failed; [done |].
    eapply evolves_trans; [spared | spared].
  - destruct Haim as (-> & -> & -> & ->).
    eapply osm_cleanup_step; [| by apply IH].
    eapply evolves_trans; [| spared].
    eapply evolves_mono;
      [| eapply behaves_evolves; [apply behaves_cleanup_raw | eassumption]].
    intros e. apply discard_keeps_others, raw_is_not_filtered.
  - destruct Haim as [-> ->].
    inversion Hrun; subst. split; [done | intros _].
    eexists w, w1, _. split; [spared |]. split; [done |]. split; [eassumption | done].
  - destruct Haim as [-> ->]. apply osm_cleanup_failed; [done |].
    eapply evolves_trans; [spared | spared].
Qed.

(** ** C6: clean-up and the upload *)

Lemma osm_discards_raw_first (c : Osm.Config) (raw_file filtered_file : string)
    (w : world) (o : outcome) (w' : world) :
  OsmMachine.run (OsmMachine.DiscardingRaw c raw_file filtered_file) w o w' →
  Osm.cleanup c = true → is_Some (files w !! raw_file) →
  (o = success ∨ o = upload_error)
  ∧ ∃ d, journal w' = journal w ++
           EStdout ("Cleaning up raw file: " +:+ Py.basename raw_file)
           :: EUnlink raw_file :: d.
Proof.
  intros Hrun Hcleanup Hfile.
  inversion Hrun as [| | | | | | | | | | | ? ? ? ? w1 ? ? Hstep Huploading | | |]; subst.
  split.
  - destruct (osm_run_stage _ _ _ _ Huploading) as [Hstage Hcrash]. simpl in Hstage.
    destruct o; simpl in Hstage; try lia; auto. by destruct (Hcrash e).
  - rewrite cleanup_raw_result, Hcleanup, bool_decide_eq_true_2 in Hstep by done.
    injection Hstep as <-.
    apply osm_run_evolves, evolves_journal in Huploading as (d & -> & _).
    eexists. simpl. rewrite <- !app_assoc. simpl. reflexivity.
Qed.

(** C6, as the code has it.  In a run of the GADM job no file is removed
    unless the run ends with success, and then none before
    [upload_levels_gpkg] returned: clean-up starts in the world the upload
    left.  In a run of the OSM job the same holds of the filtered file, the
    one that is uploaded.  The raw download of the OSM job is another
    matter: with [CLEANUP] on it is removed after the filter step, before
    the upload starts, whether the run then ends with success or with an
    upload error.  Clean-up never raises: without a GeoPackage the GADM
    job prints that there is nothing to clean, and the two clean-up blocks
    of the OSM job do nothing at all when the file is missing. *)
Theorem cleanup_follows_the_upload md5 (force : bool) (w : world) :
  (∃ o w', Gadm.main md5 force w = (exit_status o, w')
           ∧ gadm_cleanup_after_upload w o w')
  ∧ (∃ o w', Osm.main w = (exit_status o, w')
             ∧ ∀ c, Osm.load_config (environ w) = Ok c →
                    osm_cleanup_after_upload c
                      (Osm.filtered_file_of c (Osm.output_file_of c)) w o w')
  ∧ (∀ c raw_file filtered_file o w',
       OsmMachine.run (OsmMachine.DiscardingRaw c raw_file filtered_file) w o w' →
       Osm.cleanup c = true → is_Some (files w !! raw_file) →
       (o = success ∨ o = upload_error)
       ∧ ∃ d, journal w' = journal w ++
                EStdout ("Cleaning up raw file: " +:+ Py.basename raw_file)
                :: EUnlink raw_file :: d)
  ∧ (∀ c, ∃ w', Gadm.cleanup_geopackage c w = (Ok tt, w')
                ∧ (files w !! Gadm.raw_dir c = None →
                   w' = record (EStdout ("X " +:+ Gadm.raw_dir c
                                         +:+ " not found, nothing to clean")) w))
  ∧ (∀ c p, ∃ w', Osm.cleanup_raw c p w = (Ok tt, w')
                  ∧ (files w !! p = None → w' = w))
  ∧ (∀ c p, ∃ w', Osm.cleanup_filtered c p w = (Ok tt, w')
                  ∧ (files w !! p = None → w' = w)).
Proof.
  split; [| split; [| split; [| split; [| split]]]].
  - destruct (gadm_main_run md5 force w) as (o & w' & Hrun & Hmain).
    exists o, w'. split; [done |]. by eapply gadm_run_cleanup.
  - destruct (osm_main_run w) as (o & w' & Hrun & Hmain).
    exists o, w'. split; [done |]. intros c Hload.
    inversion Hrun as [? c' ? ? Hload' Hverifying | ? msg Hload' | | | | | | | | | | | | |];
      subst; [| congruence].
    rewrite Hload in Hload'. injection Hload' as <-.
    eapply osm_cleanup_step; [apply evolves_say; by intros ? |].
    by eapply osm_run_cleanup.
  - intros c raw_file filtered_file o w'. apply osm_discards_raw_first.
  - intros c. rewrite cleanup_geopackage_result.
    case_bool_decide as Hfile; eexists; (split; [reflexivity |]); [| done].
    intros Hnone. rewrite Hnone in Hfile. by destruct Hfile.
  - intros c p. rewrite cleanup_raw_result.
    destruct (Osm.cleanup c); simpl; [| by eexists].
    case_bool_decide as Hfile; eexists; (split; [reflexivity |]); [| done].
    intros Hnone. rewrite Hnone in Hfile. by destruct Hfile.
  - intros c p. rewrite cleanup_filtered_result.
    destruct (Osm.cleanup c); simpl; [| by eexists].
    case_bool_decide as Hfile; eexists; (split; [reflexivity |]); [| done].
    intros Hnone. rewrite Hnone in Hfile. by destruct Hfile.
Qed.

Lemma cleanup_follows_the_upload_witness :
  ∃ o w', Osm.main (tooled_world 0) = (exit_status o, w')
          ∧ osm_cleanup_after_upload osm_config
              (Osm.filtered_file_of osm_config (Osm.output_file_of osm_config))
              (tooled_world 0) o w'.
Proof.
  destruct (cleanup_follows_the_upload toy_digest false (tooled_world 0))
    as (_ & (o & w' & Hmain & Hrun) & _).
  exists o, w'. split; [exact Hmain |]. apply Hrun. reflexivity.
Defined.

(** The claim as it is worded fails for the OSM job: with [CLEANUP] on
    (the default) and [osm2pgsql] failing, the driver returns 4 and the raw
    download has been removed. *)
Lemma raw_file_goes_before_the_upload :
  ¬ (∀ w : world,
       (Osm.main w).1 = Ok 4 →
       unlinked (journal (Osm.main w).2) = unlinked (journal w)).
Proof.
  intros Hclaim. specialize (Hclaim (tooled_world 1) eq_refl).
  vm_compute in Hclaim. discriminate.
Qed.

(** ** C9: the exit codes of the OSM driver *)


(** Sample runs, one for each code. *)
Lemma osm_sample_runs :
  (Osm.main (tooled_world 0)).1 = Ok 0
  ∧ (Osm.main (loaded_world osm_environ)).1 = Ok 0
  ∧ (Osm.main (sample_world ∅)).1 = Ok 1
  ∧ (Osm.main (offline_world osm_environ)).1 = Ok 2
  ∧ (Osm.main (sample_world osm_environ)).1 = Ok 3
  ∧ (Osm.main (latin1_world osm_environ [])).1 = Ok 4
  ∧ (Osm.main (tooled_world 1)).1 = Ok 4.
Proof. repeat split; vm_compute; reflexivity. Qed.

(** * Further properties of the code *)

(** ** Loaded configurations *)

Lemma rstrip_last_char (p : ascii → bool) (s : string) (c : ascii) :
  last_char (Py.rstrip_by p s) = Some c → p c = false.
Proof.
  revert c. induction s as [| a s IH]; intros c; simpl; [done |].
  destruct (Py.rstrip_by p s) as [| b r] eqn:Hr.
  - destruct (p a) eqn:Ha; simpl; [done |]. by intros [= <-].
  - intros Hc. apply IH. by destruct r.
Qed.

(** X1.  A configuration of the OSM job that [load_config] returns is
    valid: the region is one of [REGIONS], the four database fields are
    the trimmed variables and none is empty, the three numbers are what
    [get_env_int] reads, the base URL does not end with a slash, and the
    log level and format are among the accepted values. *)
Theorem osm_loaded_config_is_valid (env : gmap string string) (c : Osm.Config) :
  Osm.load_config env = Ok c →
  Osm.region c ∈ Osm.REGIONS
  ∧ (Osm.db_host c = Py.strip (default "" (env !! "DB_HOST")) ∧ Osm.db_host c ≠ "")
  ∧ (Osm.db_name c = Py.strip (default "" (env !! "DB_NAME")) ∧ Osm.db_name c ≠ "")
  ∧ (Osm.db_user c = Py.strip (default "" (env !! "DB_USER")) ∧ Osm.db_user c ≠ "")
  ∧ (Osm.db_password c = Py.strip (default "" (env !! "DB_PASSWORD"))
     ∧ Osm.db_password c ≠ "")
  ∧ Osm.get_env_int env "DB_PORT" 5432 = Ok (Osm.db_port c)
  ∧ Osm.get_env_int env "CACHE_SIZE_MB" 2000 = Ok (Osm.cache_size_mb c)
  ∧ Osm.get_env_int env "NUM_PROCESSES" 4 = Ok (Osm.num_processes c)
  ∧ last_char (Osm.geofabrik_base_url c) ≠ Some "/"%char
  ∧ Osm.log_level c ∈ ["DEBUG"; "INFO"; "WARNING"; "ERROR"]
  ∧ Osm.log_format c ∈ ["json"; "text"].
Proof.
  unfold Osm.load_config.
  repeat (case_bool_decide; cbn [negb]; try discriminate).
  all: destruct (Osm.get_env_int env "DB_PORT" 5432) as [port |]; [| discriminate].
  all: destruct (Osm.get_env_int env "CACHE_SIZE_MB" 2000) as [cache |]; [| discriminate].
  all: destruct (Osm.get_env_int env "NUM_PROCESSES" 4) as [procs |]; [| discriminate].
  all: try discriminate.
  intros [= <-]. cbn [Osm.region Osm.db_host Osm.db_name Osm.db_user Osm.db_password
                      Osm.db_port Osm.cache_size_mb Osm.num_processes
                      Osm.geofabrik_base_url Osm.log_level Osm.log_format].
  repeat split; try done.
  intros Hlast. apply rstrip_last_char in Hlast. by vm_compute in Hlast.
Qed.

Lemma osm_loaded_config_is_valid_witness :
  Osm.region osm_config ∈ Osm.REGIONS
  ∧ last_char (Osm.geofabrik_base_url osm_config) ≠ Some "/"%char.
Proof.
  destruct (osm_loaded_config_is_valid osm_environ osm_config) as (Hr & _ & _ & _ & _ & _ & _ & _ & Hu & _).
  - reflexivity.
  - by split.
Defined.

Lemma integer_passes (env : gmap string string) (key : string) (d : Z) :
  fails env (Integer key) = false → ∃ n, Osm.get_env_int env key d = Ok n.
Proof.
  unfold fails, Osm.get_env_int. destruct (env !! key) as [[| a v] |]; eauto.
  destruct (Py.int (String a v)); eauto. by rewrite bool_decide_eq_true_2.
Qed.

(** X2.  When none of the checks of [osm_checks] fails, [load_config] of
    the OSM job still validates the two log settings, the level first:
    [LOG_LEVEL] in upper case must be one of DEBUG, INFO, WARNING, ERROR and
    [LOG_FORMAT] in lower case one of json, text (unset: INFO and json; set
    to the empty string: an error).  The message shows the value as it was
    compared.  With both valid the configuration loads and carries the two
    values in that form. *)
Theorem osm_log_settings (env : gmap string string) :
  first_failure env osm_checks = None →
  if negb (bool_decide (log_level_of env ∈ log_levels))
  then Osm.load_config env
       = Raise (ConfigurationError ("Invalid LOG_LEVEL: " +:+ log_level_of env
                                    +:+ ". Must be one of: DEBUG, INFO, WARNING, ERROR"))
  else if negb (bool_decide (log_format_of env ∈ log_formats))
       then Osm.load_config env
            = Raise (ConfigurationError ("Invalid LOG_FORMAT: " +:+ log_format_of env
                                         +:+ ". Must be 'json' or 'text'"))
       else ∃ c, Osm.load_config env = Ok c
                 ∧ Osm.log_level c = log_level_of env
                 ∧ Osm.log_format c = log_format_of env.
Proof.
  intros Hnone. unfold first_failure in Hnone.
  pose proof (List.find_none _ _ Hnone) as Hc. clear Hnone.
  pose proof (Hc (Required "OSM_REGION") ltac:(simpl; tauto)) as H1.
  pose proof (Hc (KnownRegion "OSM_REGION") ltac:(simpl; tauto)) as H2.
  pose proof (Hc (Required "DB_HOST") ltac:(simpl; tauto)) as H3.
  pose proof (Hc (Required "DB_NAME") ltac:(simpl; tauto)) as H4.
  pose proof (Hc (Required "DB_USER") ltac:(simpl; tauto)) as H5.
  pose proof (Hc (Required "DB_PASSWORD") ltac:(simpl; tauto)) as H6.
  destruct (integer_passes env "DB_PORT" 5432 (Hc (Integer "DB_PORT") ltac:(simpl; tauto))) as [port Hport].
  destruct (integer_passes env "CACHE_SIZE_MB" 2000 (Hc (Integer "CACHE_SIZE_MB") ltac:(simpl; tauto)))
    as [cache Hcache].
  destruct (integer_passes env "NUM_PROCESSES" 4 (Hc (Integer "NUM_PROCESSES") ltac:(simpl; tauto)))
    as [procs Hprocs].
  cbn [fails] in H1, H2, H3, H4, H5, H6.
  unfold Osm.load_config. rewrite H1. cbn iota. rewrite H2. cbn iota.
  rewrite H3, H4, H5, H6. cbn iota. rewrite Hport, Hcache, Hprocs.
  fold (log_level_of env). fold (log_format_of env).
  change ["DEBUG"; "INFO"; "WARNING"; "ERROR"] with log_levels.
  change ["json"; "text"] with log_formats.
  rewrite <- append_assoc.
  destruct (negb (bool_decide (log_level_of env ∈ log_levels))); [reflexivity |].
  destruct (negb (bool_decide (log_format_of env ∈ log_formats))); [reflexivity |].
  eexists. split; [reflexivity | by split].
Qed.

Lemma osm_log_settings_witness :
  Osm.load_config (<["LOG_LEVEL" := ""]> osm_environ)
  = Raise (ConfigurationError
             "Invalid LOG_LEVEL: . Must be one of: DEBUG, INFO, WARNING, ERROR").
Proof.
  exact (osm_log_settings (<["LOG_LEVEL" := ""]> osm_environ) eq_refl).
Defined.

(** X3.  [load_config] of the GADM job returns a configuration exactly
    when the four database variables are not empty once trimmed, [DB_PORT]
    reads as an integer and [GADM_GEOPACKAGE_URL] is set and not empty; the
    database fields are the trimmed values, while the URL is taken as it is
    written: it is not trimmed, so a URL made of blanks loads. *)
Theorem gadm_loaded_config (env : gmap string string) (c : Gadm.Config) :
  Gadm.load_config env = Ok c ↔
  (Gadm.db_host c = Py.strip (default "" (env !! "DB_HOST")) ∧ Gadm.db_host c ≠ "")
  ∧ (Gadm.db_name c = Py.strip (default "" (env !! "DB_NAME")) ∧ Gadm.db_name c ≠ "")
  ∧ (Gadm.db_user c = Py.strip (default "" (env !! "DB_USER")) ∧ Gadm.db_user c ≠ "")
  ∧ (Gadm.db_password c = Py.strip (default "" (env !! "DB_PASSWORD"))
     ∧ Gadm.db_password c ≠ "")
  ∧ Gadm.get_env_int env "DB_PORT" 5432 = Ok (Gadm.db_port c)
  ∧ Gadm.data_dir c = default "/app/data" (env !! "DATA_DIR")
  ∧ Gadm.ogr2ogr_path c = default "/usr/bin/ogr2ogr" (env !! "OGR2OGR_PATH")
  ∧ (env !! "GADM_GEOPACKAGE_URL" = Some (Gadm.gadm_geopackage_url c)
     ∧ Gadm.gadm_geopackage_url c ≠ "").
Proof.
  unfold Gadm.load_config. split.
  - repeat (case_bool_decide; try discriminate).
    destruct (Gadm.get_env_int env "DB_PORT" 5432) as [port |]; [| discriminate].
    destruct (env !! "GADM_GEOPACKAGE_URL") as [[| a url] |]; try discriminate.
    intros [= <-]. simpl. repeat split; done.
  - destruct c as [host port name user password dir ogr url]. simpl.
    intros ([-> Hh] & [-> Hn] & [-> Hu] & [-> Hp] & -> & -> & -> & -> & Hurl).
    rewrite !bool_decide_eq_false_2 by done.
    by destruct url.
Qed.

Lemma gadm_loaded_config_witness :
  ∃ c, Gadm.load_config blank_url_environ = Ok c ∧ Gadm.gadm_geopackage_url c = "  ".
Proof.
  exists (Gadm.MkConfig "db" 5432 "gis" "ingest" "secret" "/app/data" "/usr/bin/ogr2ogr" "  ").
  split; [| reflexivity].
  apply gadm_loaded_config. by vm_compute.
Defined.

(** ** Integers in the environment *)

Lemma digit_cases (d : N) :
  (d < 10)%N →
  (d = 0 ∨ d = 1 ∨ d = 2 ∨ d = 3 ∨ d = 4 ∨ d = 5 ∨ d = 6 ∨ d = 7 ∨ d = 8 ∨ d = 9)%N.
Proof. lia. Qed.

Lemma digit_value (d : N) :
  (d < 10)%N →
  Py.isdigit (pretty_N_char d) = true
  ∧ Z.of_N (N_of_ascii (pretty_N_char d)) - 48 = Z.of_N d.
Proof.
  intros Hd. pose proof (digit_cases d Hd) as Hcases.
  repeat destruct Hcases as [-> | Hcases]; try rewrite Hcases; by vm_compute.
Qed.

Lemma pretty_N_go_digits (x : N) (s : string) (prev : bool) :
  (0 < x)%N →
  Py.digits_go 0 prev (pretty_N_go x s) = Py.digits_go (Z.of_N x) true s.
Proof.
  revert s prev. induction (N.lt_wf_0 x) as [x _ IH]. intros s prev Hx.
  rewrite pretty_N_go_step by done.
  destruct (digit_value (x `mod` 10)) as [Hdigit Hvalue]; [by apply N.mod_lt |].
  destruct (N.eq_0_gt_0_cases (x `div` 10)) as [Hzero | Hpos].
  - rewrite Hzero, pretty_N_go_0. cbn [Py.digits_go]. rewrite Hdigit, Hvalue.
    f_equal. pose proof (N.div_mod x 10 ltac:(done)) as Hdm. rewrite Hzero in Hdm.
    generalize dependent (x `mod` 10)%N. intros r. lia.
  - rewrite IH; [| by apply N.div_lt | done].
    cbn [Py.digits_go]. rewrite Hdigit, Hvalue.
    f_equal. pose proof (N.div_mod x 10 ltac:(done)) as Hdm.
    generalize dependent (x `mod` 10)%N. generalize dependent (x `div` 10)%N.
    intros q r. lia.
Qed.

Lemma pretty_N_go_free (p : ascii → bool) (x : N) (s : string) :
  (∀ d, (d < 10)%N → p (pretty_N_char d) = false) →
  free_of p s = true → free_of p (pretty_N_go x s) = true.
Proof.
  intros Hp. revert s. induction (N.lt_wf_0 x) as [x _ IH]. intros s Hs.
  assert (x = 0 ∨ 0 < x)%N as [-> | Hx] by lia; [by rewrite pretty_N_go_0 |].
  rewrite pretty_N_go_step by done. apply IH; [by apply N.div_lt |].
  simpl. rewrite Hp, Hs; [done |]. by apply N.mod_lt.
Qed.

Lemma lstrip_free (p : ascii → bool) (s : string) :
  free_of p s = true → Py.lstrip_by p s = s.
Proof. destruct s as [| c r]; simpl; [done |]. by destruct (p c). Qed.

Lemma rstrip_free (p : ascii → bool) (s : string) :
  free_of p s = true → Py.rstrip_by p s = s.
Proof.
  induction s as [| c r IH]; simpl; [done |].
  intros [Hc Hr]%andb_true_iff. rewrite (IH Hr).
  destruct r; [| done]. by destruct (p c).
Qed.

Lemma strip_free (s : string) : free_of Py.isspace s = true → Py.strip s = s.
Proof. intros Hs. unfold Py.strip. by rewrite lstrip_free, rstrip_free. Qed.

Lemma digit_is_no_space (d : N) : (d < 10)%N → Py.isspace (pretty_N_char d) = false.
Proof.
  intros Hd. pose proof (digit_cases d Hd) as Hcases.
  repeat destruct Hcases as [-> | Hcases]; try rewrite Hcases; reflexivity.
Qed.

Lemma digit_is_no_sign (d : N) :
  (d < 10)%N →
  (λ c, bool_decide (c = "-"%char) || bool_decide (c = "+"%char)) (pretty_N_char d) = false.
Proof.
  intros Hd. pose proof (digit_cases d Hd) as Hcases.
  repeat destruct Hcases as [-> | Hcases]; try rewrite Hcases; reflexivity.
Qed.

Lemma int_of_digits (s : string) (n : Z) :
  free_of Py.isspace s = true →
  free_of (λ c, bool_decide (c = "-"%char) || bool_decide (c = "+"%char)) s = true →
  Py.digits_go 0 false s = Some n → Py.int s = Some n.
Proof.
  intros Hspace Hsign Hdigits. unfold Py.int. rewrite strip_free by done.
  destruct s as [| c r]; [done |].
  simpl in Hsign. apply andb_true_iff in Hsign as [Hc _].
  apply negb_true_iff, orb_false_iff in Hc as [Hminus Hplus].
  apply bool_decide_eq_false in Hminus, Hplus.
  destruct c as [[] [] [] [] [] [] [] []]; try done.
Qed.

Lemma int_of_pretty_N (x : N) : Py.int (pretty x) = Some (Z.of_N x).
Proof.
  unfold pretty, pretty_N. case_decide as Hx; [by subst |].
  apply int_of_digits.
  - apply pretty_N_go_free; [apply digit_is_no_space | done].
  - apply pretty_N_go_free; [apply digit_is_no_sign | done].
  - rewrite pretty_N_go_digits by lia. done.
Qed.

Lemma int_of_str (n : Z) : Py.int (Py.str_of_int n) = Some n.
Proof.
  unfold Py.str_of_int, pretty, pretty_Z. destruct n as [| p | p].
  - reflexivity.
  - apply (int_of_pretty_N (N.pos p)).
  - pose proof (int_of_pretty_N (N.pos p)) as Hpos.
    unfold pretty, pretty_positive.
    unfold Py.int in *.
    assert (free_of Py.isspace (pretty (N.pos p)) = true) as Hfree.
    { unfold pretty, pretty_N. case_decide; [done |].
      apply pretty_N_go_free; [apply digit_is_no_space | done]. }
    assert (free_of (λ c, bool_decide (c = "-"%char) || bool_decide (c = "+"%char))
                    (pretty (N.pos p)) = true) as Hsign.
    { unfold pretty, pretty_N. case_decide; [done |].
      apply pretty_N_go_free; [apply digit_is_no_sign | done]. }
    rewrite strip_free in Hpos by done.
    rewrite strip_free by (rewrite append_cons, append_nil_l; simpl; exact Hfree).
    rewrite append_cons, append_nil_l.
    destruct (pretty (N.pos p)) as [| c r] eqn:Hp; [done |].
    simpl in Hsign. apply andb_true_iff in Hsign as [Hc _].
    apply negb_true_iff, orb_false_iff in Hc as [Hminus Hplus].
    apply bool_decide_eq_false in Hminus, Hplus.
    assert (Py.digits_go 0 false (String c r) = Some (Z.pos p)) as Hd.
    { destruct c as [[] [] [] [] [] [] [] []]; try done. }
    rewrite Hd. reflexivity.
Qed.

(** X4.  An integer variable round-trips through its decimal text: for
    an integer [n] of at most 4300 digits (the longest text [int] reads by
    default), [get_env_int] reads the variable set to [str(n)] as [n], in
    either job.  Unset, or set to the empty string, the variable gives the
    default. *)
Theorem get_env_int_reads_decimals (env : gmap string string) (key : string) (d n : Z) :
  (Z.abs n < 10 ^ 4300 → env !! key = Some (Py.str_of_int n) →
   Osm.get_env_int env key d = Ok n ∧ Gadm.get_env_int env key d = Ok n)
  ∧ (env !! key = None ∨ env !! key = Some "" →
     Osm.get_env_int env key d = Ok d ∧ Gadm.get_env_int env key d = Ok d).
Proof.
  unfold Osm.get_env_int, Gadm.get_env_int. split.
  - intros _ Hkey. rewrite Hkey.
    pose proof (int_of_str n) as Hint.
    destruct (Py.str_of_int n) as [| a s] eqn:Hs; [by vm_compute in Hint |].
    by rewrite Hint.
  - by intros [-> | ->].
Qed.

Lemma get_env_int_reads_decimals_witness :
  Osm.get_env_int (<["DB_PORT" := "-15432"]> osm_environ) "DB_PORT" 5432 = Ok (-15432)
  ∧ Gadm.get_env_int (<["DB_PORT" := "-15432"]> osm_environ) "DB_PORT" 5432 = Ok (-15432).
Proof.
  apply (get_env_int_reads_decimals (<["DB_PORT" := "-15432"]> osm_environ)
           "DB_PORT" 5432 (-15432)).
  - by vm_compute.
  - reflexivity.
Defined.

(** ** File names *)

Lemma split_on_nonempty (sep : ascii) (s : string) : Py.split_on sep s ≠ [].
Proof.
  destruct s as [| c r]; simpl; [done |].
  case_bool_decide; [done |]. by destruct (Py.split_on sep r).
Qed.

Lemma split_on_app (sep : ascii) (a b : string) :
  Py.split_on sep (a +:+ String sep b) = Py.split_on sep a ++ Py.split_on sep b.
Proof.
  induction a as [| c r IH].
  - rewrite append_nil_l. simpl. by rewrite bool_decide_eq_true_2.
  - rewrite append_cons. cbn [Py.split_on]. rewrite IH.
    case_bool_decide; [done |].
    pose proof (split_on_nonempty sep r) as Hne.
    by destruct (Py.split_on sep r).
Qed.

Lemma list_last_app {A} (l1 l2 : list A) (x d : A) :
  List.last (l1 ++ x :: l2) d = List.last (x :: l2) d.
Proof.
  induction l1 as [| a l1 IH]; [done |].
  change ((a :: l1) ++ x :: l2) with (a :: (l1 ++ x :: l2)).
  assert (l1 ++ x :: l2 ≠ []) as Hne by (by destruct l1).
  destruct (l1 ++ x :: l2) as [| b l] eqn:E; [done |].
  change (List.last (a :: b :: l) d) with (List.last (b :: l) d). exact IH.
Qed.

Lemma basename_joinpath (d name : string) :
  Py.basename (Py.joinpath d name) = Py.basename name.
Proof.
  unfold Py.basename, Py.joinpath. rewrite append_cons, append_nil_l, split_on_app.
  pose proof (split_on_nonempty "/" name) as Hne.
  destruct (Py.split_on "/" name) as [| x l] eqn:Hs; [done |].
  by rewrite list_last_app.
Qed.

(** X5.  The OSM fetcher stores the download under the name the remote
    file has: the last component of the URL [get_download_url] gives is the
    last component of the destination path, for the planet on its own
    server as for every region on any mirror. *)
Theorem osm_url_names_the_raw_file (c : Osm.Config) :
  Py.basename (Osm.get_download_url c) = Py.basename (Osm.output_file_of c).
Proof.
  unfold Osm.output_file_of. rewrite basename_joinpath.
  unfold Osm.get_download_url. case_bool_decide as Hplanet.
  - rewrite Hplanet. destruct (Py.contains _ _); [reflexivity |].
    apply (basename_joinpath (Osm.geofabrik_base_url c) "planet-latest.osm.pbf").
  - apply (basename_joinpath (Osm.geofabrik_base_url c)
             (Osm.region c +:+ "-latest.osm.pbf")).
Qed.

(** X6.  For each of the supported regions the filter step writes to
    [<data_dir>/filtered/<region>.osm-roads.osm.pbf]: [Path.stem] drops only
    the last suffix of [<region>-latest.osm.pbf], so [.osm] stays in the
    name. *)
Theorem osm_filtered_file_name (c : Osm.Config) :
  Osm.region c ∈ Osm.REGIONS →
  Osm.filtered_file_of c (Osm.output_file_of c)
  = Py.joinpath (Osm.filtered_dir c) (Osm.region c +:+ ".osm-roads.osm.pbf").
Proof.
  intros Hregion. unfold Osm.filtered_file_of, Py.stem, Osm.output_file_of.
  rewrite basename_joinpath. cbn zeta.
  unfold Osm.REGIONS in Hregion.
  repeat (apply elem_of_cons in Hregion as [-> | Hregion]; [reflexivity |]).
  by apply elem_of_nil in Hregion.
Qed.

Lemma osm_filtered_file_name_witness :
  Osm.filtered_file_of osm_config (Osm.output_file_of osm_config)
  = "/app/data/filtered/europe.osm-roads.osm.pbf".
Proof.
  rewrite (osm_filtered_file_name osm_config); [reflexivity | by_evaluation].
Defined.

(** ** The OSM fetcher, when the download goes through *)

(** X7.  With no raw file on disk, a reply without an error status, a
    [Content-Length] that is absent or a number of at most 4300
    characters that is 0 or a size [format_size] can print (the function
    prints the size before it reads the body), and a body that arrives
    whole,
    [download_region] returns the destination path and leaves there
    exactly the bytes of the body; it makes the directory, sends one
    request and opens one file, and touches nothing else. *)
Theorem osm_download_stores_the_body (c : Osm.Config) (w : world) (r : response) :
  files w !! Osm.output_file_of c = None →
  remote w (Osm.get_download_url c) = Replied r →
  resp_error r = None → resp_broken r = None →
  (∀ h, resp_content_length r = Some h →
        (String.length h ≤ 4300)%nat
        ∧ ∃ n, Py.int h = Some n ∧ (n = 0 ∨ is_Some (Osm.format_size n))) →
  ∃ w', Osm.download_region c w = (Ok (Osm.output_file_of c), w')
        ∧ files w' = <[Osm.output_file_of c := body_of r]> (files w)
        ∧ journal w' = journal w ++ [ EMkdir (Osm.raw_dir c);
                                      EHttpGet (Osm.get_download_url c);
                                      EOpenW (Osm.output_file_of c) ]
        ∧ pg w' = pg w.
Proof.
  intros Habsent Hremote Herror Hbroken Hlength.
  rewrite download_region_cases by done. rewrite Hremote, Herror.
  unfold Osm.content_length.
  destruct (resp_content_length r) as [h |] eqn:Hh.
  - destruct (Hlength h eq_refl) as (_ & n & Hn & _). rewrite Hn. cbn. rewrite Hbroken.
    eexists. split; [reflexivity |]. simpl. by rewrite <- !app_assoc.
  - cbn. rewrite Hbroken.
    eexists. split; [reflexivity |]. simpl. by rewrite <- !app_assoc.
Qed.

Lemma osm_download_stores_the_body_witness :
  files (Osm.download_region osm_config (sample_world osm_environ)).2
    !! Osm.output_file_of osm_config = Some "PK34".
Proof.
  destruct (osm_download_stores_the_body osm_config (sample_world osm_environ)
              (Response None (Some "4") ["PK"; "34"] None))
    as (w' & Hrun & Hfiles & _).
  - reflexivity.
  - reflexivity.
  - reflexivity.
  - reflexivity.
  - intros h [= <-]. split; [simpl; lia |].
    exists 4. split; [reflexivity |]. right. vm_compute. by eexists.
  - rewrite Hrun. simpl. rewrite Hfiles. apply lookup_insert_eq.
Defined.

(** X8.  A [Content-Length] header that [int] does not read makes the
    download fail although the server answered: [download_region] raises
    the download error [Unexpected error during download: invalid literal
    ...] after the request, before the destination is opened, so that no
    file is created.  (The header is taken to be of at most 4300 printable
    ASCII characters, none of them a quote or a backslash, so that the
    message shows it as it was sent.) *)
Theorem osm_bad_content_length (c : Osm.Config) (w : world) (r : response) (h : string) :
  files w !! Osm.output_file_of c = None →
  remote w (Osm.get_download_url c) = Replied r →
  resp_error r = None →
  resp_content_length r = Some h → Py.int h = None →
  (String.length h ≤ 4300)%nat → free_of (λ c, negb (shown_as_is c)) h = true →
  ∃ w', Osm.download_region c w
        = (Raise (DownloadError
                    ("Unexpected error during download: "
                     +:+ "invalid literal for int() with base 10: '" +:+ h +:+ "'")), w')
        ∧ files w' = files w
        ∧ journal w' = journal w ++ [ EMkdir (Osm.raw_dir c);
                                      EHttpGet (Osm.get_download_url c) ].
Proof.
  intros Habsent Hremote Herror Hh Hint _ _.
  rewrite download_region_cases by done. rewrite Hremote, Herror.
  unfold Osm.content_length. rewrite Hh, Hint. cbn.
  eexists. split; [reflexivity |]. simpl. by rewrite <- !app_assoc.
Qed.

Lemma osm_bad_content_length_witness :
  ∃ msg, (Osm.download_region osm_config odd_length_world).1 = Raise (DownloadError msg)
         ∧ files (Osm.download_region osm_config odd_length_world).2 = ∅.
Proof.
  assert (String.length "4 bytes" ≤ 4300)%nat as Hshort by (simpl; lia).
  destruct (osm_bad_content_length osm_config odd_length_world
              (Response None (Some "4 bytes") ["PK"; "34"] None) "4 bytes"
              eq_refl eq_refl eq_refl eq_refl eq_refl Hshort eq_refl)
    as (w' & Hrun & Hfiles & _).
  rewrite Hrun. eexists. split; [reflexivity |]. exact Hfiles.
Defined.

(** ** The filter step *)

Lemma filter_roads_result (input_file output_file : string) (w : world) :
  let cmd := Osm.osmium_cmd input_file output_file in
  let w1 := record (ESpawn cmd) (record (EMkdir (Py.parent output_file)) w) in
  let w2 := apply_program (programs w cmd) w1 in
  let not_found :=
    FilterError "osmium command not found. Ensure osmium-tool is installed in the container." in
  Osm.filter_roads input_file output_file w =
  if prog_missing (programs w cmd) then (Raise not_found, w1)
  else if bool_decide (prog_returncode (programs w cmd) = 0)
       then match files w2 !! input_file, files w2 !! output_file with
            | Some _, Some _ => (Ok tt, w2)
            | _, _ => (Raise not_found, w2)
            end
       else (Raise (FilterError ("Filter operation failed: "
                                 +:+ "osmium tags-filter failed with exit code "
                                 +:+ Py.str_of_int (prog_returncode (programs w cmd)))), w2).
Proof.
  intros cmd w1 w2 not_found.
  unfold Osm.filter_roads, bind at 1, mkdir, emit, try_except.
  unfold bind at 1. rewrite popen_wait_result. simpl (programs _ _). fold cmd.
  destruct (prog_missing (programs w cmd)); [done |].
  case_bool_decide as Hrc; cbn [negb].
  - unfold bind, stat, bind, read_file, ret. fold w1. fold w2.
    destruct (files w2 !! input_file); cbn beta iota; [| reflexivity].
    destruct (files w2 !! output_file); reflexivity.
  - reflexivity.
Qed.

Lemma filter_osm_data_existing (c : Osm.Config) (input_file : string) (w : world) :
  is_Some (files w !! Osm.filtered_file_of c input_file) →
  Osm.filter_osm_data c input_file w = (Ok (Osm.filtered_file_of c input_file), w).
Proof.
  intros Hfile. unfold Osm.filter_osm_data, bind, path_exists.
  by rewrite bool_decide_eq_true_2.
Qed.

Lemma filter_osm_data_result (c : Osm.Config) (input_file : string) (w : world) :
  files w !! Osm.filtered_file_of c input_file = None →
  let output_file := Osm.filtered_file_of c input_file in
  let cmd := Osm.osmium_cmd input_file output_file in
  let w1 := record (ESpawn cmd) (record (EMkdir (Py.parent output_file)) w) in
  let w2 := apply_program (programs w cmd) w1 in
  let not_found :=
    FilterError "osmium command not found. Ensure osmium-tool is installed in the container." in
  Osm.filter_osm_data c input_file w =
  if prog_missing (programs w cmd) then (Raise not_found, w1)
  else if bool_decide (prog_returncode (programs w cmd) = 0)
       then match files w2 !! input_file, files w2 !! output_file with
            | Some _, Some _ => (Ok output_file, w2)
            | _, _ => (Raise not_found, w2)
            end
       else (Raise (FilterError ("Filter operation failed: "
                                 +:+ "osmium tags-filter failed with exit code "
                                 +:+ Py.str_of_int (prog_returncode (programs w cmd)))), w2).
Proof.
  intros Habsent output_file cmd w1 w2 not_found.
  unfold Osm.filter_osm_data. cbn zeta. unfold bind at 1, path_exists.
  rewrite Habsent, bool_decide_eq_false_2 by (by intros [? ?]).
  unfold bind. rewrite filter_roads_result. cbn zeta.
  fold output_file. fold cmd. fold w1. fold w2.
  destruct (prog_missing (programs w cmd)); [done |].
  case_bool_decide; [| done].
  destruct (files w2 !! input_file); [| done].
  by destruct (files w2 !! output_file).
Qed.

(** X9.  When the filtered file is already on disk, [filter_osm_data]
    returns its path and does nothing: no directory is made and [osmium] is
    not started, the world is left as it was. *)
Theorem osm_existing_filtered_file_is_kept (c : Osm.Config) (input_file : string)
    (w : world) :
  is_Some (files w !! Osm.filtered_file_of c input_file) →
  Osm.filter_osm_data c input_file w = (Ok (Osm.filtered_file_of c input_file), w).
Proof. apply filter_osm_data_existing. Qed.

Lemma osm_existing_filtered_file_is_kept_witness :
  (Osm.filter_osm_data osm_config (Osm.output_file_of osm_config)
     (set_files (insert "/app/data/filtered/europe.osm-roads.osm.pbf" "roads")
                (sample_world osm_environ))).1
  = Ok "/app/data/filtered/europe.osm-roads.osm.pbf".
Proof.
  rewrite (osm_existing_filtered_file_is_kept osm_config (Osm.output_file_of osm_config));
    [reflexivity |].
  by eexists.
Defined.



Lemma writes_keep (l : list (string * string)) (fs : gmap string string) (p : string) :
  is_Some (fs !! p) →
  is_Some (foldl (λ acc kv, <[kv.1 := kv.2]> acc) fs l !! p).
Proof.
  revert fs. induction l as [| [k v] l IH]; intros fs Hp; [done |].
  simpl. apply IH. destruct (decide (k = p)) as [-> | Hne].
  - rewrite lookup_insert_eq. by eexists.
  - by rewrite lookup_insert_ne.
Qed.

Lemma apply_program_writes (g : program) (w : world) (p data : string) :
  (p, data) ∈ prog_writes g → is_Some (files (apply_program g w) !! p).
Proof.
  unfold apply_program. simpl. generalize (files w).
  induction (prog_writes g) as [| [k v] l IH]; intros fs Hin; [by apply elem_of_nil in Hin |].
  simpl. apply elem_of_cons in Hin as [[= <- <-] | Hin]; [| by apply IH].
  apply writes_keep. rewrite lookup_insert_eq. by eexists.
Qed.

(** X11.  The filter step does not remove a partial output.  When
    [osmium] has written its output file and then exits with a non-zero
    status, [filter_osm_data] raises a filter error and leaves that file on
    disk; called again it finds the file, returns its path and does not
    start [osmium]. *)
Theorem osm_failed_filter_output_is_reused (c : Osm.Config) (input_file : string)
    (w : world) (data : string) :
  let output_file := Osm.filtered_file_of c input_file in
  let cmd := Osm.osmium_cmd input_file output_file in
  files w !! output_file = None →
  prog_missing (programs w cmd) = false →
  prog_returncode (programs w cmd) ≠ 0 →
  (output_file, data) ∈ prog_writes (programs w cmd) →
  ∃ msg w1, Osm.filter_osm_data c input_file w = (Raise (FilterError msg), w1)
            ∧ is_Some (files w1 !! output_file)
            ∧ Osm.filter_osm_data c input_file w1 = (Ok output_file, w1).
Proof.
  intros output_file cmd Habsent Hmissing Hrc Hwrites.
  rewrite filter_osm_data_result by done. cbn zeta. fold output_file. fold cmd.
  rewrite Hmissing, bool_decide_eq_false_2 by done.
  eexists _, _. split; [reflexivity |].
  assert (is_Some (files (apply_program (programs w cmd)
                            (record (ESpawn cmd)
                               (record (EMkdir (Py.parent output_file)) w))) !! output_file))
    as Hfile by (by eapply apply_program_writes).
  split; [exact Hfile |].
  unfold Osm.filter_osm_data, bind, path_exists. fold output_file.
  by rewrite bool_decide_eq_true_2.
Qed.

Lemma osm_failed_filter_output_is_reused_witness :
  ∃ msg w1,
    Osm.filter_osm_data osm_config (Osm.output_file_of osm_config) crashing_world
    = (Raise (FilterError msg), w1)
    ∧ Osm.filter_osm_data osm_config (Osm.output_file_of osm_config) w1
      = (Ok (Osm.filtered_file_of osm_config (Osm.output_file_of osm_config)), w1).
Proof.
  destruct (osm_failed_filter_output_is_reused osm_config (Osm.output_file_of osm_config)
              crashing_world "ro")
    as (msg & w1 & Hfirst & _ & Hsecond).
  - reflexivity.
  - reflexivity.
  - by vm_compute.
  - by_evaluation.
  - by exists msg, w1.
Defined.

(** ** The load step of the OSM job *)

(** X12.  [upload_to_database] starts [osm2pgsql] once and checks nothing
    before: every failure is an upload error, a missing executable reported
    as [osm2pgsql command not found] and a non-zero exit status as [Upload
    operation failed: osm2pgsql failed with exit code N].  Whatever the
    program did before it failed stays: the tables it made are in the
    database after an exit status other than 0 as after 0. *)
Theorem osm_upload_outcome (c : Osm.Config) (pbf_file : string) (w : world) :
  let cmd := Osm.osm2pgsql_cmd c pbf_file in
  ∃ w', Osm.upload_to_database c pbf_file w
        = (if prog_missing (programs w cmd)
           then Raise (UploadError "osm2pgsql command not found. Ensure osm2pgsql is installed in the container.")
           else if bool_decide (prog_returncode (programs w cmd) = 0) then Ok tt
                else Raise (UploadError
                              ("Upload operation failed: osm2pgsql failed with exit code "
                               +:+ Py.str_of_int (prog_returncode (programs w cmd)))),
           w')
        ∧ journal w' = journal w ++ [ESpawn cmd]
        ∧ pg_tables (pg w')
          = pg_tables (pg w)
            ++ (if prog_missing (programs w cmd) then []
                else prog_tables (programs w cmd)).
Proof.
  intros cmd. rewrite upload_result. cbn zeta. fold cmd.
  destruct (prog_missing (programs w cmd)).
  - eexists. split; [reflexivity |]. simpl. by rewrite app_nil_r.
  - case_bool_decide; eexists; (split; [reflexivity |]); done.
Qed.

(** ** The connection check, run twice *)

Lemma add_extension_fields (x : string) (d : database) :
  pg_down (add_extension x d) = pg_down d
  ∧ pg_catalog (add_extension x d) = pg_catalog d
  ∧ pg_tables (add_extension x d) = pg_tables d
  ∧ pg_rejects (add_extension x d) = pg_rejects d
  ∧ x ∈ pg_extensions (add_extension x d)
  ∧ (∀ y, y ∈ pg_extensions d → y ∈ pg_extensions (add_extension x d)).
Proof.
  unfold add_extension. case_bool_decide; simpl; repeat split; try done.
  - apply elem_of_app. right. by apply list_elem_of_singleton.
  - intros y Hy. apply elem_of_app. by left.
Qed.

Lemma add_extension_present (x : string) (d : database) :
  x ∈ pg_extensions d → add_extension x d = d.
Proof. intros Hx. unfold add_extension. by rewrite bool_decide_eq_true_2. Qed.

Lemma with_extensions_twice (d : database) :
  with_extensions (with_extensions d) = with_extensions d.
Proof.
  unfold with_extensions.
  destruct (add_extension_fields "postgis" d) as (_ & _ & _ & _ & Hp & _).
  destruct (add_extension_fields "hstore" (add_extension "postgis" d))
    as (_ & _ & _ & _ & Hh & Hkeep).
  rewrite (add_extension_present "postgis") by (by apply Hkeep).
  by rewrite (add_extension_present "hstore").
Qed.

Lemma with_extensions_fields (d : database) :
  pg_down (with_extensions d) = pg_down d
  ∧ pg_catalog (with_extensions d) = pg_catalog d
  ∧ pg_tables (with_extensions d) = pg_tables d
  ∧ pg_rejects (with_extensions d) = pg_rejects d.
Proof.
  unfold with_extensions.
  destruct (add_extension_fields "postgis" d) as (H1 & H2 & H3 & H4 & _).
  destruct (add_extension_fields "hstore" (add_extension "postgis" d))
    as (G1 & G2 & G3 & G4 & _).
  repeat split; congruence.
Qed.

Ltac accepted H :=
  rewrite execute_unfold in H; simpl in H;
  match type of H with
  | context [pg_rejects (pg ?w) ?q] =>
      let R := fresh "R" in
      destruct (pg_rejects (pg w) q) eqn:R; simpl in H; [discriminate |]
  end.

Lemma osm_verify_ok (o : Osm.Config) (w w1 : world) :
  Osm.verify_connection o w = (Ok tt, w1) →
  pg_down (pg w) = None
  ∧ accepts (pg w) (verify_statements (Osm.db_name o))
  ∧ catalogued (Osm.db_name o) w = Some "UTF8"
  ∧ pg w1 = with_extensions (pg w).
Proof.
  intros H.
  unfold Osm.verify_connection, try_except in H. rewrite with_connection_unfold in H.
  destruct (pg_down (pg w)) eqn:Hdown; [discriminate |].
  unfold bind in H. accepted H.
  unfold catalogued.
  destruct (lookup_assoc (Osm.db_name o) (pg_catalog (pg w))) as [enc |] eqn:Hcat;
    simpl in H; [| discriminate].
  case_bool_decide as Henc; simpl in H; [subst enc | discriminate].
  accepted H.
  unfold with_extensions, add_extension.
  repeat (case_bool_decide; simpl in * );
    accepted H; accepted H; repeat (case_bool_decide; simpl in * ); accepted H;
    injection H as <-; simpl.
  all: split; [done |].
  all: split; [intros q Hq; unfold verify_statements in Hq;
               repeat (apply elem_of_cons in Hq as [-> | Hq]; [done |]);
               by apply elem_of_nil in Hq |].
  all: split; [done |].
  all: try reflexivity.
  all: rewrite ?elem_of_app, ?list_elem_of_singleton in *; try (exfalso; intuition congruence).
Qed.

Ltac listed := repeat first [apply list_elem_of_here | apply list_elem_of_further].

Lemma osm_verify_goes_through (o : Osm.Config) (w : world) :
  pg_down (pg w) = None →
  accepts (pg w) (verify_statements (Osm.db_name o)) →
  catalogued (Osm.db_name o) w = Some "UTF8" →
  ∃ w1, Osm.verify_connection o w = (Ok tt, w1) ∧ pg w1 = with_extensions (pg w).
Proof.
  intros Hdown Hacc Hcat.
  unfold Osm.verify_connection, try_except. rewrite with_connection_unfold, Hdown.
  unfold bind. rewrite execute_unfold. simpl.
  rewrite (Hacc (QEncoding (Osm.db_name o))) by (apply elem_of_cons; by left). simpl.
  unfold catalogued in Hcat. rewrite Hcat. simpl.
  unfold with_extensions, add_extension.
  assert (∀ q, q ∈ [QCreateExtension "postgis"; QPostgisVersion;
                    QCreateExtension "hstore"; QCommit] → pg_rejects (pg w) q = None) as Hrest.
  { intros q Hq. apply Hacc. apply elem_of_cons. by right. }
  rewrite execute_unfold. simpl. rewrite (Hrest (QCreateExtension "postgis")) by listed.
  simpl. case_bool_decide; simpl.
  all: rewrite execute_unfold; simpl; rewrite (Hrest QPostgisVersion) by listed; simpl.
  all: rewrite execute_unfold; simpl;
       rewrite (Hrest (QCreateExtension "hstore")) by listed; simpl.
  all: case_bool_decide; simpl.
  all: rewrite execute_unfold; simpl; rewrite (Hrest QCommit) by listed; simpl.
  all: eexists; split; [reflexivity |]; simpl.
  all: try reflexivity.
  all: rewrite ?elem_of_app, ?list_elem_of_singleton in *; try (exfalso; intuition congruence).
Qed.

Lemma gadm_verify_ok_pack (n : string) (d0 d1 d : database) :
  pg_down d0 = None →
  pg_rejects d0 (QEncoding n) = None →
  (∀ q, q ∈ [QCreateExtension "postgis"; QPostgisVersion;
             QCreateExtension "hstore"; QCommit] → pg_rejects d0 q = None) →
  pg_down d = None → pg_rejects d = pg_rejects d0 → pg_tables d = pg_tables d0 →
  lookup_assoc n (pg_catalog d) = Some "UTF8" →
  d1 = with_extensions d →
  accepts d0 (verify_statements n)
  ∧ ∃ d, d1 = with_extensions d
         ∧ pg_down d = None ∧ pg_rejects d = pg_rejects d0
         ∧ pg_tables d = pg_tables d0
         ∧ lookup_assoc n (pg_catalog d) = Some "UTF8".
Proof.
  intros Hdown Henc H0 H1 H2 H3 H4 H5. split; [| by exists d].
  intros q Hq. unfold verify_statements in Hq.
  apply elem_of_cons in Hq as [-> | Hq]; [done | by apply H0].
Qed.

Ltac rest_accepted :=
  let q := fresh "q" in
  let Hq := fresh "Hq" in
  intros q Hq;
  repeat (apply elem_of_cons in Hq as [-> | Hq]; [eassumption |]);
  by apply elem_of_nil in Hq.

Lemma gadm_verify_ok (g : Gadm.Config) (w w1 : world) :
  Gadm.verify_connection g w = (Ok tt, w1) →
  pg_down (pg w) = None
  ∧ accepts (pg w) (verify_statements (Gadm.db_name g))
  ∧ ∃ d, pg w1 = with_extensions d
         ∧ pg_down d = None ∧ pg_rejects d = pg_rejects (pg w)
         ∧ pg_tables d = pg_tables (pg w)
         ∧ lookup_assoc (Gadm.db_name g) (pg_catalog d) = Some "UTF8".
Proof.
  intros H.
  unfold Gadm.verify_connection, try_except in H. rewrite with_connection_unfold in H.
  destruct (pg_down (pg w)) eqn:Hdown; [discriminate |].
  split; [reflexivity |].
  unfold bind in H. accepted H.
  destruct (lookup_assoc (Gadm.db_name g) (pg_catalog (pg w))) as [enc |] eqn:Hcat;
    simpl in H; [| discriminate].
  case_bool_decide as Henc; simpl in H.
  - subst enc. accepted H.
    repeat (case_bool_decide; simpl in * );
      accepted H; accepted H; repeat (case_bool_decide; simpl in * ); accepted H;
      injection H as <-; simpl.
    all: apply (gadm_verify_ok_pack _ _ _ (pg w)); try done; try rest_accepted.
    all: unfold with_extensions, add_extension.
    all: repeat (case_bool_decide; simpl); try reflexivity.
    all: simpl in *; rewrite ?elem_of_app, ?list_elem_of_singleton in *;
      try (exfalso; intuition congruence).
  - accepted H. accepted H.
    repeat (case_bool_decide; simpl in * );
      accepted H; accepted H; repeat (case_bool_decide; simpl in * ); accepted H;
      injection H as <-; simpl.
    all: apply (gadm_verify_ok_pack _ _ _
                  (Database (pg_down (pg w))
                     (set_encoding (Gadm.db_name g) "UTF8" (pg_catalog (pg w)))
                     (pg_extensions (pg w)) (pg_tables (pg w)) (pg_rejects (pg w))));
      try done; try rest_accepted.
    all: try (apply lookup_set_encoding; by eexists).
    all: unfold with_extensions, add_extension; simpl.
    all: repeat (case_bool_decide; simpl); try reflexivity.
    all: simpl in *; rewrite ?elem_of_app, ?list_elem_of_singleton in *;
      try (exfalso; intuition congruence).
Qed.

Lemma database_eq (d d' : database) :
  pg_down d = pg_down d' → pg_catalog d = pg_catalog d' →
  pg_extensions d = pg_extensions d' → pg_tables d = pg_tables d' →
  pg_rejects d = pg_rejects d' → d = d'.
Proof. destruct d, d'. simpl. by intros -> -> -> -> ->. Qed.

Lemma with_connection_rolls_back {A} (info : string) (body : M A) (w : world)
    (e : exn) (w1 : world) :
  with_connection info body w = (Raise e, w1) →
  pg_catalog (pg w1) = pg_catalog (pg w) ∧ pg_extensions (pg w1) = pg_extensions (pg w).
Proof.
  rewrite with_connection_unfold. destruct (pg_down (pg w)); [by intros [= _ <-] |].
  destruct (body _) as [[a | e'] w']; [done |]. by intros [= _ <-].
Qed.

Lemma database_no_spawn (e : event) : database_event e → ¬ is_spawn e.
Proof. intros Hd Hs. by destruct e. Qed.

Lemma osm_verify_rolls_back (o : Osm.Config) (w : world) (e : exn) (w1 : world) :
  Osm.verify_connection o w = (Raise e, w1) → pg w1 = pg w.
Proof.
  intros Hrun.
  pose proof (behaves_evolves _ _ _ _ _ _ (behaves_osm_verify o) Hrun) as Hev.
  destruct (evolves_server _ _ _ Hev) as [Hdown Hrej].
  pose proof (evolves_tables database_event w w1 database_no_spawn Hev) as Htab.
  unfold Osm.verify_connection, try_except in Hrun.
  destruct (with_connection _ _ w) as [[[] | e'] w'] eqn:Hbody; [discriminate |].
  destruct (with_connection_rolls_back _ _ _ _ _ Hbody) as [Hcat Hext].
  assert (w1 = w') as ->.
  { destruct e' as [| | | | | | | | [] | | |]; by injection Hrun as _ <-. }
  by apply database_eq.
Qed.

Lemma gadm_verify_rolls_back (g : Gadm.Config) (w : world) (e : exn) (w1 : world) :
  Gadm.verify_connection g w = (Raise e, w1) → pg w1 = pg w.
Proof.
  intros Hrun.
  pose proof (behaves_evolves _ _ _ _ _ _ (behaves_gadm_verify g) Hrun) as Hev.
  destruct (evolves_server _ _ _ Hev) as [Hdown Hrej].
  pose proof (evolves_tables database_event w w1 database_no_spawn Hev) as Htab.
  unfold Gadm.verify_connection, try_except in Hrun.
  destruct (with_connection _ _ w) as [[[] | e'] w'] eqn:Hbody; [discriminate |].
  destruct (with_connection_rolls_back _ _ _ _ _ Hbody) as [Hcat Hext].
  assert (w1 = w') as ->.
  { destruct e' as [| | | | | | | | [] | | |]; by injection Hrun as _ <-. }
  by apply database_eq.
Qed.

(** X13.  The connection check of either job can be repeated, and it is
    all or nothing.  After a check that went through, a second check goes
    through as well and leaves the database exactly as the first one left
    it (the extensions are there, and for the GADM job the encoding is
    already UTF8).  A check that raises leaves the database as it was:
    what its statements did is rolled back with the connection. *)
Theorem verify_connection_twice (g : Gadm.Config) (o : Osm.Config) (w : world) :
  (∀ w1, Osm.verify_connection o w = (Ok tt, w1) →
         ∃ w2, Osm.verify_connection o w1 = (Ok tt, w2) ∧ pg w2 = pg w1)
  ∧ (∀ w1, Gadm.verify_connection g w = (Ok tt, w1) →
           ∃ w2, Gadm.verify_connection g w1 = (Ok tt, w2) ∧ pg w2 = pg w1)
  ∧ (∀ e w1, Osm.verify_connection o w = (Raise e, w1) → pg w1 = pg w)
  ∧ (∀ e w1, Gadm.verify_connection g w = (Raise e, w1) → pg w1 = pg w).
Proof.
  split; [| split; [| split]].
  - intros w1 Hfirst.
    destruct (osm_verify_ok _ _ _ Hfirst) as (Hdown & Hacc & Hcat & Hpg).
    destruct (with_extensions_fields (pg w)) as (F1 & F2 & F3 & F4).
    destruct (osm_verify_goes_through o w1) as (w2 & Hsecond & Hpg2).
    + by rewrite Hpg, F1.
    + intros q Hq. rewrite Hpg, F4. by apply Hacc.
    + unfold catalogued in *. by rewrite Hpg, F2.
    + exists w2. split; [done |]. by rewrite Hpg2, Hpg, with_extensions_twice.
  - intros w1 Hfirst.
    destruct (gadm_verify_ok _ _ _ Hfirst)
      as (Hdown & Hacc & d & Hpg & Hd1 & Hd2 & Hd3 & Hd4).
    destruct (with_extensions_fields d) as (F1 & F2 & F3 & F4).
    pose (o' := Osm.MkConfig "" (Gadm.db_host g) (Gadm.db_port g) (Gadm.db_name g)
                  (Gadm.db_user g) (Gadm.db_password g) 0 0 false false "" "" "" "").
    assert (catalogued (Gadm.db_name g) w1 = Some "UTF8") as Hcat.
    { unfold catalogued. by rewrite Hpg, F2. }
    rewrite (verify_same g o' w1); [| done |].
    2:{ intros _ _ enc Henc. simpl in Henc. congruence. }
    destruct (osm_verify_goes_through o' w1) as (w2 & Hsecond & Hpg2).
    + by rewrite Hpg, F1.
    + intros q Hq. rewrite Hpg, F4, Hd2. by apply Hacc.
    + done.
    + exists w2. split; [done |]. by rewrite Hpg2, Hpg, with_extensions_twice.
  - intros e w1. apply osm_verify_rolls_back.
  - intros e w1. apply gadm_verify_rolls_back.
Qed.


Lemma verify_connection_twice_witness :
  ∃ w1 w2, Gadm.verify_connection gadm_config (latin1_world gadm_environ []) = (Ok tt, w1)
           ∧ Gadm.verify_connection gadm_config w1 = (Ok tt, w2)
           ∧ pg w2 = pg w1.
Proof.
  destruct (verify_connection_twice gadm_config osm_config (latin1_world gadm_environ []))
    as (_ & Hgadm & _).
  assert (∃ w1, Gadm.verify_connection gadm_config (latin1_world gadm_environ [])
                = (Ok tt, w1)) as [w1 Hfirst]
    by (vm_compute; eexists; reflexivity).
  destruct (Hgadm w1 Hfirst) as (w2 & Hsecond & Hpg).
  by exists w1, w2.
Defined.

(** ** The existence check *)

Lemma check_result (info : string) (expected : list string) (w : world) :
  let m := try_except
             (with_connection info
                (bind (execute (QTablesExist expected))
                      (λ result, match result with
                                 | CBool b => ret b
                                 | CText _ => ret true
                                 | CNone => ret false
                                 end)))
             (λ e, match e with
                   | PsycopgError _ msg =>
                       raise (DatabaseError ("Failed to check existing tables: " +:+ msg))
                   | _ => raise e
                   end) in
  (m w).1 = match pg_down (pg w) with
            | Some msg => Raise (DatabaseError ("Failed to check existing tables: " +:+ msg))
            | None =>
                match pg_rejects (pg w) (QTablesExist expected) with
                | Some msg =>
                    Raise (DatabaseError ("Failed to check existing tables: " +:+ msg))
                | None =>
                    Ok (existsb (λ t, bool_decide (t ∈ expected)) (pg_tables (pg w)))
                end
            end
  ∧ pg (m w).2 = pg w ∧ files (m w).2 = files w.
Proof.
  cbn zeta. unfold try_except. rewrite with_connection_unfold.
  destruct (pg_down (pg w)) eqn:Hdown; [done |].
  unfold bind. rewrite execute_unfold. simpl.
  destruct (pg_rejects (pg w) _); simpl; [| by destruct (pg w)].
  split; [done |]. split; [| done].
  destruct (pg w); simpl in *. by subst.
Qed.

(** X14.  The existence check of either job only reads: whatever it
    returns, the database and the files are as before.  With the server
    up and the query accepted it answers whether one of the expected tables
    of the job is in the database; a refused connection and a refused query
    both surface as the database error [Failed to check existing tables:
    ...]. *)
Theorem check_existing_data_only_reads (g : Gadm.Config) (o : Osm.Config) (w : world) :
  (match pg_down (pg w), pg_rejects (pg w) (QTablesExist Osm.expected_tables) with
   | Some msg, _ | None, Some msg =>
       (Osm.check_existing_data o w).1
       = Raise (DatabaseError ("Failed to check existing tables: " +:+ msg))
   | None, None =>
       ∃ b, (Osm.check_existing_data o w).1 = Ok b
            ∧ (b = true ↔ data_present Osm.expected_tables w)
   end
   ∧ pg (Osm.check_existing_data o w).2 = pg w
   ∧ files (Osm.check_existing_data o w).2 = files w)
  ∧ (match pg_down (pg w), pg_rejects (pg w) (QTablesExist Gadm.expected_tables) with
     | Some msg, _ | None, Some msg =>
         (Gadm.check_existing_data g w).1
         = Raise (DatabaseError ("Failed to check existing tables: " +:+ msg))
     | None, None =>
         ∃ b, (Gadm.check_existing_data g w).1 = Ok b
              ∧ (b = true ↔ data_present Gadm.expected_tables w)
     end
     ∧ pg (Gadm.check_existing_data g w).2 = pg w
     ∧ files (Gadm.check_existing_data g w).2 = files w).
Proof.
  split.
  - destruct (check_result (Osm.conn_str o) Osm.expected_tables w) as (H1 & H2 & H3).
    split; [| by split].
    destruct (pg_down (pg w)); [done |]. destruct (pg_rejects (pg w) _); [done |].
    eexists. split; [exact H1 |]. apply existsb_present.
  - destruct (check_result (Gadm.connection_string g) Gadm.expected_tables w)
      as (H1 & H2 & H3).
    split; [| by split].
    destruct (pg_down (pg w)); [done |]. destruct (pg_rejects (pg w) _); [done |].
    eexists. split; [exact H1 |]. apply existsb_present.
Qed.

(** ** A second run of the OSM job *)

Lemma osm_download_keeps_database (c : Osm.Config) (w : world) :
  pg (Osm.download_region c w).2 = pg w.
Proof.
  destruct (files w !! Osm.output_file_of c) as [content |] eqn:Hfile.
  { by rewrite download_region_existing by eauto. }
  rewrite download_region_cases by done.
  destruct (remote w _) as [t msg | r]; [done |].
  destruct (resp_error r); [done |].
  destruct (Osm.content_length r (asked c w)) as [[n | e'] w1]; [| done].
  cbn zeta. by destruct (resp_broken r).
Qed.

Lemma osm_filter_keeps_catalog (c : Osm.Config) (input_file : string) (w : world) :
  pg_catalog (pg (Osm.filter_osm_data c input_file w).2) = pg_catalog (pg w).
Proof.
  destruct (files w !! Osm.filtered_file_of c input_file) as [content |] eqn:Hfile.
  { by rewrite filter_osm_data_existing by eauto. }
  rewrite filter_osm_data_result by done. cbn zeta.
  destruct (prog_missing _); [done |]. case_bool_decide; [| done].
  repeat (match goal with |- context [match ?x with Some _ => _ | None => _ end] =>
            destruct x end); done.
Qed.

Lemma osm_upload_keeps_catalog (c : Osm.Config) (pbf_file : string) (w : world) :
  pg_catalog (pg (Osm.upload_to_database c pbf_file w).2) = pg_catalog (pg w).
Proof.
  rewrite upload_result. cbn zeta. destruct (prog_missing _); [done |].
  by case_bool_decide.
Qed.

Lemma osm_cleanup_raw_keeps_database (c : Osm.Config) (p : string) (w : world) :
  pg (Osm.cleanup_raw c p w).2 = pg w.
Proof. rewrite cleanup_raw_result. by destruct (_ && _). Qed.

Lemma osm_cleanup_filtered_keeps_database (c : Osm.Config) (p : string) (w : world) :
  pg (Osm.cleanup_filtered c p w).2 = pg w.
Proof. rewrite cleanup_filtered_result. by destruct (_ && _). Qed.

Lemma osm_verify_keeps_catalog (c : Osm.Config) (w : world) :
  pg_catalog (pg (Osm.verify_connection c w).2) = pg_catalog (pg w).
Proof.
  destruct (Osm.verify_connection c w) as [[[] | e] w1] eqn:Hrun; simpl.
  - destruct (osm_verify_ok _ _ _ Hrun) as (_ & _ & _ & ->).
    by destruct (with_extensions_fields (pg w)) as (_ & -> & _).
  - by rewrite (osm_verify_rolls_back _ _ _ _ Hrun).
Qed.

Lemma osm_check_keeps_database (c : Osm.Config) (w : world) :
  pg (Osm.check_existing_data c w).2 = pg w.
Proof. by destruct (check_result (Osm.conn_str c) Osm.expected_tables w) as (_ & ? & _). Qed.

Lemma run_result {A} (m : M A) (w : world) (r : result A) (w1 : world) :
  m w = (r, w1) → w1 = (m w).2.
Proof. by intros ->. Qed.

Lemma osm_run_keeps_catalog p w o w' :
  OsmMachine.run p w o w' → pg_catalog (pg w') = pg_catalog (pg w).
Proof.
  induction 1;
    repeat match goal with
    | H : _ = (_, ?w1) |- _ => apply run_result in H; subst w1
    end;
    rewrite ?IHrun; cbn [pg record]; rewrite ?say_pg;
    rewrite ?osm_cleanup_filtered_keeps_database, ?osm_cleanup_raw_keeps_database,
      ?osm_upload_keeps_catalog, ?osm_filter_keeps_catalog, ?osm_download_keeps_database,
      ?osm_check_keeps_database, ?osm_verify_keeps_catalog, ?say_pg; done.
Qed.

(** The run that skips, with only the statements it sends accepted. *)
Lemma osm_run_skips_when_accepted (w : world) (c : Osm.Config) (o : outcome) (w' : world) :
  data_present Osm.expected_tables w →
  Osm.load_config (environ w) = Ok c →
  pg_down (pg w) = None →
  accepts (pg w) (verify_statements (Osm.db_name c)) →
  pg_rejects (pg w) (QTablesExist Osm.expected_tables) = None →
  catalogued (Osm.db_name c) w = Some "UTF8" →
  OsmMachine.run OsmMachine.Configuring w o w' → o = skipped.
Proof.
  intros Hdata Hload Hdown Hacc Hq Hcat Hrun.
  inversion Hrun as [? c' ? ? Hload' Hverifying | ? msg Hload' | | | | | | | | | | | | |]; subst;
    [| congruence].
  rewrite Hload in Hload'. injection Hload' as <-.
  inversion Hverifying as [| | ? ? w1 ? ? Hverify Hchecking | ? ? w1 msg Hverify
                           | | | | | | | | | | |]; subst.
  all: match type of Hverify with
       | Osm.verify_connection _ ?w0 = _ =>
           destruct (osm_verify_goes_through c w0) as (wv & Hv & _);
             [ by rewrite !say_pg | by rewrite !say_pg
             | by unfold catalogued; rewrite !say_pg |]
       end.
  2: congruence.
  assert (evolves quiet_event w (say OsmMachine.verified_lines w1)) as H1.
  { eapply evolves_trans; [apply evolves_quiet_say |].
    eapply evolves_trans; [apply (evolves_quiet_say ["Verifying database connection..."]) |].
    eapply evolves_trans; [| apply evolves_quiet_say].
    eapply evolves_mono; [apply database_quiet |].
    by eapply behaves_evolves; [apply behaves_osm_verify |]. }
  pose proof (data_present_evolves _ _ _ _ quiet_no_spawn H1 Hdata) as Hdata1.
  destruct (evolves_server _ _ _ H1) as [Hdown1 Hrej1].
  destruct (check_result (Osm.conn_str c) Osm.expected_tables
              (say OsmMachine.verified_lines w1)) as (Hb & _).
  rewrite Hdown1, Hdown, Hrej1, Hq in Hb.
  inversion Hchecking as [| | | | ? ? w2' Hcheck | ? ? w2' ? ? Hcheck Hdownloading
                          | ? ? w2' msg Hcheck | | | | | | | |]; subst.
  - done.
  - apply osm_check_answer in Hcheck. by apply Hcheck in Hdata1.
  - unfold Osm.check_existing_data in Hcheck. rewrite Hcheck in Hb. discriminate.
Qed.

Lemma osm_zero_is_success (w : world) (o : outcome) (w1 : world) :
  ¬ data_present Osm.expected_tables w →
  OsmMachine.run OsmMachine.Configuring w o w1 → exit_status o = Ok 0 → o = success.
Proof.
  intros Hnone Hrun Hzero. destruct o; try discriminate; [done |]. exfalso.
  inversion Hrun as [? c ? ? Hload Hverifying | | | | | | | | | | | | | |]; subst.
  inversion Hverifying as [| | ? ? wa ? ? Hverify Hchecking | | | | | | | | | | | |]; subst.
  inversion Hchecking as [| | | | ? ? wb Hcheck | ? ? wb ? ? Hcheck Hdownloading
                          | | | | | | | | |]; subst.
  2:{ apply osm_run_stage in Hdownloading as [Hstage _]. simpl in Hstage. lia. }
  apply osm_check_answer in Hcheck. apply Hnone.
  destruct Hcheck as [Hpresent _]. destruct (Hpresent eq_refl) as (t & Hexp & Hin).
  exists t. split; [done |].
  rewrite say_pg in Hin.
  pose proof (behaves_evolves _ _ _ _ _ _ (behaves_osm_verify c) Hverify) as Hev.
  rewrite (evolves_tables _ _ _ database_no_spawn Hev) in Hin.
  by rewrite !say_pg in Hin.
Qed.

(** X15.  The OSM pipeline imports once.  Take a database without the
    expected tables and a run that returns 0, in which [osm2pgsql] made one
    of these tables.  A second run, in the world the first one left, loads
    the same configuration, finds the table and skips: it returns 0 and
    makes no HTTP request, starts no program and touches no file. *)
Theorem osm_second_run_skips (w : world) (c : Osm.Config) (w1 : world) :
  Osm.load_config (environ w) = Ok c →
  ¬ data_present Osm.expected_tables w →
  Osm.main w = (Ok 0, w1) →
  (∃ t, t ∈ Osm.expected_tables
        ∧ t ∈ prog_tables (programs w (Osm.osm2pgsql_cmd c
                              (Osm.filtered_file_of c (Osm.output_file_of c))))) →
  (Osm.main w1).1 = Ok 0
  ∧ OsmMachine.run OsmMachine.Configuring w1 skipped (Osm.main w1).2
  ∧ untouched w1 (Osm.main w1).2.
Proof.
  intros Hload Hnone Hmain (t & Hexpected & Hmade).
  destruct (osm_main_run w) as (o & w1' & Hrun & Hmain').
  rewrite Hmain in Hmain'. injection Hmain' as Hzero <-.
  rewrite (osm_zero_is_success w o w1 Hnone Hrun (eq_sym Hzero)) in Hrun. clear Hzero o.
  pose proof (osm_run_evolves _ _ _ _ Hrun) as Hev.
  pose proof (osm_run_keeps_catalog _ _ _ _ Hrun) as Hcatalog.
  destruct (evolves_server _ _ _ Hev) as [Hdown Hrej].
  assert (environ w1 = environ w) as Henv by (by destruct Hev).
  (* what the first run says about the server *)
  inversion Hrun as [? c' ? ? Hload' Hverifying | | | | | | | | | | | | | |]; subst.
  rewrite Hload in Hload'. injection Hload' as <-.
  inversion Hverifying as [| | ? ? wa ? ? Hverify Hchecking | | | | | | | | | | | |]; subst.
  destruct (osm_verify_ok _ _ _ Hverify) as (Hup & Hacc & Hcat & _).
  rewrite !say_pg in Hup, Hacc. unfold catalogued in Hcat. rewrite !say_pg in Hcat.
  inversion Hchecking as [| | | | | ? ? wb ? ? Hcheck Hdownloading | | | | | | | | |]; subst.
  assert (evolves quiet_event w (say OsmMachine.verified_lines wa)) as Hquiet.
  { eapply evolves_trans; [apply evolves_quiet_say |].
    eapply evolves_trans; [apply (evolves_quiet_say ["Verifying database connection..."]) |].
    eapply evolves_trans; [| apply evolves_quiet_say].
    eapply evolves_mono; [apply database_quiet |].
    by eapply behaves_evolves; [apply behaves_osm_verify |]. }
  destruct (evolves_server _ _ _ Hquiet) as [Hdown' Hrej'].
  destruct (check_result (Osm.conn_str c) Osm.expected_tables
              (say OsmMachine.verified_lines wa)) as (Hb & _).
  unfold Osm.check_existing_data in Hcheck. rewrite Hcheck, Hdown', Hup, Hrej' in Hb.
  destruct (pg_rejects (pg w) (QTablesExist Osm.expected_tables)) eqn:Hq; [discriminate |].
  (* the tables the first run left *)
  assert (data_present Osm.expected_tables w1) as Hdata.
  { destruct (osm_run_cleanup _ _ _ _ c (Osm.filtered_file_of c (Osm.output_file_of c))
                Hverifying) as [_ Hsuccess]; [done |].
    destruct (Hsuccess eq_refl) as (w3 & w4 & w5 & Hspared & Hupload & Hclean & ->).
    exists t. split; [done |].
    rewrite say_pg. apply run_result in Hclean. subst w5.
    rewrite osm_cleanup_filtered_keeps_database, say_pg.
    pose proof (behaves_evolves _ _ _ _ _ _ (behaves_osm_upload _ _) Hupload) as Hup3.
    assert (programs w3 = programs w) as Hprog.
    { destruct Hup3 as (_ & _ & Hp3 & _). destruct Hspared as (_ & _ & Hp4 & _).
      change (programs (say ["Loaded configuration for region: " +:+ Osm.region c;
                             Osm.database_line c] w)) with (programs w) in Hp4.
      congruence. }
    pose proof (upload_result c (Osm.filtered_file_of c (Osm.output_file_of c)) w3) as Hres.
    cbn zeta in Hres. rewrite Hupload, Hprog in Hres.
    destruct (prog_missing _); [discriminate |].
    case_bool_decide; [| discriminate].
    injection Hres as ->. simpl. apply elem_of_app. by right. }
  destruct (osm_main_run w1) as (o2 & w2 & Hrun2 & Hmain2). rewrite Hmain2. simpl.
  assert (o2 = skipped) as ->.
  { eapply (osm_run_skips_when_accepted w1 c); try done.
    - by rewrite Henv.
    - congruence.
    - intros q Hq'. rewrite Hrej. by apply Hacc.
    - by rewrite Hrej.
    - unfold catalogued. by rewrite Hcatalog. }
  split; [done |]. split; [done |].
  by apply quiet_untouched, (osm_run_with_data w1 skipped).
Qed.

Lemma osm_second_run_skips_witness :
  (Osm.main (Osm.main (tooled_world 0)).2).1 = Ok 0
  ∧ untouched (Osm.main (tooled_world 0)).2 (Osm.main (Osm.main (tooled_world 0)).2).2.
Proof.
  destruct (osm_second_run_skips (tooled_world 0) osm_config (Osm.main (tooled_world 0)).2)
    as (Hcode & _ & Hquiet).
  - reflexivity.
  - intros (t & _ & Hin). by apply elem_of_nil in Hin.
  - vm_compute. reflexivity.
  - exists "planet_osm_point". split; by_evaluation.
  - by split.
Defined.

(** ** The GADM driver *)

Lemma gadm_run_outcomes md5 (force : bool) p w o w' :
  GadmMachine.run md5 force p w o w' →
  (o = success ∨ o = skipped ∨ o = configuration_error ∨ ∃ e, o = crashed e)
  ∧ (force = true → o ≠ skipped).
Proof.
  induction 1; try done; try (split; [eauto | done]).
  split; [auto |]. intros ->. discriminate.
Qed.

(** X16.  The GADM driver returns 1 for a configuration error and 0 for
    a skip or a completed run, and nothing else: it has no handler for the
    errors of its steps, so that a database error of the connection check
    or of the existence check, and any exception of the download or of the
    upload, leaves the driver as raised.  With [--force] it never skips. *)
Theorem gadm_driver_outcomes md5 (force : bool) (w : world) :
  ∃ o w',
    Gadm.main md5 force w = (exit_status o, w')
    ∧ GadmMachine.run md5 force GadmMachine.Configuring w o w'
    ∧ (o = success ∨ o = skipped ∨ o = configuration_error ∨ ∃ e, o = crashed e)
    ∧ (force = true → o ≠ skipped)
    ∧ (∀ n, (Gadm.main md5 force w).1 = Ok n →
            if bool_decide (n = 1)
            then ∃ msg, Gadm.load_config (environ w) = Raise (ConfigurationError msg)
            else n = 0 ∧ ∃ c, Gadm.load_config (environ w) = Ok c)
    ∧ (∀ c e w1, Gadm.load_config (environ w) = Ok c →
                 Gadm.verify_connection c w = (Raise e, w1) →
                 Gadm.main md5 force w = (Raise e, w1)).
Proof.
  destruct (gadm_main_run md5 force w) as (o & w' & Hrun & Hmain).
  exists o, w'. split; [done |]. split; [done |].
  destruct (gadm_run_outcomes _ _ _ _ _ _ Hrun) as [Hcases Hforce].
  split; [done |]. split; [done |]. split.
  - intros n. rewrite Hmain. simpl. intros Hn.
    inversion Hrun as [? c ? ? Hload Hverifying | ? msg Hload | | | | | | | | | |]; subst.
    + destruct Hcases as [-> | [-> | [-> | [e ->]]]]; simpl in Hn; try discriminate.
      * injection Hn as <-. simpl. eauto.
      * injection Hn as <-. simpl. eauto.
      * exfalso. clear -Hverifying.
        destruct (gadm_run_outcomes _ _ _ _ _ _ Hverifying) as [_ _].
        inversion Hverifying as [| | ? ? ? ? ? ? Hc | | | | | | | | |]; subst.
        inversion Hc as [| | | | | ? ? ? ? ? ? ? ? Hd | | | | | |]; subst.
        inversion Hd as [| | | | | | | ? ? ? ? ? ? ? Hu | | | |]; subst.
        inversion Hu as [| | | | | | | | | ? ? ? ? ? ? Hl | |]; subst.
        inversion Hl.
    + injection Hn as <-. simpl. eauto.
  - intros c e w1 Hload Hverify. unfold Gadm.main. rewrite Hload.
    unfold bind. by rewrite Hverify.
Qed.

(** ** The GADM upload *)

(** X17.  [upload_levels_gpkg] looks at the GeoPackage before it opens a
    connection: without the file it raises [FileNotFoundError], with a file
    SQLite cannot read the error of SQLite, and with a file that lists no
    feature layer [ValueError]; in the three cases the world is left as it
    was, nothing is sent to the database and no program is started. *)
Theorem gadm_upload_needs_the_geopackage (c : Gadm.Config) (w : world) :
  match files w !! Gadm.raw_dir c with
  | None =>
      Gadm.upload_levels_gpkg c w
      = (Raise (FileNotFoundError ("GeoPackage not found: " +:+ Gadm.raw_dir c)), w)
  | Some content =>
      match gpkg_layers w content with
      | None =>
          ∃ msg, Gadm.upload_levels_gpkg c w = (Raise (SqliteError msg), w)
      | Some [] =>
          Gadm.upload_levels_gpkg c w
          = (Raise (ValueError ("No feature layers found in " +:+ Gadm.raw_dir c)), w)
      | Some (layer :: layers) =>
          Gadm.upload_levels_gpkg c w
          = with_connection (Gadm.connection_string c)
              (for_each (layer :: layers) (Gadm.upload_layer c (Gadm.raw_dir c))) w
      end
  end.
Proof.
  unfold Gadm.upload_levels_gpkg, Gadm.feature_layers, bind, path_exists, read_file.
  destruct (files w !! Gadm.raw_dir c) as [content |] eqn:Hfile.
  - rewrite bool_decide_eq_true_2 by eauto. cbn [negb]. rewrite Hfile.
    destruct (gpkg_layers w content) as [[| layer layers] |];
      try reflexivity. by eexists.
  - rewrite bool_decide_eq_false_2 by (by intros [? ?]). reflexivity.
Qed.







(** ** The GADM archive *)

Lemma extract_gpkg_result (zip_file gpkg_file : string) (w : world) :
  Gadm._extract_gpkg zip_file gpkg_file w =
  match files w !! zip_file with
  | None => (Raise (FileNotFoundError zip_file), w)
  | Some content =>
      match zip_members w content with
      | None => (Raise (BadZipFile "File is not a zip file"), w)
      | Some members =>
          match List.find (λ m : string * string, Py.endswith ".gpkg" m.1) members with
          | None => (Ok tt, w)
          | Some (filename, data) =>
              let extracted_file := Py.joinpath (Py.parent zip_file) filename in
              let w1 := set_files (insert extracted_file data)
                                  (record (EOpenW extracted_file) w) in
              if bool_decide (extracted_file = gpkg_file) then (Ok tt, w1)
              else (Ok tt, set_files (λ fs, <[gpkg_file := data]> (delete extracted_file fs))
                                     (record (ERename extracted_file gpkg_file) w1))
          end
      end
  end.
Proof.
  unfold Gadm._extract_gpkg, bind at 1, read_file.
  destruct (files w !! zip_file) as [content |]; [| done].
  unfold bind at 1. destruct (zip_members w content) as [members |]; [| done].
  destruct (List.find _ members) as [[filename data] |]; [| done].
  unfold bind. rewrite write_text_result. cbn zeta.
  case_bool_decide; [done |].
  rewrite rename_result. simpl. by rewrite lookup_insert_eq.
Qed.

(** X19.  Extraction takes the first member of the archive whose name
    ends in [.gpkg] and no other: when that member lies at the top of the
    archive (no [/] in its name), afterwards the GeoPackage path holds its
    data, and the file it was extracted to, when that is another path, is
    gone (renamed).  An archive without such a member is not an error:
    [_extract_gpkg] returns and leaves the world as it was.  A missing
    archive raises [FileNotFoundError], a file that is not a zip archive
    [BadZipFile], and nothing is written. *)
Theorem gadm_extract_first_gpkg (zip_file gpkg_file : string) (w : world) :
  match files w !! zip_file with
  | None => Gadm._extract_gpkg zip_file gpkg_file w = (Raise (FileNotFoundError zip_file), w)
  | Some content =>
      match zip_members w content with
      | None =>
          ∃ msg, Gadm._extract_gpkg zip_file gpkg_file w = (Raise (BadZipFile msg), w)
      | Some members =>
          match List.find (λ m : string * string, Py.endswith ".gpkg" m.1) members with
          | None => Gadm._extract_gpkg zip_file gpkg_file w = (Ok tt, w)
          | Some (filename, data) =>
              free_of (λ c, bool_decide (c = "/"%char)) filename = true →
              ∃ w', Gadm._extract_gpkg zip_file gpkg_file w = (Ok tt, w')
                    ∧ files w' !! gpkg_file = Some data
                    ∧ (Py.joinpath (Py.parent zip_file) filename ≠ gpkg_file →
                       files w' !! Py.joinpath (Py.parent zip_file) filename = None)
                    ∧ (∀ p, p ≠ gpkg_file →
                            p ≠ Py.joinpath (Py.parent zip_file) filename →
                            files w' !! p = files w !! p)
          end
      end
  end.
Proof.
  rewrite extract_gpkg_result.
  destruct (files w !! zip_file) as [content |]; [| done].
  destruct (zip_members w content) as [members |]; [| by eexists].
  destruct (List.find _ members) as [[filename data] |]; [| done].
  intros _. cbn zeta. case_bool_decide as Hsame.
  - eexists. split; [reflexivity |]. simpl. rewrite <- Hsame.
    split; [apply lookup_insert_eq |]. split; [done |].
    intros p Hp _. by rewrite lookup_insert_ne.
  - eexists. split; [reflexivity |]. simpl.
    split; [apply lookup_insert_eq |].
    split; [intros _; rewrite lookup_insert_ne by done; apply lookup_delete_eq |].
    intros p Hp Hq. by rewrite lookup_insert_ne, lookup_delete_ne, lookup_insert_ne.
Qed.

(** X20.  [cleanup_geopackage] removes the GeoPackage and nothing else:
    afterwards the GeoPackage path does not exist, whether it did before or
    not, and every other file, the archive and its digest among them, is as
    it was; the database is not touched. *)
Theorem gadm_cleanup_keeps_the_archive (c : Gadm.Config) (w : world) :
  files (Gadm.cleanup_geopackage c w).2 !! Gadm.raw_dir c = None
  ∧ (∀ p, p ≠ Gadm.raw_dir c →
          files (Gadm.cleanup_geopackage c w).2 !! p = files w !! p)
  ∧ files (Gadm.cleanup_geopackage c w).2 !! Gadm.zip_dir c = files w !! Gadm.zip_dir c
  ∧ files (Gadm.cleanup_geopackage c w).2 !! Gadm.md5_dir c = files w !! Gadm.md5_dir c
  ∧ pg (Gadm.cleanup_geopackage c w).2 = pg w.
Proof.
  assert (Gadm.zip_dir c ≠ Gadm.raw_dir c) as Hzip.
  { intros Heq. pose proof (zip_last_char c) as Hz. rewrite Heq, gpkg_last_char in Hz.
    discriminate. }
  assert (Gadm.md5_dir c ≠ Gadm.raw_dir c) as Hmd5.
  { intros Heq. pose proof (md5_last_char c) as Hz. rewrite Heq, gpkg_last_char in Hz.
    discriminate. }
  assert (files (Gadm.cleanup_geopackage c w).2 !! Gadm.raw_dir c = None
          ∧ (∀ p, p ≠ Gadm.raw_dir c →
                  files (Gadm.cleanup_geopackage c w).2 !! p = files w !! p)
          ∧ pg (Gadm.cleanup_geopackage c w).2 = pg w) as (Hgone & Hkeep & Hpg).
  { rewrite cleanup_geopackage_result. case_bool_decide as Hfile; simpl.
    - split; [apply lookup_delete_eq |]. split; [| done].
      intros p Hp. by rewrite lookup_delete_ne.
    - split; [| done]. destruct (files w !! Gadm.raw_dir c); [| done].
      destruct Hfile. by eexists. }
  split; [done |]. split; [done |]. split; [by apply Hkeep |]. split; [by apply Hkeep | done].
Qed.

Lemma events_between_app (w w' : world) (d : list event) :
  journal w' = journal w ++ d → events_between w w' = d.
Proof. intros Hj. unfold events_between. by rewrite Hj, drop_app_length. Qed.

Lemma extract_then_return (c : Gadm.Config) (w : world) (p : string) (w1 : world) :
  bind (Gadm._extract_gpkg (Gadm.zip_dir c) (Gadm.raw_dir c))
       (λ _, ret (Gadm.raw_dir c)) w = (Ok p, w1) →
  p = Gadm.raw_dir c
  ∧ ∃ archive members,
      files w !! Gadm.zip_dir c = Some archive ∧ zip_members w archive = Some members.
Proof.
  unfold bind. rewrite extract_gpkg_result.
  destruct (files w !! Gadm.zip_dir c) as [archive |] eqn:Hzip; [| done].
  destruct (zip_members w archive) as [members |] eqn:Hmem; [| done].
  intros Hrun. split; [| by exists archive, members].
  destruct (List.find _ members) as [[filename data] |]; cbn zeta in Hrun.
  - case_bool_decide; by injection Hrun as <-.
  - by injection Hrun as <-.
Qed.

Lemma extract_goes_through (c : Gadm.Config) (w : world) (archive : string)
    (members : list (string * string)) :
  files w !! Gadm.zip_dir c = Some archive → zip_members w archive = Some members →
  ∃ w1, bind (Gadm._extract_gpkg (Gadm.zip_dir c) (Gadm.raw_dir c))
             (λ _, ret (Gadm.raw_dir c)) w = (Ok (Gadm.raw_dir c), w1).
Proof.
  intros Hzip Hmembers. unfold bind. rewrite extract_gpkg_result, Hzip, Hmembers.
  destruct (List.find _ members) as [[filename data] |]; cbn zeta.
  - case_bool_decide; by eexists.
  - by eexists.
Qed.

(** X21.  The archive of the GADM job is fetched once.  After a call of
    [download_geopackage_levels] that returned, a second call in the world
    the first one left returns the same path and makes no HTTP request: it
    finds the archive and the digest the first call stored.  (The digest of
    the archive is taken to be a non-empty text without blanks around it,
    as an MD5 digest in hexadecimal is.) *)
Theorem gadm_second_fetch_is_offline md5 (c : Gadm.Config) (w : world) (p : string)
    (w1 : world) :
  (∀ r, remote w (Gadm.gadm_geopackage_url c) = Replied r →
        md5 (body_of r) ≠ "" ∧ Py.strip (md5 (body_of r)) = md5 (body_of r)) →
  Gadm.download_geopackage_levels md5 c w = (Ok p, w1) →
  ∃ w2, Gadm.download_geopackage_levels md5 c w1 = (Ok p, w2)
        ∧ http_requests (events_between w1 w2) = []
        ∧ files w2 !! Gadm.zip_dir c = files w1 !! Gadm.zip_dir c.
Proof.
  intros Hdigest Hfirst.
  rewrite download_geopackage_levels_unfold in Hfirst. cbn zeta in Hfirst.
  (* the world the first extraction started in *)
  assert (∃ wx, bind (Gadm._extract_gpkg (Gadm.zip_dir c) (Gadm.raw_dir c))
                     (λ _, ret (Gadm.raw_dir c)) wx = (Ok p, w1)
                ∧ stale md5 c wx = false
                ∧ zip_members wx = zip_members w) as (wx & Hextract & Hfresh & Hzm).
  { destruct (stale md5 c w) eqn:Hstale.
    - rewrite refresh_archive_cases in Hfirst. simpl (remote _ _) in Hfirst.
      destruct (remote w (Gadm.gadm_geopackage_url c)) as [t msg | r] eqn:Hremote;
        [discriminate |].
      destruct (resp_error r); [discriminate |].
      destruct (resp_broken r); [discriminate |].
      destruct (Hdigest r eq_refl) as [Hne Hstrip].
      eexists. split; [exact Hfirst |]. split; [| done].
      unfold stale, refreshed. simpl.
      rewrite lookup_insert_eq.
      rewrite lookup_insert_ne, lookup_insert_eq.
      2:{ intros Heq. pose proof (md5_last_char c) as Hm.
          rewrite Heq, zip_last_char in Hm. discriminate. }
      rewrite Hstrip. rewrite (bool_decide_eq_false_2 _ Hne).
      by rewrite bool_decide_eq_true_2.
    - eexists. split; [exact Hfirst |]. split; [| done]. exact Hstale. }
  destruct (extract_then_return c wx p w1 Hextract) as (-> & archive & members & Hzip & Hmem).
  destruct (extract_frame c wx) as (_ & Hzip1 & Hmd51). cbn zeta in Hzip1, Hmd51.
  rewrite Hextract in Hzip1, Hmd51. simpl in Hzip1, Hmd51.
  assert (evolves extraction_event wx w1) as Hev.
  { pose proof (behaves_bind extraction_event (λ _, True)
                  (Gadm._extract_gpkg (Gadm.zip_dir c) (Gadm.raw_dir c))
                  (λ _, ret (Gadm.raw_dir c))
                  (behaves_extract_gpkg _ _ (gpkg_last_char c))
                  (λ _, behaves_ret _ _ _) wx) as [Hev _].
    by rewrite Hextract in Hev. }
  assert (zip_members w1 = zip_members wx) as Hzm1 by (by destruct Hev as (_ & _ & _ & ? & _)).
  assert (stale md5 c w1 = false) as Hfresh1.
  { unfold stale in *. by rewrite Hzip1, Hmd51. }
  rewrite download_geopackage_levels_unfold. cbn zeta. rewrite Hfresh1.
  destruct (extract_goes_through c (record (EMkdir (Gadm.data_dir c)) w1) archive members)
    as [w2 Hsecond].
  { simpl. by rewrite Hzip1. }
  { simpl. by rewrite Hzm1. }
  exists w2. split; [exact Hsecond |].
  destruct (extract_frame c (record (EMkdir (Gadm.data_dir c)) w1))
    as ((d & Hj & Hnone) & Hzip2 & _).
  cbn zeta in Hj, Hzip2. rewrite Hsecond in Hj, Hzip2. simpl in Hj, Hzip2.
  split; [| exact Hzip2].
  rewrite (events_between_app w1 w2 (EMkdir (Gadm.data_dir c) :: d)).
  - change (EMkdir (Gadm.data_dir c) :: d) with ([EMkdir (Gadm.data_dir c)] ++ d).
    by rewrite http_requests_app, Hnone.
  - by rewrite Hj, <- app_assoc.
Qed.

Lemma gadm_second_fetch_is_offline_witness :
  ∃ w1 w2,
    Gadm.download_geopackage_levels toy_digest gadm_config archive_world
    = (Ok (Gadm.raw_dir gadm_config), w1)
    ∧ Gadm.download_geopackage_levels toy_digest gadm_config w1
      = (Ok (Gadm.raw_dir gadm_config), w2)
    ∧ http_requests (events_between w1 w2) = [].
Proof.
  assert (∃ w1, Gadm.download_geopackage_levels toy_digest gadm_config archive_world
                = (Ok (Gadm.raw_dir gadm_config), w1)) as [w1 Hfirst]
    by (vm_compute; eexists; reflexivity).
  destruct (gadm_second_fetch_is_offline toy_digest gadm_config archive_world
              (Gadm.raw_dir gadm_config) w1) as (w2 & Hsecond & Hnone & _).
  - intros r [= <-]. by vm_compute.
  - exact Hfirst.
  - by exists w1, w2.
Defined.

(** ** What leaves the catalog alone *)

Lemma keeps_catalog_ret {A} (a : A) : keeps_catalog (ret a).
Proof. by intros w. Qed.

Lemma keeps_catalog_raise {A} (e : exn) : keeps_catalog (raise (A := A) e).
Proof. by intros w. Qed.

Lemma keeps_catalog_bind {A B} (m : M A) (k : A → M B) :
  keeps_catalog m → (∀ a, keeps_catalog (k a)) → keeps_catalog (bind m k).
Proof.
  intros Hm Hk w. unfold bind. specialize (Hm w).
  destruct (m w) as [[a | e] w1]; simpl in *; [| done].
  by rewrite (Hk a w1).
Qed.

Lemma keeps_catalog_try {A} (m : M A) (h : exn → M A) :
  keeps_catalog m → (∀ e, keeps_catalog (h e)) → keeps_catalog (try_except m h).
Proof.
  intros Hm Hh w. unfold try_except. specialize (Hm w).
  destruct (m w) as [[a | e] w1]; simpl in *; [done |].
  by rewrite (Hh e w1).
Qed.

Lemma keeps_catalog_for_each {A} (l : list A) (body : A → M unit) :
  (∀ x, keeps_catalog (body x)) → keeps_catalog (for_each l body).
Proof.
  intros Hbody. induction l as [| x l IH]; simpl; [apply keeps_catalog_ret |].
  apply keeps_catalog_bind; [apply Hbody | done].
Qed.

Lemma keeps_catalog_emit (e : event) : keeps_catalog (emit e).
Proof. by intros w. Qed.

Lemma keeps_catalog_path_exists (p : string) : keeps_catalog (path_exists p).
Proof. by intros w. Qed.

Lemma keeps_catalog_read_file (p : string) : keeps_catalog (read_file p).
Proof. intros w. unfold read_file. by destruct (files w !! p). Qed.

Lemma keeps_catalog_write_text (p text : string) : keeps_catalog (write_text p text).
Proof. intros w. by rewrite write_text_result. Qed.

Lemma keeps_catalog_save_body (p : string) (r : response) : keeps_catalog (save_body p r).
Proof. intros w. by rewrite save_body_result. Qed.

Lemma keeps_catalog_unlink (p : string) : keeps_catalog (unlink p).
Proof. intros w. rewrite unlink_result. by destruct (files w !! p). Qed.

Lemma keeps_catalog_rename (src dst : string) : keeps_catalog (rename src dst).
Proof. intros w. rewrite rename_result. by destruct (files w !! src). Qed.

Lemma keeps_catalog_requests_get (url : string) : keeps_catalog (requests_get url).
Proof. intros w. rewrite requests_get_result. by destruct (remote w url). Qed.

Lemma keeps_catalog_popen_wait (argv : list string) : keeps_catalog (popen_wait argv).
Proof. intros w. rewrite popen_wait_result. by destruct (prog_missing _). Qed.

Lemma keeps_catalog_execute (q : query) :
  (∀ n, q ≠ QSetUtf8 n) → keeps_catalog (execute q).
Proof.
  intros Hq w. rewrite execute_unfold. destruct (pg_rejects (pg w) q); [done |].
  destruct q; simpl; try done; try by case_bool_decide. by destruct (Hq datname).
Qed.

Lemma keeps_catalog_with_connection {A} (info : string) (body : M A) :
  keeps_catalog body → keeps_catalog (with_connection info body).
Proof.
  intros Hbody w. rewrite with_connection_unfold. destruct (pg_down (pg w)); [done |].
  specialize (Hbody (record (EConnect info) w)).
  by destruct (body _) as [[a | e] w1].
Qed.

Lemma gadm_check_keeps_catalog (c : Gadm.Config) :
  keeps_catalog (Gadm.check_existing_data c).
Proof.
  intros w.
  destruct (check_result (Gadm.connection_string c) Gadm.expected_tables w)
    as (_ & Hpg & _).
  unfold Gadm.check_existing_data. by rewrite <- Hpg.
Qed.

Lemma gadm_download_keeps_catalog md5 (c : Gadm.Config) :
  keeps_catalog (Gadm.download_geopackage_levels md5 c).
Proof.
  unfold Gadm.download_geopackage_levels.
  apply keeps_catalog_bind; [apply keeps_catalog_emit | intros _].
  apply keeps_catalog_bind.
  { unfold Gadm._read_md5. apply keeps_catalog_bind; [apply keeps_catalog_path_exists |].
    intros []; [| apply keeps_catalog_ret].
    apply keeps_catalog_bind; [apply keeps_catalog_read_file | intros; apply keeps_catalog_ret]. }
  intros stored. apply keeps_catalog_bind.
  { unfold Gadm.must_download. apply keeps_catalog_bind; [apply keeps_catalog_path_exists |].
    intros []; simpl; [| apply keeps_catalog_ret].
    destruct stored as [[| ? ?] |]; try apply keeps_catalog_ret.
    apply keeps_catalog_bind; [| intros; apply keeps_catalog_ret].
    unfold Gadm._calculate_md5.
    apply keeps_catalog_bind; [apply keeps_catalog_read_file | intros; apply keeps_catalog_ret]. }
  intros stale. apply keeps_catalog_bind.
  { destruct stale; [| apply keeps_catalog_ret].
    unfold Gadm.refresh_archive.
    apply keeps_catalog_bind; [apply keeps_catalog_requests_get | intros response].
    apply keeps_catalog_bind.
    { unfold raise_for_status. destruct (resp_error response);
        [apply keeps_catalog_raise | apply keeps_catalog_ret]. }
    intros _. apply keeps_catalog_bind; [apply keeps_catalog_save_body | intros _].
    apply keeps_catalog_bind.
    { unfold Gadm._calculate_md5.
      apply keeps_catalog_bind; [apply keeps_catalog_read_file | intros; apply keeps_catalog_ret]. }
    intros new_md5. unfold Gadm._write_md5.
    apply keeps_catalog_bind; [apply keeps_catalog_emit | intros _].
    apply keeps_catalog_write_text. }
  intros _. apply keeps_catalog_bind; [| intros; apply keeps_catalog_ret].
  intros w. by rewrite extract_gpkg_result;
    repeat (match goal with |- context [match ?x with _ => _ end] => destruct x end; simpl).
Qed.

Lemma gadm_upload_keeps_catalog (c : Gadm.Config) :
  keeps_catalog (Gadm.upload_levels_gpkg c).
Proof.
  unfold Gadm.upload_levels_gpkg.
  apply keeps_catalog_bind; [apply keeps_catalog_path_exists |].
  intros []; simpl; [| apply keeps_catalog_raise].
  apply keeps_catalog_bind.
  { unfold Gadm.feature_layers.
    apply keeps_catalog_bind; [apply keeps_catalog_read_file |]. intros content w.
    by destruct (gpkg_layers w content). }
  intros [| layer layers]; [apply keeps_catalog_raise |].
  apply keeps_catalog_with_connection, keeps_catalog_for_each.
  intros x. unfold Gadm.upload_layer.
  destruct (Gadm.table_of_layer x); [| apply keeps_catalog_raise].
  apply keeps_catalog_bind.
  { unfold run_checked. apply keeps_catalog_bind; [apply keeps_catalog_popen_wait |].
    intros rc. case_bool_decide; [apply keeps_catalog_ret | apply keeps_catalog_raise]. }
  intros _.
  repeat (apply keeps_catalog_bind; [by apply keeps_catalog_execute | intros _]).
  apply keeps_catalog_ret.
Qed.

Lemma gadm_cleanup_keeps_catalog (c : Gadm.Config) :
  keeps_catalog (Gadm.cleanup_geopackage c).
Proof. intros w. rewrite cleanup_geopackage_result. by case_bool_decide. Qed.

Lemma gadm_run_evolves md5 (force : bool) p w o w' :
  GadmMachine.run md5 force p w o w' → evolves (λ _, True) w w'.
Proof.
  induction 1;
    repeat match goal with
    | H : Gadm.verify_connection _ _ = _ |- _ =>
        apply (behaves_evolves _ _ _ _ _ _ (behaves_gadm_verify _)) in H
    | H : Gadm.check_existing_data _ _ = _ |- _ =>
        apply (behaves_evolves _ _ _ _ _ _ (behaves_gadm_check _)) in H
    | H : Gadm.download_geopackage_levels _ _ _ = _ |- _ =>
        apply (behaves_evolves _ _ _ _ _ _ (behaves_gadm_download _ _)) in H
    | H : Gadm.upload_levels_gpkg _ _ = _ |- _ =>
        apply (behaves_evolves _ _ _ _ _ _ (behaves_gadm_upload _)) in H
    | H : Gadm.cleanup_geopackage _ _ = _ |- _ =>
        apply (behaves_evolves _ _ _ _ _ _ (behaves_gadm_cleanup _)) in H
    end;
    repeat match goal with
    | H : evolves ?φ _ _ |- _ =>
        lazymatch φ with
        | (λ _, True) => fail
        | _ => apply (evolves_mono φ (λ _, True)) in H; [| done]
        end
    end;
    try done;
    try (by apply evolves_record);
    try (eapply evolves_trans; [eassumption |]; try done; by apply evolves_record).
Qed.

Lemma gadm_run_keeps_catalog md5 (force : bool) p w o w' :
  GadmMachine.run md5 force p w o w' →
  match p with
  | GadmMachine.Configuring | GadmMachine.Verifying _ => True
  | _ => pg_catalog (pg w') = pg_catalog (pg w)
  end.
Proof.
  induction 1; try done;
    repeat match goal with
    | H : _ = (_, ?w1) |- _ => apply run_result in H; subst w1
    end;
    cbn beta iota in *; rewrite ?IHrun; cbn [pg record];
    rewrite ?gadm_cleanup_keeps_catalog, ?gadm_upload_keeps_catalog,
      ?gadm_download_keeps_catalog, ?gadm_check_keeps_catalog; done.
Qed.

(** The GADM run that skips, with only the statements it sends accepted. *)
Lemma gadm_run_skips_when_accepted md5 (w : world) (c : Gadm.Config) (o : outcome)
    (w' : world) :
  data_present Gadm.expected_tables w →
  Gadm.load_config (environ w) = Ok c →
  pg_down (pg w) = None →
  accepts (pg w) (verify_statements (Gadm.db_name c)) →
  pg_rejects (pg w) (QTablesExist Gadm.expected_tables) = None →
  catalogued (Gadm.db_name c) w = Some "UTF8" →
  GadmMachine.run md5 false GadmMachine.Configuring w o w' → o = skipped.
Proof.
  intros Hdata Hload Hdown Hacc Hq Hcat Hrun.
  inversion Hrun as [? c' ? ? Hload' Hverifying | ? msg Hload' | | | | | | | | | |]; subst;
    [| congruence].
  rewrite Hload in Hload'. injection Hload' as <-.
  pose (o' := Osm.MkConfig "" (Gadm.db_host c) (Gadm.db_port c) (Gadm.db_name c)
                (Gadm.db_user c) (Gadm.db_password c) 0 0 false false "" "" "" "").
  destruct (osm_verify_goes_through o' w Hdown Hacc Hcat) as (wv & Hv & _).
  rewrite <- (verify_same c o' w) in Hv; [| done |].
  2:{ intros _ _ enc Henc. simpl in Henc. congruence. }
  inversion Hverifying as [| | ? ? w1 ? ? Hverify Hchecking | ? ? w1 e Hverify
                           | | | | | | | |]; subst; [| congruence].
  assert (evolves quiet_event w w1) as H1.
  { eapply evolves_mono; [apply database_quiet |].
    by eapply behaves_evolves; [apply behaves_gadm_verify |]. }
  pose proof (data_present_evolves _ _ _ _ quiet_no_spawn H1 Hdata) as Hdata1.
  destruct (evolves_server _ _ _ H1) as [Hdown1 Hrej1].
  destruct (check_result (Gadm.connection_string c) Gadm.expected_tables w1) as (Hb & _).
  rewrite Hdown1, Hdown, Hrej1, Hq in Hb.
  inversion Hchecking as [| | | | ? ? w2' Hcheck | ? ? w2' existing ? ? Hcheck Hwanted
                          | ? ? w2' e Hcheck | | | | |]; subst.
  - done.
  - rewrite andb_true_r in Hwanted. subst existing.
    apply gadm_check_answer in Hcheck. by apply Hcheck in Hdata1.
  - unfold Gadm.check_existing_data in Hcheck. rewrite Hcheck in Hb. discriminate.
Qed.

(** X22.  The GADM pipeline imports once.  Take a run, forced or not, that
    returns 0 and leaves one of the tables [admin0] .. [admin5] in the
    database.  A second run without [--force], in the world the first one
    left, loads the same configuration, finds the table and skips: it
    returns 0, makes no HTTP request, starts no program and touches no
    file.  Nothing is assumed of the server beyond what the first run
    showed. *)
Theorem gadm_second_run_skips md5 (force : bool) (w w1 : world) :
  Gadm.main md5 force w = (Ok 0, w1) →
  data_present Gadm.expected_tables w1 →
  (Gadm.main md5 false w1).1 = Ok 0
  ∧ GadmMachine.run md5 false GadmMachine.Configuring w1 skipped (Gadm.main md5 false w1).2
  ∧ untouched w1 (Gadm.main md5 false w1).2.
Proof.
  intros Hmain Hdata.
  destruct (gadm_main_run md5 force w) as (o & w1' & Hrun & Hmain').
  rewrite Hmain in Hmain'. injection Hmain' as Hzero <-.
  pose proof (gadm_run_evolves _ _ _ _ _ _ Hrun) as Hev.
  destruct (evolves_server _ _ _ Hev) as [Hdown Hrej].
  assert (environ w1 = environ w) as Henv by (by destruct Hev).
  (* what the first run says about the server *)
  inversion Hrun as [? c ? ? Hload Hverifying | |  | | | | | | | | |]; subst;
    [| discriminate].
  inversion Hverifying as [| | ? ? wa ? ? Hverify Hchecking | | | | | | | | |]; subst;
    [| discriminate].
  destruct (gadm_verify_ok _ _ _ Hverify)
    as (Hup & Hacc & d & Hpg & Hd1 & Hd2 & Hd3 & Hd4).
  destruct (with_extensions_fields d) as (F1 & F2 & F3 & F4).
  pose proof (gadm_run_keeps_catalog _ _ _ _ _ _ Hchecking) as Hcatalog.
  cbn beta iota in Hcatalog.
  assert (pg_rejects (pg w) (QTablesExist Gadm.expected_tables) = None) as Hq.
  { destruct (check_result (Gadm.connection_string c) Gadm.expected_tables wa) as (Hb & _).
    assert (pg_down (pg wa) = None) as Hdowna by (by rewrite Hpg, F1).
    assert (pg_rejects (pg wa) = pg_rejects (pg w)) as Hreja by (by rewrite Hpg, F4).
    rewrite Hdowna, Hreja in Hb.
    destruct (pg_rejects (pg w) (QTablesExist Gadm.expected_tables)); [| done].
    inversion Hchecking as [| | | | ? ? wb Hcheck | ? ? wb ? ? ? Hcheck
                            | ? ? wb ? Hcheck | | | | |]; subst;
      unfold Gadm.check_existing_data in Hcheck; rewrite Hcheck in Hb; discriminate. }
  destruct (gadm_main_run md5 false w1) as (o2 & w2 & Hrun2 & Hmain2). rewrite Hmain2. simpl.
  assert (o2 = skipped) as ->.
  { eapply (gadm_run_skips_when_accepted md5 w1 c); try done.
    - by rewrite Henv.
    - congruence.
    - intros q Hq'. rewrite Hrej. by apply Hacc.
    - by rewrite Hrej.
    - unfold catalogued. by rewrite Hcatalog, Hpg, F2. }
  split; [done |]. split; [done |].
  by apply quiet_untouched, (gadm_run_with_data md5 w1 skipped).
Qed.

Lemma gadm_second_run_skips_witness :
  (Gadm.main toy_digest false (Gadm.main toy_digest false gadm_ready_world).2).1 = Ok 0
  ∧ untouched (Gadm.main toy_digest false gadm_ready_world).2
      (Gadm.main toy_digest false (Gadm.main toy_digest false gadm_ready_world).2).2.
Proof.
  destruct (gadm_second_run_skips toy_digest false gadm_ready_world
              (Gadm.main toy_digest false gadm_ready_world).2) as (Hcode & _ & Hquiet).
  - vm_compute. reflexivity.
  - exists "admin0". split; by_evaluation.
  - by split.
Defined.

(** ** The data files after a run of the OSM job *)

Lemma removes_nothing_refl (w : world) : removes_nothing w w.
Proof. exists []. by rewrite app_nil_r. Qed.

Lemma removes_nothing_trans (w1 w2 w3 : world) :
  removes_nothing w1 w2 → removes_nothing w2 w3 → removes_nothing w1 w3.
Proof.
  intros (d1 & Hj1 & Hd1) (d2 & Hj2 & Hd2). exists (d1 ++ d2).
  split; [by rewrite Hj2, Hj1, app_assoc |]. by rewrite unlinked_app, Hd1, Hd2.
Qed.

Lemma removes_nothing_evolves φ (w w' : world) :
  (∀ p, ¬ φ (EUnlink p)) → evolves φ w w' → removes_nothing w w'.
Proof.
  intros Hφ (_ & _ & _ & _ & _ & _ & _ & d & Hj & Hd & _). exists d.
  split; [done |]. by eapply no_unlinked.
Qed.

Lemma removes_nothing_say (lines : list string) (w : world) :
  removes_nothing w (say lines w).
Proof.
  apply removes_nothing_evolves with (φ := console_event); [by intros p [] |].
  by apply evolves_say.
Qed.

Lemma say_files (lines : list string) (w : world) : files (say lines w) = files w.
Proof. revert w. induction lines as [| l lines IH]; intros w; simpl; [done |]. by rewrite IH. Qed.

Lemma say_programs (lines : list string) (w : world) : programs (say lines w) = programs w.
Proof. revert w. induction lines as [| l lines IH]; intros w; simpl; [done |]. by rewrite IH. Qed.

Lemma osm_download_removes_nothing (c : Osm.Config) (w : world) (p : string) (w1 : world) :
  Osm.download_region c w = (Ok p, w1) → removes_nothing w w1 ∧ programs w1 = programs w.
Proof.
  destruct (files w !! Osm.output_file_of c) as [content |] eqn:Hfile.
  { rewrite download_region_existing by eauto. intros [= _ <-].
    split; [| done]. by exists [EMkdir (Osm.raw_dir c)]. }
  rewrite download_region_cases by done.
  destruct (remote w _) as [t msg | r]; [done |].
  destruct (resp_error r); [done |].
  destruct (Osm.content_length r (asked c w)) as [[n | e'] w2]; [| done].
  cbn zeta. destruct (resp_broken r); [done |]. intros [= _ <-].
  split; [| done]. unfold asked.
  exists [EMkdir (Osm.raw_dir c); EHttpGet (Osm.get_download_url c);
          EOpenW (Osm.output_file_of c)].
  split; [| done]. simpl. by rewrite <- !app_assoc.
Qed.

Lemma writes_miss (l : list (string * string)) (fs : gmap string string) (p : string) :
  p ∉ l.*1 → foldl (λ acc kv, <[kv.1 := kv.2]> acc) fs l !! p = fs !! p.
Proof.
  revert fs. induction l as [| [k v] l IH]; intros fs Hp; [done |].
  simpl in *. apply not_elem_of_cons in Hp as [Hne Hp].
  rewrite IH by done. by rewrite lookup_insert_ne.
Qed.

(** The filter step that returns leaves both of its files there and removes
    nothing. *)
Lemma osm_filter_leaves_both (c : Osm.Config) (input_file : string) (w : world)
    (f : string) (w1 : world) :
  is_Some (files w !! input_file) →
  Osm.filter_osm_data c input_file w = (Ok f, w1) →
  is_Some (files w1 !! input_file) ∧ is_Some (files w1 !! f)
  ∧ removes_nothing w w1 ∧ programs w1 = programs w.
Proof.
  intros Hinput Hrun.
  pose proof (behaves_evolves _ _ _ _ _ _ (behaves_osm_filter c input_file) Hrun) as Hev.
  assert (removes_nothing w w1 ∧ programs w1 = programs w) as [Hnone Hprog].
  { split; [| by destruct Hev as (_ & _ & ? & _)].
    eapply removes_nothing_evolves; [| exact Hev]. by intros p []. }
  pose proof (osm_filter_returns _ _ _ _ _ Hrun) as ->.
  destruct (files w !! Osm.filtered_file_of c input_file) as [content |] eqn:Hfile.
  { rewrite filter_osm_data_existing in Hrun by eauto. injection Hrun as <-.
    rewrite Hfile. eauto. }
  rewrite filter_osm_data_result in Hrun by done. cbn zeta in Hrun.
  destruct (prog_missing _); [discriminate |].
  case_bool_decide; [| discriminate].
  match type of Hrun with
  | match ?x with _ => _ end = _ => destruct x eqn:H1; [| discriminate]
  end.
  match type of Hrun with
  | match ?x with _ => _ end = _ => destruct x eqn:H2; [| discriminate]
  end.
  injection Hrun as <-. rewrite H1, H2. eauto.
Qed.

Lemma osm_cleanup_raw_files (c : Osm.Config) (raw_file : string) (w w1 : world) :
  Osm.cleanup_raw c raw_file w = (Ok tt, w1) →
  programs w1 = programs w
  ∧ if Osm.cleanup c then files w1 !! raw_file = None else w1 = w.
Proof.
  rewrite cleanup_raw_result. destruct (Osm.cleanup c); simpl.
  - case_bool_decide as Hthere; intros [= <-]; (split; [done |]); simpl.
    + apply lookup_delete_eq.
    + destruct (files w !! raw_file) eqn:Hf; [| done]. destruct Hthere. eauto.
  - by intros [= <-].
Qed.

Lemma osm_cleanup_filtered_files (c : Osm.Config) (filtered_file : string) (w w1 : world) :
  Osm.cleanup_filtered c filtered_file w = (Ok tt, w1) →
  if Osm.cleanup c
  then files w1 !! filtered_file = None
       ∧ (∀ p, files w !! p = None → files w1 !! p = None)
  else w1 = w.
Proof.
  rewrite cleanup_filtered_result. destruct (Osm.cleanup c); simpl.
  - case_bool_decide as Hthere; intros [= <-]; simpl.
    + split; [apply lookup_delete_eq |]. intros p Hp.
      destruct (decide (p = filtered_file)) as [-> | Hne];
        [apply lookup_delete_eq | by rewrite lookup_delete_ne].
    + split; [| done].
      destruct (files w !! filtered_file) eqn:Hf; [| done]. destruct Hthere. eauto.
  - by intros [= <-].
Qed.

Lemma osm_upload_files (c : Osm.Config) (pbf_file : string) (w w1 : world) :
  Osm.upload_to_database c pbf_file w = (Ok tt, w1) →
  files w1 = foldl (λ acc kv, <[kv.1 := kv.2]> acc) (files w)
               (prog_writes (programs w (Osm.osm2pgsql_cmd c pbf_file)))
  ∧ journal w1 = journal w ++ [ESpawn (Osm.osm2pgsql_cmd c pbf_file)].
Proof.
  rewrite upload_result. cbn zeta.
  destruct (prog_missing _); [discriminate |].
  case_bool_decide; [| discriminate]. by intros [= <-].
Qed.

Lemma database_step_keeps (w w' : world) :
  evolves database_event w w' →
  files w' = files w ∧ programs w' = programs w ∧ removes_nothing w w'.
Proof.
  intros Hev. split; [| split].
  - apply (evolves_mono _ _ _ _ database_quiet), quiet_untouched in Hev
      as (d & _ & _ & _ & _ & _ & Hfiles).
    done.
  - by destruct Hev as (_ & _ & ? & _).
  - eapply removes_nothing_evolves; [| exact Hev]. by intros p [].
Qed.

(** X23.  What [CLEANUP] means for the data files.  Take a database
    without the expected tables and a run of the OSM job that returns 0.
    With [CLEANUP] off the run removes no file, and the raw file and the
    filtered file are both there afterwards.  With [CLEANUP] on the
    filtered file is gone afterwards, and so is the raw file unless
    [osm2pgsql] itself wrote to its path. *)
Theorem osm_cleanup_decides_the_files (w : world) (c : Osm.Config) (w1 : world) :
  Osm.load_config (environ w) = Ok c →
  ¬ data_present Osm.expected_tables w →
  Osm.main w = (Ok 0, w1) →
  let raw_file := Osm.output_file_of c in
  let filtered_file := Osm.filtered_file_of c raw_file in
  if Osm.cleanup c
  then files w1 !! filtered_file = None
       ∧ (raw_file ∉ (prog_writes (programs w (Osm.osm2pgsql_cmd c filtered_file))).*1 →
          files w1 !! raw_file = None)
  else is_Some (files w1 !! raw_file) ∧ is_Some (files w1 !! filtered_file)
       ∧ unlinked (events_between w w1) = [].
Proof.
  intros Hload Hnone Hmain raw_file filtered_file.
  destruct (osm_main_run w) as (o & w1' & Hrun & Hmain').
  rewrite Hmain in Hmain'. injection Hmain' as Hzero <-.
  rewrite (osm_zero_is_success w o w1 Hnone Hrun (eq_sym Hzero)) in Hrun. clear Hzero o.
  inversion Hrun as [? c' ? ? Hload' Hverifying | | | | | | | | | | | | | |]; subst.
  rewrite Hload in Hload'. injection Hload' as <-.
  inversion Hverifying as [| | ? ? wa ? ? Hverify Hchecking | | | | | | | | | | | |]; subst.
  inversion Hchecking as [| | | | | ? ? wb ? ? Hcheck Hdownloading | | | | | | | | |]; subst.
  inversion Hdownloading as [| | | | | | | ? ? raw wd ? ? Hdownload Hfiltering
                             | | | | | | |]; subst.
  destruct (osm_download_returns _ _ _ _ Hdownload) as [-> Hraw].
  destruct (osm_download_removes_nothing _ _ _ _ Hdownload) as [Hnone_d Hprog_d].
  inversion Hfiltering as [| | | | | | | | | ? ? ? f wf ? ? Hfilter Hdiscarding
                           | | | | |]; subst.
  destruct (osm_filter_leaves_both c _ _ _ _ ltac:(by rewrite say_files) Hfilter)
    as (Hraw1 & Hfiltered1 & Hnone_f & Hprog_f).
  pose proof (osm_filter_returns _ _ _ _ _ Hfilter) as ->.
  inversion Hdiscarding as [| | | | | | | | | | | ? ? ? ? wr ? ? Hdiscard Huploading
                            | | |]; subst.
  inversion Huploading as [| | | | | | | | | | | | ? ? ? wu ? ? Hupload Hcleaning | |]; subst.
  inversion Hcleaning as [| | | | | | | | | | | | | | ? ? ? wc Hclean]; subst.
  clear Hrun Hverifying Hchecking Hdownloading Hfiltering Hdiscarding Huploading Hcleaning
        Hmain.
  apply (behaves_evolves _ _ _ _ _ _ (behaves_osm_verify c)), database_step_keeps
    in Hverify as (_ & Hprog_v & Hnone_v).
  apply (behaves_evolves _ _ _ _ _ _ (behaves_osm_check c)), database_step_keeps
    in Hcheck as (_ & Hprog_c & Hnone_c).
  apply osm_cleanup_raw_files in Hdiscard as [Hprog_r Hdiscard].
  apply osm_upload_files in Hupload as [Hfiles_u Hjournal_u].
  apply osm_cleanup_filtered_files in Hclean.
  fold raw_file in Hraw, Hraw1, Hdiscard |- *.
  fold filtered_file in Hfiltered1, Hfiles_u, Hjournal_u, Hclean |- *.
  rewrite !say_programs in *. rewrite !say_files in *.
  assert (programs wr = programs w) as Hprog by congruence.
  rewrite Hprog in Hfiles_u.
  destruct (Osm.cleanup c).
  - destruct Hclean as [Hgone Hstay]. split; [done |]. intros Hwrites.
    apply Hstay. rewrite Hfiles_u. by rewrite writes_miss.
  - subst wc wr. rewrite ?say_files in *. rewrite Hfiles_u.
    split; [by apply writes_keep |]. split; [by apply writes_keep |].
    assert (removes_nothing w (say (OsmMachine.closing_lines c)
              (say ["✓ Data imported to database" +:+ Osm.newline] wu)))
      as (d & Hj & Hd).
    { repeat first
        [ apply removes_nothing_refl
        | eapply removes_nothing_trans; [| apply removes_nothing_say]
        | eapply removes_nothing_trans; [| eassumption]
        | eapply removes_nothing_trans;
            [| by exists [ESpawn (Osm.osm2pgsql_cmd c filtered_file)]] ]. }
    by rewrite (events_between_app _ _ _ Hj).
Qed.

Lemma osm_cleanup_decides_the_files_witness :
  files (Osm.main (tooled_world 0)).2
    !! Osm.filtered_file_of osm_config (Osm.output_file_of osm_config) = None.
Proof.
  assert (Osm.load_config (environ (tooled_world 0)) = Ok osm_config) as Hload
    by reflexivity.
  assert (¬ data_present Osm.expected_tables (tooled_world 0)) as Hnone.
  { intros (t & _ & Hin). by apply elem_of_nil in Hin. }
  assert (Osm.main (tooled_world 0) = (Ok 0, (Osm.main (tooled_world 0)).2)) as Hmain
    by (vm_compute; reflexivity).
  pose proof (osm_cleanup_decides_the_files _ _ _ Hload Hnone Hmain) as H.
  cbn zeta in H. change (Osm.cleanup osm_config) with true in H. cbn iota in H.
  exact (proj1 H).
Defined.

(** ** Trailing slashes of the mirror URL *)

Lemma rstrip_by_snoc (p : ascii → bool) (s : string) (c : ascii) :
  p c = true → Py.rstrip_by p (s +:+ String c EmptyString) = Py.rstrip_by p s.
Proof.
  intros Hc. induction s as [| a s IH]; simpl; [by rewrite Hc |]. by rewrite IH.
Qed.

Lemma rstrip_by_idempotent (p : ascii → bool) (s : string) :
  Py.rstrip_by p (Py.rstrip_by p s) = Py.rstrip_by p s.
Proof.
  induction s as [| a s IH]; [done |]. simpl.
  destruct (Py.rstrip_by p s) as [| b r] eqn:Hr.
  - destruct (p a) eqn:Ha; [done |]. simpl. by rewrite Ha.
  - change (Py.rstrip_by p (String a (String b r)))
      with (match Py.rstrip_by p (String b r) with
            | EmptyString => if p a then EmptyString else String a EmptyString
            | r' => String a r'
            end).
    by rewrite IH.
Qed.

Lemma load_config_base_url (env : gmap string string) (v v' : string) :
  Py.rstrip_slash v = Py.rstrip_slash v' →
  Osm.load_config (<["GEOFABRIK_BASE_URL" := v]> env)
  = Osm.load_config (<["GEOFABRIK_BASE_URL" := v']> env).
Proof.
  intros Hsame. unfold Osm.load_config.
  rewrite !(get_env_int_insert_ne env "GEOFABRIK_BASE_URL" _ v) by done.
  rewrite !(get_env_int_insert_ne env "GEOFABRIK_BASE_URL" _ v') by done.
  rewrite !(get_env_bool_insert_ne env "GEOFABRIK_BASE_URL" _ v) by done.
  rewrite !(get_env_bool_insert_ne env "GEOFABRIK_BASE_URL" _ v') by done.
  rewrite !(lookup_insert_ne env "GEOFABRIK_BASE_URL" _ v) by done.
  rewrite !(lookup_insert_ne env "GEOFABRIK_BASE_URL" _ v') by done.
  rewrite !lookup_insert_eq. cbn [option.default default id]. by rewrite Hsame.
Qed.

(** X24.  The mirror URL is normalised when the configuration is loaded:
    [GEOFABRIK_BASE_URL] written with one more trailing slash, or already
    stripped of its trailing slashes, gives the same result of
    [load_config], the same configuration or the same error, and so the
    same download URL. *)
Theorem osm_base_url_trailing_slash (env : gmap string string) (b : string) :
  Osm.load_config (<["GEOFABRIK_BASE_URL" := b +:+ "/"]> env)
  = Osm.load_config (<["GEOFABRIK_BASE_URL" := b]> env)
  ∧ Osm.load_config (<["GEOFABRIK_BASE_URL" := Py.rstrip_slash b]> env)
    = Osm.load_config (<["GEOFABRIK_BASE_URL" := b]> env).
Proof.
  split; apply load_config_base_url; unfold Py.rstrip_slash.
  - by apply rstrip_by_snoc.
  - apply rstrip_by_idempotent.
Qed.

(** ** Sizes as [format_size] prints them *)

Lemma float_of_small_int (n : Z) : Z.abs n < 2 ^ 53 → Py.float_of_int n = Some n.
Proof.
  intros Hn. unfold Py.float_of_int. cbn zeta.
  destruct (Z.ltb_spec (Z.abs n) (2 ^ 53)); [done | lia].
Qed.

Lemma format_2f_whole (n : Z) :
  0 ≤ n → Py.format_2f n 0 = Py.str_of_int n +:+ ".00".
Proof.
  intros Hn. unfold Py.format_2f. cbn zeta.
  rewrite Z.abs_eq by done. change (2 ^ 0) with 1.
  rewrite Z.div_1_r, Z.mod_1_r. change (2 * 0 <? 1) with true. cbn iota.
  rewrite Z.mod_mul by done. rewrite Z.div_mul by done.
  destruct (Z.ltb_spec n 0); [lia |]. reflexivity.
Qed.

Lemma tens (x j : Z) : 10 * j ≤ x < 10 * j + 10 → x / 10 = j.
Proof. intros Hx. symmetry. apply (Z.div_unique x 10 j (x - 10 * j)); lia. Qed.

(** X25.  [format_size] counts in powers of 1024.  For a size below 2^53
    bytes (8 PiB) it returns, without raising, the size divided by
    [1024^j] and rounded to two decimals, followed by the [j]-th of the
    units B, KB, MB, GB, TB, PB, where [j] is the binary logarithm of the
    size over ten, rounded down.  Below 1024 this is the size itself with
    [.00 B]. *)
Theorem format_size_by_powers_of_1024 (n : Z) :
  0 ≤ n < 2 ^ 53 →
  Osm.format_size n
  = Some (Py.format_2f n (10 * (Z.log2 n / 10)) +:+ " "
          +:+ nth (Z.to_nat (Z.log2 n / 10)) size_units "")
  ∧ (n < 1024 → Osm.format_size n = Some (Py.str_of_int n +:+ ".00 B")).
Proof.
  intros [Hlo Hhi].
  assert (Osm.format_size n
          = if n <? 1024 then Some (Py.format_2f n 0 +:+ " B")
            else Some (Osm.scale_size ["KB"; "MB"; "GB"; "TB"] n 10)) as ->.
  { unfold Osm.format_size. rewrite float_of_small_int by lia. by destruct (n <? 1024). }
  split.
  2:{ intros Hsmall. destruct (Z.ltb_spec n 1024); [| lia].
      rewrite format_2f_whole by done. by rewrite append_assoc. }
  destruct (Z.ltb_spec n 1024) as [Hb | Hb].
  { assert (Z.log2 n / 10 = 0) as ->; [| done].
    destruct (decide (n = 0)) as [-> | Hne]; [done |].
    assert (Z.log2 n < 10) by (apply Z.log2_lt_pow2; lia).
    pose proof (Z.log2_nonneg n). apply tens. lia. }
  assert (0 < n) as Hpos by lia.
  assert (10 ≤ Z.log2 n) as Hl0 by (by apply (Z.log2_le_pow2 n 10)).
  assert (Z.log2 n < 53) as Hl1 by (apply Z.log2_lt_pow2; lia).
  pose proof (Z.log2_lt_pow2 n 20 Hpos) as H20.
  pose proof (Z.log2_lt_pow2 n 30 Hpos) as H30.
  pose proof (Z.log2_lt_pow2 n 40 Hpos) as H40.
  pose proof (Z.log2_lt_pow2 n 50 Hpos) as H50.
  cbn [Osm.scale_size]. change (10 + 10) with 20. change (20 + 10) with 30.
  change (30 + 10) with 40. change (40 + 10) with 50.
  change (1024 * 2 ^ 10) with (2 ^ 20). change (1024 * 2 ^ 20) with (2 ^ 30).
  change (1024 * 2 ^ 30) with (2 ^ 40). change (1024 * 2 ^ 40) with (2 ^ 50).
  destruct (Z.ltb_spec n (2 ^ 20)) as [K1 | K1].
  { rewrite (tens _ 1); [done |]. apply H20 in K1. lia. }
  assert (¬ Z.log2 n < 20) by (intros ?%H20; lia).
  destruct (Z.ltb_spec n (2 ^ 30)) as [K2 | K2].
  { rewrite (tens _ 2); [done |]. apply H30 in K2. lia. }
  assert (¬ Z.log2 n < 30) by (intros ?%H30; lia).
  destruct (Z.ltb_spec n (2 ^ 40)) as [K3 | K3].
  { rewrite (tens _ 3); [done |]. apply H40 in K3. lia. }
  assert (¬ Z.log2 n < 40) by (intros ?%H40; lia).
  destruct (Z.ltb_spec n (2 ^ 50)) as [K4 | K4].
  { rewrite (tens _ 4); [done |]. apply H50 in K4. lia. }
  assert (¬ Z.log2 n < 50) by (intros ?%H50; lia).
  rewrite (tens _ 5); [done | lia].
Qed.

Lemma format_size_by_powers_of_1024_witness :
  Osm.format_size 123456789 = Some "117.74 MB" ∧ Osm.format_size 512 = Some "512.00 B".
Proof.
  destruct (format_size_by_powers_of_1024 123456789) as [H _]; [by vm_compute |].
  destruct (format_size_by_powers_of_1024 512) as [_ H']; [by vm_compute |].
  split; [rewrite H; vm_compute; reflexivity | rewrite H' by lia; vm_compute; reflexivity].
Defined.

(** Where [float] of an [int] overflows: from [2^1024 - 2^970] on, the
    first magnitude that rounds to [2^1024]. *)
Lemma float_of_int_overflow (n : Z) :
  Py.float_of_int n = None ↔ 2 ^ 1024 - 2 ^ 970 ≤ Z.abs n.
Proof.
  unfold Py.float_of_int. cbn zeta.
  set (a := Z.abs n).
  destruct (Z.ltb_spec a (2 ^ 53)) as [Hsmall | Hbig].
  { split; [done |]. intros Hle. exfalso.
    assert (2 ^ 53 < 2 ^ 1024 - 2 ^ 970) by (by vm_compute). lia. }
  assert (0 < a) as Hpos by (assert (0 < 2 ^ 53) by (by vm_compute); lia).
  destruct (Z.log2_spec a Hpos) as [Hlow Hhigh].
  assert (53 ≤ Z.log2 a) as HL by (by apply (Z.log2_le_pow2 a 53)).
  set (L := Z.log2 a) in *.
  set (e := L - 52).
  assert (0 < 2 ^ e) as HP by (apply Z.pow_pos_nonneg; lia).
  assert (2 ^ L = 2 ^ 52 * 2 ^ e) as HLe.
  { rewrite <- Z.pow_add_r by lia. f_equal. lia. }
  assert (2 ^ Z.succ L = 2 ^ 53 * 2 ^ e) as HLs.
  { rewrite <- Z.pow_add_r by lia. f_equal. lia. }
  assert (2 ^ e = 2 * 2 ^ (e - 1)) as Hhalf.
  { rewrite <- (Z.pow_succ_r 2 (e - 1)) by lia. f_equal. lia. }
  pose proof (Z.div_mod a (2 ^ e) ltac:(lia)) as Hdm.
  pose proof (Z.mod_pos_bound a (2 ^ e) HP) as Hr.
  set (q := a / 2 ^ e) in *. set (r := a mod 2 ^ e) in *.
  assert (2 ^ 52 ≤ q < 2 ^ 53) as Hq.
  { rewrite HLe in Hlow. rewrite HLs in Hhigh.
    assert (0 < 2 ^ 52) by (by vm_compute). assert (0 < 2 ^ 53) by (by vm_compute).
    split; nia. }
  set (m := if r <? 2 ^ (e - 1) then q
            else if 2 ^ (e - 1) <? r then q + 1
            else if Z.even q then q else q + 1).
  assert (q ≤ m ≤ q + 1) as Hm.
  { unfold m. repeat match goal with |- context [if ?b then _ else _] => destruct b end; lia. }
  assert (r < 2 ^ (e - 1) → m = q) as Hdown.
  { intros Hlt. unfold m. destruct (Z.ltb_spec r (2 ^ (e - 1))); [done | lia]. }
  assert (2 ^ (e - 1) ≤ r → Z.even q = false → m = q + 1) as Hup.
  { intros Hge Hodd. unfold m. rewrite Hodd.
    destruct (Z.ltb_spec r (2 ^ (e - 1))); [lia |]. by destruct (_ <? r). }
  clearbody m.
  destruct (Z.leb_spec (2 ^ 1024) (m * 2 ^ e)) as [Hover | Hfits].
  - split; [intros _ | done].
    destruct (Z.lt_trichotomy L 1023) as [Hlt | [Heq | Hgt]].
    + exfalso.
      assert (2 ^ e ≤ 2 ^ 970) as Hpe by (apply Z.pow_le_mono_r; lia).
      assert (m * 2 ^ e ≤ 2 ^ 53 * 2 ^ 970) by (apply Z.mul_le_mono_nonneg; lia).
      assert (2 ^ 53 * 2 ^ 970 < 2 ^ 1024) by (by vm_compute). lia.
    + assert (e = 971) as He by lia.
      assert (m = q + 1 ∧ q = 2 ^ 53 - 1) as [Hm1 Hq1].
      { rewrite He in Hover.
        assert (2 ^ 1024 = 2 ^ 53 * 2 ^ 971) as Hpow by (by vm_compute).
        assert (0 < 2 ^ 971) by (by vm_compute). nia. }
      assert (2 ^ (e - 1) ≤ r) as Hr1.
      { destruct (Z.le_gt_cases (2 ^ (e - 1)) r) as [Hge | Hlt]; [done |].
        apply Hdown in Hlt. lia. }
      rewrite He in *. change (971 - 1) with 970 in *.
      assert (2 ^ 1024 - 2 ^ 970 = 2 ^ 971 * (2 ^ 53 - 1) + 2 ^ 970) as -> by (by vm_compute).
      rewrite Hdm, Hq1. lia.
    + assert (2 ^ 972 ≤ 2 ^ e) as Hpe by (apply Z.pow_le_mono_r; lia).
      assert (2 ^ 52 * 2 ^ 972 ≤ q * 2 ^ e) by (apply Z.mul_le_mono_nonneg; lia).
      assert (2 ^ 52 * 2 ^ 972 = 2 ^ 1024) as Hpow by (by vm_compute).
      assert (0 < 2 ^ 970) by (by vm_compute). nia.
  - split; [done | intros Hle; exfalso].
    destruct (Z.lt_trichotomy L 1023) as [Hlt | [Heq | Hgt]].
    + assert (2 ^ e ≤ 2 ^ 970) as Hpe by (apply Z.pow_le_mono_r; lia).
      assert (a < 2 ^ 53 * 2 ^ 970) by (rewrite HLs in Hhigh; nia).
      assert (2 ^ 53 * 2 ^ 970 ≤ 2 ^ 1024 - 2 ^ 970) by (by vm_compute). lia.
    + assert (e = 971) as He by lia.
      rewrite He in *. change (971 - 1) with 970 in *.
      assert (2 ^ 1024 - 2 ^ 970 = 2 ^ 971 * (2 ^ 53 - 1) + 2 ^ 970) as Hthr by (by vm_compute).
      assert (2 ^ 971 = 2 * 2 ^ 970) as Hp2 by (by vm_compute).
      assert (2 ^ 1024 = 2 ^ 53 * 2 ^ 971) as Hpow by (by vm_compute).
      assert (0 < 2 ^ 970) by (by vm_compute).
      assert (q = 2 ^ 53 - 1 ∧ 2 ^ 970 ≤ r) as [Hq1 Hr1] by nia.
      assert (m = q + 1) as Hm1.
      { apply Hup; [done |]. rewrite Hq1. by vm_compute. }
      rewrite Hm1, Hq1 in Hfits. lia.
    + assert (2 ^ 972 ≤ 2 ^ e) as Hpe by (apply Z.pow_le_mono_r; lia).
      assert (2 ^ 52 * 2 ^ 972 ≤ m * 2 ^ e) by (apply Z.mul_le_mono_nonneg; lia).
      assert (2 ^ 52 * 2 ^ 972 = 2 ^ 1024) as Hpow by (by vm_compute). lia.
Qed.

(** X26.  [format_size] raises on sizes that no double holds: it fails
    with the [OverflowError] of the conversion to float exactly when the
    magnitude of the size is [2^1024 - 2^970] or more (a number of 309
    digits), whatever its sign, and returns a text for every other size. *)
Theorem format_size_overflow (n : Z) :
  (Osm.format_size n = None ↔ 2 ^ 1024 - 2 ^ 970 ≤ Z.abs n)
  ∧ (is_Some (Osm.format_size n) ↔ Z.abs n < 2 ^ 1024 - 2 ^ 970).
Proof.
  assert (Osm.format_size n = None ↔ Py.float_of_int n = None) as Hnone.
  { unfold Osm.format_size.
    destruct (n <? 1024), (Py.float_of_int n); split; done. }
  split; [by rewrite Hnone, float_of_int_overflow |].
  rewrite <- not_eq_None_Some, Hnone, float_of_int_overflow. lia.
Qed.

(** ** The password and the command lines *)

Lemma endswith_after (p a b : string) :
  Py.endswith p b = true → Py.endswith p (a +:+ b) = true.
Proof.
  intros Hb. induction a as [| c a IH]; [by rewrite append_nil_l |].
  rewrite append_cons. cbn [Py.endswith]. rewrite IH. apply orb_true_r.
Qed.

(** X27.  The OSM job keeps the database password off the command line:
    the [osm2pgsql] command is the same whatever the password.  The GADM
    job does not: the [ogr2ogr] command of every layer carries the
    connection string, an argument that ends with [password=] and the
    password. *)
Theorem password_on_the_command_line :
  (∀ (c : Osm.Config) (p pbf_file : string),
     Osm.osm2pgsql_cmd (with_password p c) pbf_file = Osm.osm2pgsql_cmd c pbf_file)
  ∧ (∀ (c : Gadm.Config) (table_name layer gpkg_path : string),
       ∃ arg, arg ∈ Gadm.ogr2ogr_cmd c table_name layer gpkg_path
              ∧ Py.endswith ("password=" +:+ Gadm.db_password c) arg = true).
Proof.
  split; [done |]. intros c table_name layer gpkg_path.
  exists ("PG:" +:+ Gadm.connection_string c). split.
  - unfold Gadm.ogr2ogr_cmd. listed.
  - unfold Gadm.connection_string, conninfo.
    do 9 apply endswith_after.
    change (" password=" +:+ Gadm.db_password c)
      with (" " +:+ ("password=" +:+ Gadm.db_password c)).
    apply endswith_append.
Qed.
